(** * user-api-restful: error translation and transactional orchestration

    A shallow embedding of the persistence adapter
    ([internal/persistence/database/postgres_repository.go]), of the use-case
    orchestrator ([internal/application/user_service_impl.go]), of the domain
    error taxonomy ([internal/domain/errors.go]) and of the status decisions
    of the HTTP handlers, followed by the properties of the specification
    that were checked against them.

    Go values are modelled as follows.
    - An [error] interface value is a value of the inductive type [error],
      one constructor per dynamic type that occurs in the program.  Values
      of pointer type ([*errors.errorString], [*fmt.wrapError]) carry the
      address they were allocated at, because [==] on them is address
      equality.
    - A nil-able pointer or interface is an [option].
    - Methods are functions in a state monad [M] over a [World] made of the
      relational store, the allocator, the wall clock and the process log;
      a panic is an outcome of its own.
    - A closure that assigns variables of the enclosing function takes
      their values as an argument and returns the new ones with its
      result. *)

From Stdlib Require Import ZArith List String Ascii Bool Lia PeanoNat.
Import ListNotations.
Open Scope string_scope.

Set Implicit Arguments.

(** ** Error values *)

(** Addresses of heap-allocated values. *)
Definition loc := nat.

(** [*pq.Error] (github.com/lib/pq): the fields the adapter reads, and
    the column, which the server reports for a not-null violation. *)
Record pq_Error := {
  pq_Code : string;
  pq_Constraint : string;
  pq_Table : string;
  pq_Column : string;
  pq_Message : string
}.

(** [*pgconn.PgError] (github.com/jackc/pgx/v5/pgconn). *)
Record pgconn_PgError := {
  pg_Severity : string;
  pg_Code : string;
  pg_Message : string;
  pg_TableName : string;
  pg_ColumnName : string;
  pg_ConstraintName : string
}.

(** The double quote, for the texts that hold one. *)
Definition quote : string := String (Ascii.ascii_of_nat 34) "".

Inductive error : Type :=
| errorString (p : loc) (s : string)               (* *errors.errorString *)
| wrapError (p : loc) (msg : string) (err : error) (* *fmt.wrapError *)
| ErrValueNotNullable (Value : string)             (* domain.ErrValueNotNullable *)
| ErrInternalServer (Value : string)               (* domain.ErrInternalServer *)
| ErrTransactionFailed (Value : string)            (* domain.ErrTransactionFailed *)
| PqError (e : pq_Error)
| PgError (e : pgconn_PgError)
| otherError (text : string).                      (* any other driver or network error *)

(** The [Error() string] method of each dynamic type. *)
Definition Error (e : error) : string :=
  match e with
  | errorString _ s => s
  | wrapError _ msg _ => msg
  | ErrValueNotNullable v => v ++ " is not nullable"
  | ErrInternalServer v => "internal server error: " ++ v
  | ErrTransactionFailed v => "error transaction failed: " ++ v
  | PqError e => "pq: " ++ pq_Message e
  | PgError e => pg_Severity e ++ ": " ++ pg_Message e ++ " (SQLSTATE " ++ pg_Code e ++ ")"
  | otherError text => text
  end.

Definition pq_Error_eqb (a b : pq_Error) : bool :=
  String.eqb (pq_Code a) (pq_Code b) && String.eqb (pq_Constraint a) (pq_Constraint b)
  && String.eqb (pq_Table a) (pq_Table b) && String.eqb (pq_Column a) (pq_Column b)
  && String.eqb (pq_Message a) (pq_Message b).

Definition pgconn_PgError_eqb (a b : pgconn_PgError) : bool :=
  String.eqb (pg_Severity a) (pg_Severity b) && String.eqb (pg_Code a) (pg_Code b)
  && String.eqb (pg_Message a) (pg_Message b)
  && String.eqb (pg_TableName a) (pg_TableName b)
  && String.eqb (pg_ColumnName a) (pg_ColumnName b)
  && String.eqb (pg_ConstraintName a) (pg_ConstraintName b).

(** Go's [==] on two non-nil interface values: same dynamic type and equal
    values; two pointers are equal when they hold the same address.  The
    driver errors are never compared with a value of their own type by this
    program, so they carry no address. *)
Definition error_eqb (a b : error) : bool :=
  match a, b with
  | errorString p _, errorString q _ => Nat.eqb p q
  | wrapError p _ _, wrapError q _ _ => Nat.eqb p q
  | ErrValueNotNullable v, ErrValueNotNullable w => String.eqb v w
  | ErrInternalServer v, ErrInternalServer w => String.eqb v w
  | ErrTransactionFailed v, ErrTransactionFailed w => String.eqb v w
  | PqError e, PqError f => pq_Error_eqb e f
  | PgError e, PgError f => pgconn_PgError_eqb e f
  | otherError s, otherError t => String.eqb s t
  | _, _ => false
  end.

(** [errors.Is(err, target)] for non-nil [err] and [target]: walk the
    [Unwrap] chain of [err] looking for a value equal to [target]. *)
Fixpoint errors_Is (err target : error) : bool :=
  if error_eqb err target then true
  else match err with
       | wrapError _ _ inner => errors_Is inner target
       | _ => false
       end.

(** [errors.As(err, &target)] for the three target types the program uses:
    the first value of that dynamic type on the [Unwrap] chain. *)
Fixpoint errors_As_pq (err : error) : option pq_Error :=
  match err with
  | PqError e => Some e
  | wrapError _ _ inner => errors_As_pq inner
  | _ => None
  end.

Fixpoint errors_As_pgconn (err : error) : option pgconn_PgError :=
  match err with
  | PgError e => Some e
  | wrapError _ _ inner => errors_As_pgconn inner
  | _ => None
  end.

Fixpoint errors_As_ErrValueNotNullable (err : error) : option string :=
  match err with
  | ErrValueNotNullable v => Some v
  | wrapError _ _ inner => errors_As_ErrValueNotNullable inner
  | _ => None
  end.

(** ** Package-level error values

    Each [errors.New] of a package initialiser allocates once, before
    [main] runs; the first run-time allocation gets [first_free_loc]. *)

(* internal/domain/errors.go *)
Definition ErrUserNotFound : error := errorString 0 "user not found".
Definition ErrUsernameInUse : error := errorString 1 "username already in use".
Definition ErrEmailInUse : error := errorString 2 "email already in use".
Definition ErrIdInUse : error := errorString 3 "id already in use".

(* gorm.io/gorm *)
Definition gorm_ErrRecordNotFound : error := errorString 4 "record not found".
Definition gorm_ErrInvalidData : error := errorString 5 "unsupported data".
Definition gorm_ErrMissingWhereClause : error := errorString 6 "WHERE conditions required".
(* database/sql *)
Definition sql_ErrTxDone : error :=
  errorString 7 "sql: transaction has already been committed or rolled back".

(* github.com/jackc/pgx/v5 *)
Definition pgx_ErrTxCommitRollback : error :=
  errorString 8 "commit unexpectedly resulted in rollback".

Definition first_free_loc : loc := 9.

(** ** Domain and persistence records *)

(* internal/domain/user.go *)
Record User := {
  ID : string;
  Name : string;
  Username : string;
  Email : string
}.

Record UserCreateRequest := {
  req_Name : string;
  req_Username : string;
  req_Email : string
}.

(* internal/persistence/entity/user_entity.go *)
Record UserEntity := {
  ent_ID : string;
  ent_Name : string;
  ent_Username : string;
  ent_Email : string
}.

(** [entity.ToEntity]: a nil pointer gives the zero entity. *)
Definition ToEntity (user : option User) : UserEntity :=
  match user with
  | None => {| ent_ID := ""; ent_Name := ""; ent_Username := ""; ent_Email := "" |}
  | Some user =>
      {| ent_ID := ID user; ent_Name := Name user;
         ent_Username := Username user; ent_Email := Email user |}
  end.

Definition FromEntity (entity : UserEntity) : User :=
  {| ID := ent_ID entity; Name := ent_Name entity;
     Username := ent_Username entity; Email := ent_Email entity |}.

(** ** Driver error inspection *)

Record PgErrorData := {
  Code : string;
  Constraint : string
}.

(** [extractPgError]: the argument is the non-nil error of a failed
    statement ([nil] is [None] and gives [None]). *)
Definition extractPgError (err : option error) : option PgErrorData :=
  match err with
  | None => None
  | Some err =>
      match errors_As_pq err with
      | Some pqErr =>
          let constraintName := pq_Constraint pqErr in
          let constraintName :=
            if String.eqb constraintName "" then pq_Table pqErr else constraintName in
          Some {| Code := pq_Code pqErr; Constraint := constraintName |}
      | None =>
          match errors_As_pgconn err with
          | Some pgconnErr =>
              Some {| Code := pg_Code pgconnErr; Constraint := pg_ConstraintName pgconnErr |}
          | None =>
              if errors_Is err gorm_ErrRecordNotFound || errors_Is err gorm_ErrInvalidData
              then None
              else None
          end
      end
  end.

(** ** The world the program runs in *)

(** [time.Time] as the wall clock gives it: seconds since the epoch and the
    nanoseconds within the second. *)
Record Time := {
  Unix : Z;
  Nanosecond : Z
}.

(** What the store was asked to do, in order. *)
Inductive Event :=
| EvBegin | EvCommit | EvRollback | EvSavePoint | EvRollbackTo
| EvInsert (row : UserEntity)
| EvSelectAll
| EvSelectById (id : string)
| EvUpdate (id : string) (value : UserEntity)
| EvDelete (id : string).

(** An open store transaction: its working copy of the table, and whether a
    statement failed in it (the engine then refuses every further statement
    until a rollback). *)
Record TxState := {
  work : list UserEntity;
  aborted : bool
}.

Record World := {
  committed : list UserEntity;       (* table user_entities, as committed *)
  tx : option TxState;               (* the open transaction, if any *)
  faults : list (option error);      (* failures the store or the network
                                        will inflict, one entry per statement *)
  trace : list Event;                (* statements issued so far, newest first *)
  next_loc : loc;                    (* allocator *)
  clock : nat -> Time;               (* successive readings of time.Now() *)
  ticks : nat;                       (* readings taken so far *)
  logs : list string                 (* package log, newest first *)
}.

Definition set_committed (v : list UserEntity) (w : World) : World :=
  {| committed := v; tx := tx w; faults := faults w; trace := trace w;
     next_loc := next_loc w; clock := clock w; ticks := ticks w; logs := logs w |}.
Definition set_tx (v : option TxState) (w : World) : World :=
  {| committed := committed w; tx := v; faults := faults w; trace := trace w;
     next_loc := next_loc w; clock := clock w; ticks := ticks w; logs := logs w |}.
Definition set_faults (v : list (option error)) (w : World) : World :=
  {| committed := committed w; tx := tx w; faults := v; trace := trace w;
     next_loc := next_loc w; clock := clock w; ticks := ticks w; logs := logs w |}.
Definition set_trace (v : list Event) (w : World) : World :=
  {| committed := committed w; tx := tx w; faults := faults w; trace := v;
     next_loc := next_loc w; clock := clock w; ticks := ticks w; logs := logs w |}.
Definition set_next_loc (v : loc) (w : World) : World :=
  {| committed := committed w; tx := tx w; faults := faults w; trace := trace w;
     next_loc := v; clock := clock w; ticks := ticks w; logs := logs w |}.
Definition set_ticks (v : nat) (w : World) : World :=
  {| committed := committed w; tx := tx w; faults := faults w; trace := trace w;
     next_loc := next_loc w; clock := clock w; ticks := v; logs := logs w |}.
Definition set_logs (v : list string) (w : World) : World :=
  {| committed := committed w; tx := tx w; faults := faults w; trace := trace w;
     next_loc := next_loc w; clock := clock w; ticks := ticks w; logs := v |}.

(** ** The monad of Go statements: state, and panics *)

Inductive Outcome (A : Type) : Type :=
| Ok (a : A)
| Panic (v : string).
Arguments Panic {A} v.

Definition M (A : Type) : Type := World -> Outcome A * World.

Definition ret {A} (a : A) : M A := fun w => (Ok a, w).

Definition bind {A B} (m : M A) (k : A -> M B) : M B :=
  fun w =>
    match m w with
    | (Ok a, w') => k a w'
    | (Panic v, w') => (Panic v, w')
    end.

Definition panic {A} (v : string) : M A := fun w => (Panic v, w).

Declare Scope go_scope.
Delimit Scope go_scope with go.
Notation "x <- m ;; k" := (bind m (fun x => k))
  (at level 61, m at next level, right associativity) : go_scope.
Notation "m ;;; k" := (bind m (fun _ => k))
  (at level 61, right associativity) : go_scope.
Open Scope go_scope.

Definition gets {A} (f : World -> A) : M A := fun w => (Ok (f w), w).
Definition modify (f : World -> World) : M unit := fun w => (Ok tt, f w).

(** [errors.New(text)] and [fmt.Errorf] with a format that has no [%w]:
    a fresh [*errors.errorString]. *)
Definition errors_New (text : string) : M error :=
  fun w => (Ok (errorString (next_loc w) text), set_next_loc (S (next_loc w)) w).

(** [fmt.Errorf(prefix + "%w", err)]: a fresh [*fmt.wrapError] whose message
    is the formatted text and whose [Unwrap] is [err]. *)
Definition fmt_Errorf_w (prefix : string) (err : error) : M error :=
  fun w => (Ok (wrapError (next_loc w) (prefix ++ Error err) err),
            set_next_loc (S (next_loc w)) w).

(** [log.Printf], after formatting. *)
Definition log_Print (line : string) : M unit :=
  modify (fun w => set_logs (line :: logs w) w).

(** [time.Now()]. *)
Definition time_Now : M Time :=
  fun w => (Ok (clock w (ticks w)), set_ticks (S (ticks w)) w).

(** ** The relational store behind GORM

    The store is an external collaborator.  Its model follows the schema
    [AutoMigrate] derives from [entity.UserEntity], which has no
    [TableName]: the table [user_entities], whose primary key on [id] the
    server names [user_entities_pkey], and the unique indexes
    [idx_username] and [idx_email] of the tags.  One session is modelled; a
    statement first meets the next entry of [faults], so that every driver
    error can reach the adapter. *)

(** A [*gorm.DB]: the connection pool, or the handle bound to the open
    transaction. *)
Inductive Handle := Pool | Tx.

(** The outcome of a GORM write: [result.Error] and [result.RowsAffected]. *)
Record gorm_DB := {
  gorm_Error : option error;
  RowsAffected : Z
}.

Definition unique_violation (constraint : string) : error :=
  PgError {| pg_Severity := "ERROR"; pg_Code := "23505";
             pg_Message := "duplicate key value violates unique constraint "
                           ++ quote ++ constraint ++ quote;
             pg_TableName := "user_entities"; pg_ColumnName := "";
             pg_ConstraintName := constraint |}.

Definition in_failed_transaction : error :=
  PgError {| pg_Severity := "ERROR"; pg_Code := "25P02";
             pg_Message := "current transaction is aborted, commands ignored until end of transaction block";
             pg_TableName := ""; pg_ColumnName := "";
             pg_ConstraintName := "" |}.

Definition zero_entity : UserEntity :=
  {| ent_ID := ""; ent_Name := ""; ent_Username := ""; ent_Email := "" |}.

(** The unique constraint that [row] would violate next to [others]. *)
Definition violated (row : UserEntity) (others : list UserEntity) : option string :=
  if existsb (fun r => String.eqb (ent_ID r) (ent_ID row)) others
  then Some "user_entities_pkey"
  else if existsb (fun r => String.eqb (ent_Username r) (ent_Username row)) others
       then Some "idx_username"
  else if existsb (fun r => String.eqb (ent_Email r) (ent_Email row)) others
       then Some "idx_email"
  else None.

Fixpoint violated_any (rows others : list UserEntity) : option string :=
  match rows with
  | [] => None
  | r :: rows' =>
      match violated r others with
      | Some c => Some c
      | None => violated_any rows' others
      end
  end.

Definition emit (ev : Event) : M unit :=
  modify (fun w => set_trace (ev :: trace w) w).

(** The fault the next statement meets, if any; an exhausted list means a
    healthy store. *)
Definition next_fault : M (option error) :=
  fun w => (Ok (hd None (faults w)), set_faults (tl (faults w)) w).

Definition set_work (rows : list UserEntity) (t : TxState) : TxState :=
  {| work := rows; aborted := aborted t |}.
Definition set_aborted (b : bool) (t : TxState) : TxState :=
  {| work := work t; aborted := b |}.

(** A statement failed on the server side: inside a transaction the
    transaction is aborted. *)
Definition statement_failed (h : Handle) : M unit :=
  match h with
  | Pool => ret tt
  | Tx => modify (fun w => set_tx (option_map (set_aborted true) (tx w)) w)
  end.

(** One SQL statement through handle [h].  [run] is its effect on the rows
    the handle sees: a result and the new rows, or a server error. *)
Definition statement {A} (h : Handle) (ev : Event) (zero : A)
    (run : list UserEntity -> (A * list UserEntity) + error) : M (A * option error) :=
  open <- gets tx ;;
  match h, open with
  | Tx, None => ret (zero, Some sql_ErrTxDone)
  | _, _ =>
      emit ev ;;;
      f <- next_fault ;;
      match f with
      | Some e => statement_failed h ;;; ret (zero, Some e)
      | None =>
          visible <- gets (fun w => match h, tx w with
                                    | Tx, Some t => if aborted t then None else Some (work t)
                                    | _, _ => Some (committed w)
                                    end) ;;
          match visible with
          | None => ret (zero, Some in_failed_transaction)
          | Some rows =>
              match run rows with
              | inr e => statement_failed h ;;; ret (zero, Some e)
              | inl (a, rows') =>
                  modify (fun w => match h with
                                   | Pool => set_committed rows' w
                                   | Tx => set_tx (option_map (set_work rows') (tx w)) w
                                   end) ;;;
                  ret (a, None)
              end
          end
      end
  end.

(** [db.Create(&value).Error]: INSERT. *)
Definition gorm_Create (h : Handle) (value : UserEntity) : M (option error) :=
  r <- statement h (EvInsert value) tt
         (fun rows => match violated value rows with
                      | Some c => inr (unique_violation c)
                      | None => inl (tt, (rows ++ [value])%list)
                      end) ;;
  ret (snd r).

(** [db.Find(&dest).Error]: SELECT of every row; the order is the store's. *)
Definition gorm_Find (h : Handle) : M (list UserEntity * option error) :=
  statement h EvSelectAll [] (fun rows => inl (rows, rows)).

(** [db.Where("id = ?", id).First(&dest).Error]: the row with that id,
    [gorm.ErrRecordNotFound] when there is none. *)
Definition gorm_First (h : Handle) (id : string) : M (UserEntity * option error) :=
  r <- statement h (EvSelectById id) None
         (fun rows => inl (find (fun r => String.eqb (ent_ID r) id) rows, rows)) ;;
  match r with
  | (_, Some e) => ret (zero_entity, Some e)
  | (None, None) => ret (zero_entity, Some gorm_ErrRecordNotFound)
  | (Some row, None) => ret (row, None)
  end.

(** [Updates] with a struct writes its non-zero fields only. *)
Definition merge (value row : UserEntity) : UserEntity :=
  {| ent_ID := if String.eqb (ent_ID value) "" then ent_ID row else ent_ID value;
     ent_Name := if String.eqb (ent_Name value) "" then ent_Name row else ent_Name value;
     ent_Username :=
       if String.eqb (ent_Username value) "" then ent_Username row else ent_Username value;
     ent_Email := if String.eqb (ent_Email value) "" then ent_Email row else ent_Email value |}.

Definition is_zero (value : UserEntity) : bool :=
  String.eqb (ent_ID value) "" && String.eqb (ent_Name value) ""
  && String.eqb (ent_Username value) "" && String.eqb (ent_Email value) "".

(** [db.Model(&UserEntity{ID: id}).Updates(value)]: UPDATE ... WHERE id = ?.
    Without a primary key GORM refuses the statement; with nothing to set it
    sends none. *)
Definition gorm_Updates (h : Handle) (id : string) (value : UserEntity) : M gorm_DB :=
  if String.eqb id "" then
    ret {| gorm_Error := Some gorm_ErrMissingWhereClause; RowsAffected := 0 |}
  else if is_zero value then
    ret {| gorm_Error := None; RowsAffected := 0 |}
  else
    r <- statement h (EvUpdate id value) 0%Z
           (fun rows =>
              let hits := filter (fun r => String.eqb (ent_ID r) id) rows in
              let others := filter (fun r => negb (String.eqb (ent_ID r) id)) rows in
              match violated_any (map (merge value) hits) others with
              | Some c => inr (unique_violation c)
              | None =>
                  inl (Z.of_nat (List.length hits),
                       map (fun r => if String.eqb (ent_ID r) id then merge value r else r) rows)
              end) ;;
    ret {| gorm_Error := snd r; RowsAffected := fst r |}.

(** [db.Delete(&UserEntity{ID: id})]: DELETE ... WHERE id = ?. *)
Definition gorm_Delete (h : Handle) (id : string) : M gorm_DB :=
  if String.eqb id "" then
    ret {| gorm_Error := Some gorm_ErrMissingWhereClause; RowsAffected := 0 |}
  else
    r <- statement h (EvDelete id) 0%Z
           (fun rows =>
              inl (Z.of_nat (List.length (filter (fun r => String.eqb (ent_ID r) id) rows)),
                   filter (fun r => negb (String.eqb (ent_ID r) id)) rows)) ;;
    ret {| gorm_Error := snd r; RowsAffected := fst r |}.

(** BEGIN on the pool. *)
Definition gorm_Begin : M (option error) :=
  emit EvBegin ;;;
  f <- next_fault ;;
  match f with
  | Some e => ret (Some e)
  | None =>
      modify (fun w => set_tx (Some {| work := committed w; aborted := false |}) w) ;;;
      ret None
  end.

(** ROLLBACK; GORM ignores its result. *)
Definition gorm_Rollback : M unit :=
  open <- gets tx ;;
  match open with
  | None => ret tt
  | Some _ => emit EvRollback ;;; modify (set_tx None)
  end.

(** COMMIT.  Whatever the answer, the transaction is over afterwards: a
    commit that fails, or that the engine answers with a rollback because
    the transaction was aborted, publishes nothing. *)
Definition gorm_Commit : M (option error) :=
  open <- gets tx ;;
  match open with
  | None => ret (Some sql_ErrTxDone)
  | Some t =>
      emit EvCommit ;;;
      f <- next_fault ;;
      match f with
      | Some e => modify (set_tx None) ;;; ret (Some e)
      | None =>
          if aborted t then modify (set_tx None) ;;; ret (Some pgx_ErrTxCommitRollback)
          else modify (fun w => set_tx None (set_committed (work t) w)) ;;; ret None
      end
  end.

(** ROLLBACK TO SAVEPOINT; GORM ignores its result. *)
Definition gorm_RollbackTo (snapshot : list UserEntity) : M unit :=
  open <- gets tx ;;
  match open with
  | None => ret tt
  | Some _ =>
      emit EvRollbackTo ;;;
      modify (set_tx (Some {| work := snapshot; aborted := false |}))
  end.

(** [db.Transaction(fc)].  On the pool: BEGIN, run [fc] on the transaction
    handle, COMMIT when it returns nil, ROLLBACK when it returns an error or
    panics.  On a transaction handle: the same between a savepoint and a
    rollback to it.  [l] holds the variables [fc] assigns. *)
Definition gorm_Transaction {L} (h : Handle)
    (fc : Handle -> L -> M (option error * L)) (l : L) : M (option error * L) :=
  match h with
  | Pool =>
      began <- gorm_Begin ;;
      match began with
      | Some e => ret (Some e, l)
      | None =>
          fun w =>
            match fc Tx l w with
            | (Panic v, w') => (Panic v, snd (gorm_Rollback w'))
            | (Ok (Some err, l'), w') => (Ok (Some err, l'), snd (gorm_Rollback w'))
            | (Ok (None, l'), w') => (c <- gorm_Commit ;; ret (c, l')) w'
            end
      end
  | Tx =>
      sp <- statement Tx EvSavePoint tt (fun rows => inl (tt, rows)) ;;
      match snd sp with
      | Some e => ret (Some e, l)
      | None =>
          snapshot <- gets (fun w => match tx w with Some t => work t | None => [] end) ;;
          fun w =>
            match fc Tx l w with
            | (Panic v, w') => (Panic v, snd (gorm_RollbackTo snapshot w'))
            | (Ok (Some err, l'), w') => (Ok (Some err, l'), snd (gorm_RollbackTo snapshot w'))
            | (Ok (None, l'), w') => (Ok (None, l'), w')
            end
      end
  end.

(** ** Ports (internal/domain) *)

(** [domain.UserRepository]. *)
Record UserRepository := {
  repo_Create : option User -> M (option error);
  repo_FindAll : M (option (list User) * option error);
  repo_FindById : string -> M (option User * option error);
  repo_Update : option User -> M (option error);
  repo_Delete : string -> M (option error)
}.

(** [domain.UserTransactionPort].  [L] is the type of the variables the
    unit of work assigns in its caller. *)
Record UserTransactionPort := {
  port_Execute :
    forall L : Type, (UserRepository -> L -> M (option error * L)) -> L -> M (option error * L)
}.

(** ** The relational adapter (internal/persistence/database) *)

Record PostgresRepository := {
  db : Handle
}.

Definition NewPostgresRepository (db : Handle) : PostgresRepository := {| db := db |}.

(** [Create]: a [switch] without [default] that matches nothing leaves its
    [if] and the next test runs. *)
Definition PostgresRepository_Create (p : PostgresRepository) (user : option User)
    : M (option error) :=
  let userEntity := ToEntity user in
  result <- gorm_Create (db p) userEntity ;;
  match result with
  | Some cause =>
      let err := extractPgError result in
      match
        match err with
        | Some e =>
            if String.eqb (Code e) "23505" then
              if String.eqb (Constraint e) "users_pkey" then Some ErrIdInUse
              else if String.eqb (Constraint e) "idx_username" then Some ErrUsernameInUse
              else if String.eqb (Constraint e) "idx_email" then Some ErrEmailInUse
              else None
            else None
        | None => None
        end
      with
      | Some conflict => ret (Some conflict)
      | None =>
          match err with
          | Some e =>
              if String.eqb (Code e) "23502" then
                let column :=
                  if String.eqb (Constraint e) "id" || String.eqb (Constraint e) "username"
                     || String.eqb (Constraint e) "email"
                  then Constraint e
                  else "a column" in
                ret (Some (ErrValueNotNullable column))
              else ret (Some (ErrInternalServer (Error cause)))
          | None => ret (Some (ErrInternalServer (Error cause)))
          end
      end
  | None => ret None
  end.

Definition PostgresRepository_FindAll (p : PostgresRepository)
    : M (option (list User) * option error) :=
  r <- gorm_Find (db p) ;;
  let '(userEntities, err) := r in
  match err with
  | Some err => ret (None, Some (ErrInternalServer (Error err)))
  | None => ret (Some (map FromEntity userEntities), None)
  end.

Definition PostgresRepository_FindById (p : PostgresRepository) (id : string)
    : M (option User * option error) :=
  r <- gorm_First (db p) id ;;
  let '(userEntity, err) := r in
  match err with
  | Some err =>
      if errors_Is err gorm_ErrRecordNotFound then ret (None, Some ErrUserNotFound)
      else ret (None, Some (ErrInternalServer (Error err)))
  | None => ret (Some (FromEntity userEntity), None)
  end.

Definition PostgresRepository_Update (p : PostgresRepository) (user : option User)
    : M (option error) :=
  let userEntity := ToEntity user in
  result <- gorm_Updates (db p) (ent_ID userEntity) userEntity ;;
  match gorm_Error result with
  | Some cause =>
      if errors_Is cause gorm_ErrRecordNotFound then ret (Some ErrUserNotFound)
      else
        let err := extractPgError (gorm_Error result) in
        match
          match err with
          | Some e =>
              if String.eqb (Code e) "23505" then
                if String.eqb (Constraint e) "users_pkey" then Some ErrIdInUse
                else if String.eqb (Constraint e) "idx_username" then Some ErrUsernameInUse
                else if String.eqb (Constraint e) "idx_email" then Some ErrEmailInUse
                else None
              else None
          | None => None
          end
        with
        | Some conflict => ret (Some conflict)
        | None =>
            match err with
            | Some e =>
                if String.eqb (Code e) "23502" then
                  let column :=
                    if String.eqb (Constraint e) "id" || String.eqb (Constraint e) "username"
                       || String.eqb (Constraint e) "email"
                    then Constraint e
                    else "a column" in
                  ret (Some (ErrValueNotNullable column))
                else ret (Some (ErrInternalServer (Error cause)))
            | None => ret (Some (ErrInternalServer (Error cause)))
            end
        end
  | None =>
      if Z.eqb (RowsAffected result) 0 then ret (Some ErrUserNotFound)
      else ret None
  end.

Definition PostgresRepository_Delete (p : PostgresRepository) (id : string)
    : M (option error) :=
  result <- gorm_Delete (db p) id ;;
  match gorm_Error result with
  | Some cause => ret (Some (ErrInternalServer (Error cause)))
  | None =>
      if Z.eqb (RowsAffected result) 0 then ret (Some ErrUserNotFound)
      else ret None
  end.

(** A [*PostgresRepository] seen through [domain.UserRepository]. *)
Definition as_UserRepository (p : PostgresRepository) : UserRepository :=
  {| repo_Create := PostgresRepository_Create p;
     repo_FindAll := PostgresRepository_FindAll p;
     repo_FindById := PostgresRepository_FindById p;
     repo_Update := PostgresRepository_Update p;
     repo_Delete := PostgresRepository_Delete p |}.

(** [Execute].  The closure handed to [db.Transaction] assigns
    [capturedDomainError]; [fn] assigns the variables [l] of its caller. *)
Definition PostgresRepository_Execute {L} (p : PostgresRepository)
    (fn : UserRepository -> L -> M (option error * L)) (l : L) : M (option error * L) :=
  let capturedDomainError : option error := None in
  r <- gorm_Transaction (db p)
         (fun tx (captured : option error * L) =>
            let txRepo := {| db := tx |} in
            r <- fn (as_UserRepository txRepo) (snd captured) ;;
            let '(txResultErr, l') := r in
            match txResultErr with
            | Some _ => ret (txResultErr, (txResultErr, l'))
            | None => ret (None, (fst captured, l'))
            end)
         (capturedDomainError, l) ;;
  let '(txErr, (capturedDomainError, l')) := r in
  match txErr with
  | Some cause =>
      log_Print ("[Transaction Failed] Database Error: " ++ Error cause) ;;;
      match capturedDomainError with
      | Some domainError => ret (Some domainError, l')
      | None => ret (Some (ErrTransactionFailed (Error cause)), l')
      end
  | None => ret (None, l')
  end.

(** A [*PostgresRepository] seen through [domain.UserTransactionPort]. *)
Definition as_UserTransactionPort (p : PostgresRepository) : UserTransactionPort :=
  {| port_Execute := fun L => @PostgresRepository_Execute L p |}.

(** ** Identifiers (github.com/oklog/ulid/v2, time, math/rand) *)

(** Two library functions are taken as they are, without their bodies. *)
Class GoLibs := {
  (** [fmt.Sprintf(format)] called without operands. *)
  fmt_Sprintf : string -> string;
  (** The first ten bytes read from a [math/rand] generator seeded with the
      given [int64], as a big-endian number. *)
  rand_Read10 : Z -> Z
}.

Definition to_int64 (z : Z) : Z := (z + 2 ^ 63) mod 2 ^ 64 - 2 ^ 63.
Definition to_uint64 (z : Z) : Z := z mod 2 ^ 64.

(** [t.UnixNano()]. *)
Definition UnixNano (t : Time) : Z := to_int64 (Unix t * 1000000000 + Nanosecond t).

(** [ulid.Timestamp(t)]: milliseconds since the epoch, in [uint64]. *)
Definition ulid_Timestamp (t : Time) : Z :=
  to_uint64 (to_uint64 (Unix t) * 1000 + to_uint64 (Z.quot (Nanosecond t) 1000000)).

Definition ulid_maxTime : Z := 281474976710655.

(** [ulid.MustNew(ms, ulid.Monotonic(rand.New(rand.NewSource(seed)), 0))]:
    a 128-bit value, 48 bits of time over 80 bits read from the fresh
    generator; it panics when the time does not fit. *)
Definition ulid_MustNew `{GoLibs} (ms : Z) (seed : Z) : M Z :=
  if Z.ltb ulid_maxTime ms then panic "ulid: time too big"
  else ret (ms * 2 ^ 80 + rand_Read10 seed mod 2 ^ 80)%Z.

Definition ulid_Encoding : list ascii :=
  list_ascii_of_string "0123456789ABCDEFGHJKMNPQRSTVWXYZ".

(** [ULID.String()]: 26 characters of Crockford base 32, most significant
    first. *)
Definition ulid_String (id : Z) : string :=
  string_of_list_ascii
    (map (fun i => nth (Z.to_nat (Z.land (Z.shiftr id (5 * (25 - Z.of_nat i))) 31))
                       ulid_Encoding "0"%char)
         (seq 0 26)).

Arguments ulid_String id : simpl never.
Arguments ulid_Timestamp t : simpl never.
Arguments UnixNano t : simpl never.

(** ** The use-case orchestrator (internal/application) *)

Record UserServiceImpl := {
  Repo : UserRepository;
  txPort : UserTransactionPort
}.

Definition NewUserServiceImpl (repo : UserRepository) (tx : UserTransactionPort)
    : UserServiceImpl :=
  {| Repo := repo; txPort := tx |}.

Section Application.
Context `{GoLibs}.

(** [fmt.Errorf(format)] without operands and without [%w] is
    [errors.New(fmt.Sprintf(format))]; a constant format without verb is its
    own output. *)
Definition mapRepositoryError (err : error) : M error :=
  if errors_Is err ErrUserNotFound then errors_New "user not found"
  else if errors_Is err ErrUsernameInUse then errors_New "username already in use"
  else if errors_Is err ErrEmailInUse then errors_New "email already in use"
  else
    match errors_As_ErrValueNotNullable err with
    | Some Value => errors_New (fmt_Sprintf (Error (ErrValueNotNullable Value)))
    | None => fmt_Errorf_w "internal service error: " err
    end.

(** Lines 49-51 of [Create]: the identifier is computed from one reading of
    the clock, which is both the time stamp and the seed of the entropy. *)
Definition newID (t : Time) : M string :=
  let entropy := UnixNano t in
  id <- ulid_MustNew (ulid_Timestamp t) entropy ;;
  ret (ulid_String id).

Definition UserServiceImpl_Create (u : UserServiceImpl) (user : option UserCreateRequest)
    : M (option User * option error) :=
  let createdUser : option User := None in
  r <- port_Execute (txPort u)
         (fun repo (createdUser : option User) =>
            match user with
            | None => panic "runtime error: invalid memory address or nil pointer dereference"
            | Some user =>
                t <- time_Now ;;
                id <- newID t ;;
                let newUser :=
                  {| ID := id; Name := req_Name user;
                     Username := req_Username user; Email := req_Email user |} in
                result <- repo_Create repo (Some newUser) ;;
                match result with
                | Some e =>
                    log_Print ("Estamos en create, error: " ++ Error e) ;;;
                    ret (result, createdUser)
                | None => ret (None, Some newUser)
                end
            end)
         createdUser ;;
  let '(err, createdUser) := r in
  match err with
  | Some err => e <- mapRepositoryError err ;; ret (None, Some e)
  | None => ret (createdUser, None)
  end.

Definition UserServiceImpl_FindAll (u : UserServiceImpl)
    : M (option (list User) * option error) :=
  r <- repo_FindAll (Repo u) ;;
  let '(users, err) := r in
  match err with
  | Some err => e <- mapRepositoryError err ;; ret (None, Some e)
  | None => ret (users, None)
  end.

Definition UserServiceImpl_FindById (u : UserServiceImpl) (id : string)
    : M (option User * option error) :=
  r <- repo_FindById (Repo u) id ;;
  let '(user, err) := r in
  match err with
  | Some err => e <- mapRepositoryError err ;; ret (None, Some e)
  | None => ret (user, None)
  end.

Definition UserServiceImpl_Update (u : UserServiceImpl) (user : option User)
    : M (option User * option error) :=
  r <- port_Execute (txPort u)
         (fun repo (_ : unit) =>
            err <- repo_Update repo user ;;
            match err with
            | Some _ => ret (err, tt)
            | None => ret (None, tt)
            end)
         tt ;;
  match fst r with
  | Some err => e <- mapRepositoryError err ;; ret (None, Some e)
  | None => ret (user, None)
  end.

Definition UserServiceImpl_Delete (u : UserServiceImpl) (id : string) : M (option error) :=
  r <- port_Execute (txPort u)
         (fun repo (_ : unit) =>
            err <- repo_Delete repo id ;;
            match err with
            | Some _ => ret (err, tt)
            | None => ret (None, tt)
            end)
         tt ;;
  match fst r with
  | Some err => e <- mapRepositoryError err ;; ret (Some e)
  | None => ret None
  end.

End Application.

(** The wiring of [main]: one pool-wide repository serves as both ports. *)
Definition userRepository : PostgresRepository := NewPostgresRepository Pool.
Definition userService : UserServiceImpl :=
  NewUserServiceImpl (as_UserRepository userRepository) (as_UserTransactionPort userRepository).

(** ** The boundary (cmd/api/http): the status each handler answers an
    error of the service with *)

Definition StatusBadRequest : Z := 400.
Definition StatusNotFound : Z := 404.
Definition StatusConflict : Z := 409.
Definition StatusInternalServerError : Z := 500.

Definition UserHandler_CreateUser_status (err : error) : Z :=
  if errors_Is err ErrIdInUse || errors_Is err ErrEmailInUse || errors_Is err ErrUsernameInUse
  then StatusConflict
  else if errors_Is err (ErrValueNotNullable "") then StatusBadRequest
  else StatusInternalServerError.

Definition UserHandler_FindById_status (err : error) : Z :=
  if errors_Is err ErrUserNotFound then StatusNotFound
  else StatusInternalServerError.

Definition UserHandler_Update_status (err : error) : Z :=
  if errors_Is err ErrUserNotFound then StatusNotFound
  else if errors_Is err ErrEmailInUse || errors_Is err ErrUsernameInUse then StatusConflict
  else StatusInternalServerError.

Definition UserHandler_Delete_status (err : error) : Z :=
  if errors_Is err ErrUserNotFound then StatusNotFound
  else StatusInternalServerError.

(** ** Vocabulary of the properties *)

(** The constraints and columns the adapter knows by name. *)
Definition known_constraint (c : string) : Prop :=
  c = "users_pkey" \/ c = "idx_username" \/ c = "idx_email".

Definition known_column (c : string) : Prop :=
  c = "id" \/ c = "username" \/ c = "email".


(** The values [Create] of the adapter can return. *)
Definition Create_result (r : option error) : Prop :=
  r = None \/ r = Some ErrIdInUse \/ r = Some ErrUsernameInUse \/ r = Some ErrEmailInUse
  \/ (exists column, r = Some (ErrValueNotNullable column))
  \/ (exists detail, r = Some (ErrInternalServer detail)).

(** The repository handed to a unit of work: bound to the open transaction. *)
Definition txRepo : UserRepository := as_UserRepository (NewPostgresRepository Tx).

(** The world after a statement was sent: it is on the trace and has met
    its fault. *)
Definition sent (ev : Event) (w : World) : World :=
  set_faults (tl (faults w)) (set_trace (ev :: trace w) w).

(** The world after a line went to the log. *)
Definition logged (line : string) (w : World) : World := set_logs (line :: logs w) w.

Definition transaction_failed_line (cause : error) : string :=
  "[Transaction Failed] Database Error: " ++ Error cause.

(** ** Worlds and inputs to run the program on *)

(** The process right after start-up: an empty table, a store that does
    not fail, and a clock that advances one millisecond per reading from
    2024-01-01T00:00:00Z. *)
Definition fresh_world : World :=
  {| committed := []; tx := None; faults := []; trace := [];
     next_loc := first_free_loc;
     clock := fun n => {| Unix := 1704067200%Z; Nanosecond := (Z.of_nat n * 1000000)%Z |};
     ticks := 0; logs := [] |}.

(** A process whose clock gives the same reading every time. *)
Definition stopped_clock_world : World :=
  {| committed := []; tx := None; faults := []; trace := [];
     next_loc := first_free_loc;
     clock := fun _ => {| Unix := 1704067200%Z; Nanosecond := 0%Z |};
     ticks := 0; logs := [] |}.

(** A store that fails its next statements with the given errors. *)
Definition failing_world (fs : list (option error)) : World := set_faults fs fresh_world.

(** Stand-ins for the two library functions, to run examples with. *)
Definition example_libs : GoLibs :=
  {| fmt_Sprintf := fun format => format;
     rand_Read10 :=
       fun seed => ((seed * 6364136223846793005 + 1442695040888963407) mod 2 ^ 80)%Z |}.

Definition jane_request : UserCreateRequest :=
  {| req_Name := "Jane Doe"; req_Username := "janedoe123";
     req_Email := "jane.doe@example.com" |}.

Definition john_request : UserCreateRequest :=
  {| req_Name := "John Roe"; req_Username := "johnroe"; req_Email := "john.roe@example.com" |}.

(** Jane, under the identifier [example_libs] gives at the first reading of
    the clock of [fresh_world]. *)
Definition jane : User :=
  {| ID := "01HK153X000T155G450H8JH0AF"; Name := "Jane Doe";
     Username := "janedoe123"; Email := "jane.doe@example.com" |}.

(** [fresh_world] after Jane was created through the service. *)
Definition world_with_jane : World :=
  set_ticks 1
    (set_committed [ToEntity (Some jane)]
       (set_trace [EvCommit; EvInsert (ToEntity (Some jane)); EvBegin] fresh_world)).

(** An update of Jane that names a new username only. *)
Definition rename_jane : User :=
  {| ID := ID jane; Name := ""; Username := "jdoe"; Email := "" |}.

(** A driver error of the pgx shape. *)
Definition pg_violation (code constraint : string) : error :=
  PgError {| pg_Severity := "ERROR"; pg_Code := code;
             pg_Message := "constraint violated";
             pg_TableName := "user_entities"; pg_ColumnName := "";
             pg_ConstraintName := constraint |}.

(** A unique violation of the lib/pq shape. *)
Definition pq_violation (constraint : string) : error :=
  PqError {| pq_Code := "23505"; pq_Constraint := constraint;
             pq_Table := "user_entities"; pq_Column := "";
             pq_Message := "duplicate key value violates unique constraint "
                           ++ quote ++ constraint ++ quote |}.

(** A not-null violation as the server reports it: the column and the
    table are named, the constraint is not. *)
Definition not_null_text (column : string) : string :=
  "null value in column " ++ quote ++ column ++ quote ++ " of relation "
  ++ quote ++ "user_entities" ++ quote ++ " violates not-null constraint".

Definition pg_not_null (column : string) : error :=
  PgError {| pg_Severity := "ERROR"; pg_Code := "23502";
             pg_Message := not_null_text column;
             pg_TableName := "user_entities"; pg_ColumnName := column;
             pg_ConstraintName := "" |}.

Definition pq_not_null (column : string) : error :=
  PqError {| pq_Code := "23502"; pq_Constraint := "";
             pq_Table := "user_entities"; pq_Column := column;
             pq_Message := not_null_text column |}.

(** Two units of work to run [Execute] on: one that writes and then fails,
    one that writes and succeeds. *)
Definition write_then_fail (repo : UserRepository) (l : unit) : M (option error * unit) :=
  _ <- repo_Create repo (Some jane) ;;
  ret (Some ErrUserNotFound, l).

Definition write_only (repo : UserRepository) (l : unit) : M (option error * unit) :=
  e <- repo_Create repo (Some jane) ;;
  ret (e, l).

(** ** The boundary in full (cmd/api/http)

    A request is what the handlers read of it; the body is given by what
    [encoding/json] decodes it to and by what the validator says of the
    decoded value, both libraries being left out.  A response writer is the
    header map, the status line once it is written, the header that went
    out with it and the values written to the body; [encoding/json] does
    not fail on the records of this program, and the connection takes
    every write. *)

From Stdlib Require Import DecimalString.

Definition StatusOK : Z := 200.
Definition StatusCreated : Z := 201.
Definition StatusNoContent : Z := 204.
Definition StatusUnauthorized : Z := 401.

(* error_handler_wrapper.go *)
Record ErrorResponse := {
  Status : Z;
  Message : string
}.

Record HTTPError := {
  HTTPError_Error : error;
  HTTPError_Status : Z
}.

Definition NewHTTPError (err : error) (status : Z) : HTTPError :=
  {| HTTPError_Error := err; HTTPError_Status := status |}.

(** A value written to the body. *)
Inductive Payload :=
| JSON_User (user : option User)
| JSON_Users (users : option (list User))
| JSON_ErrorResponse (response : ErrorResponse)
| Text (text : string).

(** [http.ResponseWriter]. *)
Record ResponseWriter := {
  Header : list (string * string);
  status_line : option Z;
  sent_header : list (string * string);
  body : list Payload
}.

Definition new_ResponseWriter : ResponseWriter :=
  {| Header := []; status_line := None; sent_header := []; body := [] |}.

(** [w.Header().Set(key, value)]. *)
Definition Header_Set (key value : string) (w : ResponseWriter) : ResponseWriter :=
  {| Header := (key, value) :: filter (fun kv => negb (String.eqb (fst kv) key)) (Header w);
     status_line := status_line w; sent_header := sent_header w; body := body w |}.

(** [w.WriteHeader(code)]: the first call sends the status line and the
    header as it stands; a later call changes nothing. *)
Definition WriteHeader (code : Z) (w : ResponseWriter) : ResponseWriter :=
  match status_line w with
  | Some _ => w
  | None =>
      {| Header := Header w; status_line := Some code; sent_header := Header w;
         body := body w |}
  end.

(** [w.Write]: sends 200 first when no status line went out yet. *)
Definition Write (p : Payload) (w : ResponseWriter) : ResponseWriter :=
  let w := WriteHeader StatusOK w in
  {| Header := Header w; status_line := status_line w; sent_header := sent_header w;
     body := (body w ++ [p])%list |}.

(** [json.NewEncoder(w).Encode(v)]. *)
Definition json_Encode (w : ResponseWriter) (p : Payload) : ResponseWriter * option error :=
  (Write p w, None).

Definition newline : string := String (Ascii.ascii_of_nat 10) "".

(** [http.Error(w, text, code)]. *)
Definition http_Error (w : ResponseWriter) (text : string) (code : Z) : ResponseWriter :=
  let w := Header_Set "Content-Type" "text/plain; charset=utf-8" w in
  let w := Header_Set "X-Content-Type-Options" "nosniff" w in
  let w := WriteHeader code w in
  Write (Text (text ++ newline)) w.

(** What [validator.Struct] says of a decoded body. *)
Record FieldError := {
  Tag : string;
  Field : string
}.

Inductive Validation :=
| Valid
| ValidationErrors (text : string) (fieldErrors : list FieldError)
| InvalidValidationError (text : string).

Record Request := {
  Method : string;
  URL_Path : string;
  Proto : string;
  BasicAuth : option (string * string);          (* r.BasicAuth(), when ok *)
  URLParam_id : string;                          (* chi.URLParam(r, "id") *)
  Body_UserCreateRequest : option UserCreateRequest;
                                                 (* the body decoded for CreateUser *)
  Body_User : option User;                       (* the body decoded for Update *)
  validator_Struct : Validation                  (* the verdict on the decoded value *)
}.

(** [application.UserService]. *)
Record UserService := {
  service_Create : option UserCreateRequest -> M (option User * option error);
  service_FindAll : M (option (list User) * option error);
  service_FindById : string -> M (option User * option error);
  service_Update : option User -> M (option User * option error);
  service_Delete : string -> M (option error)
}.

(** A [*UserServiceImpl] seen through [application.UserService]. *)
Definition as_UserService `{GoLibs} (u : UserServiceImpl) : UserService :=
  {| service_Create := UserServiceImpl_Create u;
     service_FindAll := UserServiceImpl_FindAll u;
     service_FindById := UserServiceImpl_FindById u;
     service_Update := UserServiceImpl_Update u;
     service_Delete := UserServiceImpl_Delete u |}.

Record UserHandler := {
  handler_userService : UserService
}.

Definition NewUserHandler (service : UserService) : UserHandler :=
  {| handler_userService := service |}.

(** [HandlerFunc], with the writer passed along. *)
Definition HandlerFunc : Type :=
  ResponseWriter -> Request -> M (option HTTPError * ResponseWriter).

(** [http.HandlerFunc]. *)
Definition http_HandlerFunc : Type := ResponseWriter -> Request -> M ResponseWriter.

(** [return NewHTTPError(errors.New(text), status)]. *)
Definition refuse (text : string) (status : Z) (w : ResponseWriter)
    : M (option HTTPError * ResponseWriter) :=
  err <- errors_New text ;;
  ret (Some (NewHTTPError err status), w).

Definition UserHandler_CreateUser (h : UserHandler) : HandlerFunc :=
  fun w r =>
    match Body_UserCreateRequest r with
    | None => refuse "invalid request body format" StatusBadRequest w
    | Some request =>
        match validator_Struct r with
        | ValidationErrors text (fieldError :: _) =>
            if String.eqb (Tag fieldError) "required" || String.eqb (Tag fieldError) "excludesall"
            then refuse (Field fieldError ++ " is required and cannot be blank.")
                   StatusBadRequest w
            else if String.eqb (Tag fieldError) "email"
            then refuse "email format is invalid" StatusBadRequest w
            else refuse ("Validation failed on field: " ++ Field fieldError) StatusBadRequest w
        | ValidationErrors text [] => refuse text StatusInternalServerError w
        | InvalidValidationError text => refuse text StatusInternalServerError w
        | Valid =>
            res <- service_Create (handler_userService h) (Some request) ;;
            let '(userResponse, err) := res in
            match err with
            | Some err =>
                if errors_Is err ErrIdInUse || errors_Is err ErrEmailInUse
                   || errors_Is err ErrUsernameInUse
                then refuse (Error err) StatusConflict w
                else if errors_Is err (ErrValueNotNullable "")
                then refuse (Error err) StatusBadRequest w
                else refuse (Error err) StatusInternalServerError w
            | None =>
                let w := Header_Set "Content-Type" "application/json" w in
                let w := WriteHeader StatusCreated w in
                let '(w, err) := json_Encode w (JSON_User userResponse) in
                match err with
                | Some _ => refuse "error json encoding response" StatusInternalServerError w
                | None => ret (None, w)
                end
            end
        end
    end.

Definition UserHandler_FindAll (h : UserHandler) : HandlerFunc :=
  fun w r =>
    res <- service_FindAll (handler_userService h) ;;
    let '(userResponse, err) := res in
    match err with
    | Some err => refuse (Error err) StatusInternalServerError w
    | None =>
        let w := Header_Set "Content-Type" "application/json" w in
        let w := WriteHeader StatusOK w in
        let '(w, err) := json_Encode w (JSON_Users userResponse) in
        match err with
        | Some _ => refuse "error json encoding response" StatusInternalServerError w
        | None => ret (None, w)
        end
    end.

Definition UserHandler_FindById (h : UserHandler) : HandlerFunc :=
  fun w r =>
    let id := URLParam_id r in
    if String.eqb id "" then
      refuse "user ID is required in the request path or query" StatusBadRequest w
    else
      res <- service_FindById (handler_userService h) id ;;
      let '(userResponse, err) := res in
      match err with
      | Some err =>
          if errors_Is err ErrUserNotFound then refuse (Error err) StatusNotFound w
          else refuse (Error err) StatusInternalServerError w
      | None =>
          let w := Header_Set "Content-Type" "application/json" w in
          let w := WriteHeader StatusOK w in
          let '(w, err) := json_Encode w (JSON_User userResponse) in
          match err with
          | Some _ => refuse "error json encoding response" StatusInternalServerError w
          | None => ret (None, w)
          end
      end.

Definition UserHandler_Update (h : UserHandler) : HandlerFunc :=
  fun w r =>
    match Body_User r with
    | None => refuse "invalid request body format" StatusBadRequest w
    | Some request =>
        match validator_Struct r with
        | Valid =>
            res <- service_Update (handler_userService h) (Some request) ;;
            let '(userResponse, err) := res in
            match err with
            | Some err =>
                if errors_Is err ErrUserNotFound then refuse (Error err) StatusNotFound w
                else if errors_Is err ErrEmailInUse || errors_Is err ErrUsernameInUse
                then refuse (Error err) StatusConflict w
                else refuse (Error err) StatusInternalServerError w
            | None =>
                let w := Header_Set "Content-Type" "application/json" w in
                let w := WriteHeader StatusOK w in
                let '(w, err) := json_Encode w (JSON_User userResponse) in
                match err with
                | Some _ => refuse "error json encoding response" StatusInternalServerError w
                | None => ret (None, w)
                end
            end
        | _ => refuse "validation failed on update fields" StatusBadRequest w
        end
    end.

Definition UserHandler_Delete (h : UserHandler) : HandlerFunc :=
  fun w r =>
    let id := URLParam_id r in
    if String.eqb id "" then
      refuse "user ID is required in the request path or query" StatusBadRequest w
    else
      err <- service_Delete (handler_userService h) id ;;
      match err with
      | Some err =>
          if errors_Is err ErrUserNotFound then refuse (Error err) StatusNotFound w
          else refuse (Error err) StatusInternalServerError w
      | None => ret (None, WriteHeader StatusNoContent w)
      end.

(** [ErrorHandlerWrapper]. *)
Definition ErrorHandlerWrapper (handler : HandlerFunc) : http_HandlerFunc :=
  fun w r =>
    res <- handler w r ;;
    let '(err, w) := res in
    match err with
    | Some err =>
        let statusCode :=
          if negb (Z.eqb (HTTPError_Status err) 0) then HTTPError_Status err
          else StatusInternalServerError in
        let response :=
          {| Status := statusCode; Message := Error (HTTPError_Error err) |} in
        let w := Header_Set "Content-Type" "application/json" w in
        let w := WriteHeader statusCode w in
        ret (fst (json_Encode w (JSON_ErrorResponse response)))
    | None => ret w
    end.

(** The rendering of [time.Since(start)] under [%v] is taken as it is:
    [Since_String start now] for the reading [now] of the clock at the
    call. *)
Class HttpLibs := {
  Since_String : Time -> Time -> string
}.

(** [AuthAndLoggingMiddleware]; [Getenv] is the environment of the
    process. *)
Definition AuthAndLoggingMiddleware `{HttpLibs} (Getenv : string -> string)
    (next : http_HandlerFunc) : http_HandlerFunc :=
  fun w r =>
    start <- time_Now ;;
    let userEnv := Getenv "BASIC_AUTH_USER" in
    let passEnv := Getenv "BASIC_AUTH_PASS" in
    let serve :=
      w <- next w r ;;
      now <- time_Now ;;
      log_Print ("[" ++ Method r ++ "] " ++ URL_Path r ++ " " ++ Proto r
                 ++ " | Status: " ++ NilZero.string_of_int (Z.to_int StatusOK)
                 ++ " | Duration: " ++ Since_String start now) ;;;
      ret w in
    if String.eqb userEnv "" || String.eqb passEnv "" then
      log_Print "WARNING: BASIC_AUTH environment variables not set. Skipping authentication." ;;;
      serve
    else
      match BasicAuth r with
      | Some (user, pass) =>
          if negb (String.eqb user userEnv) || negb (String.eqb pass passEnv) then
            let w := Header_Set "WWW-Authenticate"
                       ("Basic realm=" ++ quote ++ "Restricted" ++ quote) w in
            ret (http_Error w "Unauthorized" StatusUnauthorized)
          else serve
      | None =>
          let w := Header_Set "WWW-Authenticate"
                     ("Basic realm=" ++ quote ++ "Restricted" ++ quote) w in
          ret (http_Error w "Unauthorized" StatusUnauthorized)
      end.

(** The handler of [main] over the service of [main]. *)
Definition userHandler `{GoLibs} : UserHandler := NewUserHandler (as_UserService userService).

(** ** Vocabulary of the further properties *)

(** The rows a handle reads: those of the open transaction through its
    handle, the committed ones through the pool. *)
Definition visible (h : Handle) (w : World) : list UserEntity :=
  match h, tx w with
  | Tx, Some t => work t
  | _, _ => committed w
  end.

(** A call of the service that did not succeed: it returned an error, or it
    panicked. *)
Definition failed {A} (out : Outcome (A * option error)) : Prop :=
  match out with
  | Ok (_, None) => False
  | _ => True
  end.

Definition failed_Delete (out : Outcome (option error)) : Prop :=
  match out with
  | Ok None => False
  | _ => True
  end.

(** The statuses a handler gives to an error. *)
Definition error_status (status : Z) : Prop :=
  status = StatusBadRequest \/ status = StatusNotFound \/ status = StatusConflict
  \/ status = StatusInternalServerError.

(** What a handler leaves behind on a response [w] that had no status line:
    an error and [w] untouched, or no error and [w] with the status [code],
    the JSON content type and one more value in the body. *)
Definition answered_or_refused (w : ResponseWriter) (code : Z) (written : Payload -> Prop)
    (out : option HTTPError) (w' : ResponseWriter) : Prop :=
  (exists err, out = Some err /\ w' = w /\ error_status (HTTPError_Status err))
  \/ (out = None /\ status_line w' = Some code
      /\ In ("Content-Type", "application/json") (sent_header w')
      /\ exists p, written p /\ body w' = (body w ++ [p])%list).

Definition is_JSON_User (p : Payload) : Prop := exists user, p = JSON_User user.
Definition is_JSON_Users (p : Payload) : Prop := exists users, p = JSON_Users users.

(** The routes of [main]. *)
Definition route_CreateUser (h : UserHandler) : http_HandlerFunc :=
  ErrorHandlerWrapper (UserHandler_CreateUser h).
Definition route_FindAll (h : UserHandler) : http_HandlerFunc :=
  ErrorHandlerWrapper (UserHandler_FindAll h).
Definition route_Update (h : UserHandler) : http_HandlerFunc :=
  ErrorHandlerWrapper (UserHandler_Update h).
Definition route_FindById (h : UserHandler) : http_HandlerFunc :=
  ErrorHandlerWrapper (UserHandler_FindById h).
Definition route_Delete (h : UserHandler) : http_HandlerFunc :=
  ErrorHandlerWrapper (UserHandler_Delete h).

(** A statement that allocates nothing. *)
Definition keeps_heap {A} (m : M A) : Prop :=
  forall w, next_loc (snd (m w)) = next_loc w.

(** An error in which [errors.Is] finds none of the three kinds the
    handlers test for a 404 or, in [Update], a 409. *)
Definition no_kind (e : error) : Prop :=
  errors_Is e ErrUserNotFound = false
  /\ errors_Is e ErrUsernameInUse = false
  /\ errors_Is e ErrEmailInUse = false.

(** The response [ErrorHandlerWrapper] makes of an error on writer [w]. *)
Definition error_response (err : HTTPError) (code : Z) : Payload :=
  JSON_ErrorResponse {| Status := code; Message := Error (HTTPError_Error err) |}.

(** The response carries one of the statuses [codes]. *)
Definition answers (w : ResponseWriter) (codes : list Z) : Prop :=
  exists code, status_line w = Some code /\ In code codes.

(** Requests, an environment and a rendering of durations to run the
    boundary on. *)
Definition get_jane : Request :=
  {| Method := "GET"; URL_Path := "/users/01HK153X000T155G450H8JH0AF"; Proto := "HTTP/1.1";
     BasicAuth := Some ("admin", "secret");
     URLParam_id := ID jane;
     Body_UserCreateRequest := None; Body_User := None; validator_Struct := Valid |}.

Definition get_jane_unsigned : Request :=
  {| Method := "GET"; URL_Path := "/users/01HK153X000T155G450H8JH0AF"; Proto := "HTTP/1.1";
     BasicAuth := None;
     URLParam_id := ID jane;
     Body_UserCreateRequest := None; Body_User := None; validator_Struct := Valid |}.

Definition post_without_body : Request :=
  {| Method := "POST"; URL_Path := "/users"; Proto := "HTTP/1.1";
     BasicAuth := Some ("admin", "secret");
     URLParam_id := "";
     Body_UserCreateRequest := None; Body_User := None; validator_Struct := Valid |}.

Definition example_env (name : string) : string :=
  if String.eqb name "BASIC_AUTH_USER" then "admin"
  else if String.eqb name "BASIC_AUTH_PASS" then "secret"
  else "".

Definition empty_env (name : string) : string := "".

Definition example_http_libs : HttpLibs :=
  {| Since_String :=
       fun start now =>
         NilZero.string_of_int (Z.to_int (UnixNano now - UnixNano start)) ++ "ns" |}.

(** * Properties *)

Unset Implicit Arguments.

(** ** Error inspection *)

Lemma errors_Is_leaf_of_chain :
  forall err p s,
    errors_Is err (errorString p s) = true ->
    errors_As_pq err = None /\ errors_As_pgconn err = None.
Proof.
  induction err; intros q t Hq; simpl in *; try discriminate; auto.
  destruct (error_eqb (wrapError p msg err) (errorString q t)) eqn:E.
  - simpl in E. discriminate.
  - eauto.
Qed.

Lemma extractPgError_None_of_Is :
  forall cause p s,
    errors_Is cause (errorString p s) = true -> extractPgError (Some cause) = None.
Proof.
  intros cause p s Hq. apply errors_Is_leaf_of_chain in Hq as [Hpq Hpg].
  unfold extractPgError. rewrite Hpq, Hpg.
  destruct (errors_Is cause gorm_ErrRecordNotFound || errors_Is cause gorm_ErrInvalidData);
    reflexivity.
Qed.


(** What [extractPgError] reads from each of the two driver error shapes,
    wherever the driver error sits on the chain. *)
Lemma extractPgError_pq :
  forall cause e,
    errors_As_pq cause = Some e ->
    extractPgError (Some cause)
    = Some {| Code := pq_Code e;
              Constraint := if String.eqb (pq_Constraint e) "" then pq_Table e
                            else pq_Constraint e |}.
Proof. intros cause e Hpq. unfold extractPgError. rewrite Hpq. reflexivity. Qed.

Lemma extractPgError_pgconn :
  forall cause e,
    errors_As_pq cause = None ->
    errors_As_pgconn cause = Some e ->
    extractPgError (Some cause)
    = Some {| Code := pg_Code e; Constraint := pg_ConstraintName e |}.
Proof. intros cause e Hpq Hpg. unfold extractPgError. rewrite Hpq, Hpg. reflexivity. Qed.

Lemma extractPgError_neither :
  forall cause,
    errors_As_pq cause = None ->
    errors_As_pgconn cause = None ->
    extractPgError (Some cause) = None.
Proof.
  intros cause Hpq Hpg. unfold extractPgError. rewrite Hpq, Hpg.
  destruct (errors_Is cause gorm_ErrRecordNotFound || errors_Is cause gorm_ErrInvalidData);
    reflexivity.
Qed.

(** ** The store never panics *)

Lemma statement_Ok :
  forall A h ev (zero : A) run w,
    exists r w', statement h ev zero run w = (Ok r, w').
Proof.
  intros. unfold statement, bind, gets, emit, modify, next_fault, statement_failed, ret.
  destruct w as [rows open fs tr nl ck tk lg]; simpl.
  destruct h, open as [t|], fs as [|[e|] rest]; simpl; eauto;
    try destruct (aborted t); simpl; eauto;
    match goal with
    | |- context [run ?x] => destruct (run x) as [[a rows']|e']; simpl; eauto
    end.
Qed.

Lemma gorm_Create_Ok :
  forall h value w, exists r w', gorm_Create h value w = (Ok r, w').
Proof.
  intros. unfold gorm_Create, bind.
  destruct (statement_Ok unit h (EvInsert value) tt
              (fun rows => match violated value rows with
                           | Some c => inr (unique_violation c)
                           | None => inl (tt, (rows ++ [value])%list)
                           end) w) as (r & w' & ->).
  unfold ret. eauto.
Qed.

(** ** The adapter: classification of a failed statement *)

Ltac run_Create H :=
  unfold PostgresRepository_Create, bind; rewrite H; cbv beta iota zeta.

Ltac run_Update H :=
  unfold PostgresRepository_Update, bind; rewrite H; cbv beta iota zeta.

(** How [Create] goes on from the code and the name [extractPgError]
    hands it. *)
Lemma Create_by_code_and_name :
  forall p user w cause w' d,
    gorm_Create (db p) (ToEntity user) w = (Ok (Some cause), w') ->
    extractPgError (Some cause) = Some d ->
    let returns e := PostgresRepository_Create p user w = (Ok (Some e), w') in
    (Code d = "23505" ->
       (Constraint d = "users_pkey" -> returns ErrIdInUse)
       /\ (Constraint d = "idx_username" -> returns ErrUsernameInUse)
       /\ (Constraint d = "idx_email" -> returns ErrEmailInUse)
       /\ (~ known_constraint (Constraint d) -> returns (ErrInternalServer (Error cause))))
    /\ (Code d = "23502" ->
          (known_column (Constraint d) -> returns (ErrValueNotNullable (Constraint d)))
          /\ (~ known_column (Constraint d) -> returns (ErrValueNotNullable "a column")))
    /\ (Code d <> "23505" -> Code d <> "23502" ->
        returns (ErrInternalServer (Error cause))).
Proof.
  intros p user w cause w' d Hrun Hd returns. subst returns.
  split; [|split].
  - intros Hcode. repeat split; intros Hc; run_Create Hrun; rewrite Hd, Hcode.
    + rewrite Hc. reflexivity.
    + rewrite Hc. reflexivity.
    + rewrite Hc. reflexivity.
    + unfold known_constraint in Hc. simpl.
      destruct (String.eqb_spec (Constraint d) "users_pkey"); [tauto|].
      destruct (String.eqb_spec (Constraint d) "idx_username"); [tauto|].
      destruct (String.eqb_spec (Constraint d) "idx_email"); [tauto|].
      reflexivity.
  - intros Hcode. split; intros Hc; run_Create Hrun; rewrite Hd, Hcode; simpl.
    + destruct Hc as [Hc|[Hc|Hc]]; rewrite Hc; reflexivity.
    + unfold known_column in Hc.
      destruct (String.eqb_spec (Constraint d) "id"); [tauto|].
      destruct (String.eqb_spec (Constraint d) "username"); [tauto|].
      destruct (String.eqb_spec (Constraint d) "email"); [tauto|].
      reflexivity.
  - intros H5 H2. run_Create Hrun. rewrite Hd.
    apply String.eqb_neq in H5, H2. rewrite H5, H2. reflexivity.
Qed.

(** C5, what the code does. A failed [Create] is classified by the code
    of the driver error and by one name: in a [*pq.Error] its constraint,
    or its table when the constraint is blank; in a [*pgconn.PgError] its
    constraint.  23505 under the name [users_pkey], [idx_username] or
    [idx_email] gives [ErrIdInUse], [ErrUsernameInUse] or [ErrEmailInUse];
    23505 under another name, every other code but 23502 and every error
    that holds no driver error give [ErrInternalServer] with the raw
    message.  For 23502 that same name is compared with the columns [id],
    [username] and [email], and the column of the driver error is not
    read: a not-null violation as the server reports it, which names its
    column and no constraint, gives [ErrValueNotNullable] with
    ["a column"], whatever the column. *)
Theorem C5_Create_error_mapping :
  forall p user w cause w',
    gorm_Create (db p) (ToEntity user) w = (Ok (Some cause), w') ->
    let returns e := PostgresRepository_Create p user w = (Ok (Some e), w') in
    let classified code name :=
      (code = "23505" ->
         (name = "users_pkey" -> returns ErrIdInUse)
         /\ (name = "idx_username" -> returns ErrUsernameInUse)
         /\ (name = "idx_email" -> returns ErrEmailInUse)
         /\ (~ known_constraint name -> returns (ErrInternalServer (Error cause))))
      /\ (code = "23502" ->
            (known_column name -> returns (ErrValueNotNullable name))
            /\ (~ known_column name -> returns (ErrValueNotNullable "a column")))
      /\ (code <> "23505" -> code <> "23502" ->
          returns (ErrInternalServer (Error cause))) in
    (forall e,
        errors_As_pq cause = Some e ->
        classified (pq_Code e)
          (if String.eqb (pq_Constraint e) "" then pq_Table e else pq_Constraint e))
    /\ (forall e,
          errors_As_pq cause = None ->
          errors_As_pgconn cause = Some e ->
          classified (pg_Code e) (pg_ConstraintName e))
    /\ (errors_As_pq cause = None ->
        errors_As_pgconn cause = None ->
        returns (ErrInternalServer (Error cause)))
    /\ (forall e,
          errors_As_pq cause = None ->
          errors_As_pgconn cause = Some e ->
          pg_Code e = "23502" ->
          pg_ConstraintName e = "" ->
          returns (ErrValueNotNullable "a column"))
    /\ (forall e,
          errors_As_pq cause = Some e ->
          pq_Code e = "23502" ->
          pq_Constraint e = "" ->
          ~ known_column (pq_Table e) ->
          returns (ErrValueNotNullable "a column")).
Proof.
  intros p user w cause w' Hrun returns classified. subst classified returns.
  assert (Hblank : ~ known_column "").
  { unfold known_column. intros [E|[E|E]]; discriminate E. }
  split; [|split; [|split; [|split]]].
  - intros e Hpq.
    exact (Create_by_code_and_name p user w cause w' _ Hrun (extractPgError_pq cause e Hpq)).
  - intros e Hpq Hpg.
    exact (Create_by_code_and_name p user w cause w' _ Hrun
             (extractPgError_pgconn cause e Hpq Hpg)).
  - intros Hpq Hpg. run_Create Hrun. rewrite (extractPgError_neither cause Hpq Hpg).
    reflexivity.
  - intros e Hpq Hpg Hcode Hname.
    destruct (Create_by_code_and_name p user w cause w' _ Hrun
                (extractPgError_pgconn cause e Hpq Hpg)) as (_ & Hnull & _).
    cbn [Code Constraint] in Hnull. apply (Hnull Hcode). rewrite Hname. exact Hblank.
  - intros e Hpq Hcode Hname Htable.
    destruct (Create_by_code_and_name p user w cause w' _ Hrun
                (extractPgError_pq cause e Hpq)) as (_ & Hnull & _).
    cbn [Code Constraint] in Hnull. rewrite Hname in Hnull. cbn in Hnull.
    apply (Hnull Hcode). exact Htable.
Qed.

Lemma C5_Create_error_mapping_witness :
  PostgresRepository_Create userRepository (Some jane)
    (failing_world [Some (pg_not_null "username")])
  = (Ok (Some (ErrValueNotNullable "a column")),
     set_trace [EvInsert (ToEntity (Some jane))] fresh_world)
  /\ PostgresRepository_Create userRepository (Some jane)
       (failing_world [Some (pq_not_null "username")])
     = (Ok (Some (ErrValueNotNullable "a column")),
        set_trace [EvInsert (ToEntity (Some jane))] fresh_world)
  /\ PostgresRepository_Create userRepository (Some jane)
       (failing_world [Some (pq_violation "idx_email")])
     = (Ok (Some ErrEmailInUse),
        set_trace [EvInsert (ToEntity (Some jane))] fresh_world)
  /\ PostgresRepository_Create userRepository (Some jane)
       (failing_world [Some (pg_violation "23505" "idx_username")])
     = (Ok (Some ErrUsernameInUse),
        set_trace [EvInsert (ToEntity (Some jane))] fresh_world)
  /\ PostgresRepository_Create userRepository (Some jane)
       (failing_world [Some (otherError "connection reset by peer")])
     = (Ok (Some (ErrInternalServer "connection reset by peer")),
        set_trace [EvInsert (ToEntity (Some jane))] fresh_world).
Proof.
  split; [|split; [|split; [|split]]].
  - refine (proj1 (proj2 (proj2 (proj2
      (@C5_Create_error_mapping userRepository (Some jane)
         (failing_world [Some (pg_not_null "username")])
         (pg_not_null "username") _ eq_refl)))) _ eq_refl eq_refl eq_refl eq_refl).
  - refine (proj2 (proj2 (proj2 (proj2
      (@C5_Create_error_mapping userRepository (Some jane)
         (failing_world [Some (pq_not_null "username")])
         (pq_not_null "username") _ eq_refl)))) _ eq_refl eq_refl eq_refl _).
    unfold known_column. simpl. intros [E|[E|E]]; discriminate E.
  - refine (proj1 (proj2 (proj2 (proj1 (proj1
      (@C5_Create_error_mapping userRepository (Some jane)
         (failing_world [Some (pq_violation "idx_email")])
         (pq_violation "idx_email") _ eq_refl) _ eq_refl) eq_refl))) eq_refl).
  - refine (proj1 (proj2 (proj1 (proj1 (proj2
      (@C5_Create_error_mapping userRepository (Some jane)
         (failing_world [Some (pg_violation "23505" "idx_username")])
         (pg_violation "23505" "idx_username") _ eq_refl)) _ eq_refl eq_refl) eq_refl))
      eq_refl).
  - refine (proj1 (proj2 (proj2
      (@C5_Create_error_mapping userRepository (Some jane)
         (failing_world [Some (otherError "connection reset by peer")])
         (otherError "connection reset by peer") _ eq_refl))) eq_refl eq_refl).
Defined.

Lemma PostgresRepository_Create_kinds :
  forall p user w,
    exists r w', PostgresRepository_Create p user w = (Ok r, w') /\ Create_result r.
Proof.
  intros p user w.
  destruct (gorm_Create_Ok (db p) (ToEntity user) w) as (r & w' & Hrun).
  unfold Create_result. run_Create Hrun. unfold ret.
  destruct r as [cause|]; [|exists None, w'; auto].
  destruct (extractPgError (Some cause)) as [d|];
    repeat match goal with
           | |- context [if ?b then _ else _] => destruct b
           end;
    eexists; eexists; (split; [reflexivity|eauto 10]).
Qed.

(** C9. [Create] of the adapter returns nil or one of [ErrIdInUse],
    [ErrUsernameInUse], [ErrEmailInUse], an [ErrValueNotNullable], an
    [ErrInternalServer]; never [ErrUserNotFound] nor an
    [ErrTransactionFailed].  A record-not-found reported by the store comes
    back as [ErrInternalServer]. *)
Theorem C9_Create_error_kinds :
  forall p user w,
    (exists r w',
        PostgresRepository_Create p user w = (Ok r, w')
        /\ Create_result r
        /\ forall e, r = Some e ->
             errors_Is e ErrUserNotFound = false
             /\ forall detail, e <> ErrTransactionFailed detail)
    /\ (forall cause w',
          gorm_Create (db p) (ToEntity user) w = (Ok (Some cause), w') ->
          errors_Is cause gorm_ErrRecordNotFound = true ->
          PostgresRepository_Create p user w
          = (Ok (Some (ErrInternalServer (Error cause))), w')).
Proof.
  intros p user w. split.
  - destruct (PostgresRepository_Create_kinds p user w) as (r & w' & Hrun & Hkind).
    exists r, w'. split; [assumption|]. split; [assumption|].
    intros e He.
    destruct Hkind as [->|[->|[->|[->|[[c ->]|[c ->]]]]]]; try discriminate He;
      injection He as <-; (split; [reflexivity|discriminate]).
  - intros cause w' Hrun Hnf. run_Create Hrun.
    rewrite (extractPgError_None_of_Is _ _ _ Hnf). reflexivity.
Qed.

Lemma C9_Create_error_kinds_witness :
  PostgresRepository_Create userRepository (Some jane)
    (failing_world [Some gorm_ErrRecordNotFound])
  = (Ok (Some (ErrInternalServer "record not found")),
     set_trace [EvInsert (ToEntity (Some jane))] fresh_world).
Proof.
  exact (proj2 (C9_Create_error_kinds userRepository (Some jane)
                  (failing_world [Some gorm_ErrRecordNotFound]))
           gorm_ErrRecordNotFound _ eq_refl eq_refl).
Defined.




(** C4. When the store reports no error and no affected row, [Update] and
    [Delete] return [ErrUserNotFound]. *)
Theorem C4_zero_rows_is_NotFound :
  forall p w,
    (forall user res w',
        gorm_Updates (db p) (ent_ID (ToEntity user)) (ToEntity user) w = (Ok res, w') ->
        gorm_Error res = None ->
        RowsAffected res = 0%Z ->
        PostgresRepository_Update p user w = (Ok (Some ErrUserNotFound), w'))
    /\ (forall id res w',
          gorm_Delete (db p) id w = (Ok res, w') ->
          gorm_Error res = None ->
          RowsAffected res = 0%Z ->
          PostgresRepository_Delete p id w = (Ok (Some ErrUserNotFound), w')).
Proof.
  intros p w. split.
  - intros user res w' Hrun Herr Hrows. run_Update Hrun.
    rewrite Herr, Hrows. reflexivity.
  - intros id res w' Hrun Herr Hrows.
    unfold PostgresRepository_Delete, bind. rewrite Hrun. cbv beta iota zeta.
    rewrite Herr, Hrows. reflexivity.
Qed.

Lemma C4_zero_rows_is_NotFound_witness :
  PostgresRepository_Update userRepository (Some jane) fresh_world
  = (Ok (Some ErrUserNotFound),
     set_trace [EvUpdate (ID jane) (ToEntity (Some jane))] fresh_world)
  /\ PostgresRepository_Delete userRepository (ID jane) fresh_world
     = (Ok (Some ErrUserNotFound), set_trace [EvDelete (ID jane)] fresh_world).
Proof.
  split.
  - exact (proj1 (C4_zero_rows_is_NotFound userRepository fresh_world)
             (Some jane) _ _ eq_refl eq_refl eq_refl).
  - exact (proj2 (C4_zero_rows_is_NotFound userRepository fresh_world)
             (ID jane) _ _ eq_refl eq_refl eq_refl).
Defined.

(** ** The transaction port *)

Lemma gorm_Begin_Ok :
  forall w, exists r w1, gorm_Begin w = (Ok r, w1).
Proof.
  intros [rows open fs tr nl ck tk lg]. unfold gorm_Begin, bind, emit, modify, next_fault, ret.
  simpl. destruct fs as [|[e|] rest]; simpl; eauto.
Qed.

Lemma gorm_Commit_Ok :
  forall w, exists r w3, gorm_Commit w = (Ok r, w3).
Proof.
  intros [rows open fs tr nl ck tk lg]. unfold gorm_Commit, bind, gets, emit, modify, next_fault, ret.
  simpl. destruct open as [t|]; simpl; eauto.
  destruct fs as [|[e|] rest]; simpl; eauto; destruct (aborted t); simpl; eauto.
Qed.

(** After a rollback no transaction is open and the committed rows are
    those from before. *)
Lemma gorm_Rollback_spec :
  forall w,
    tx (snd (gorm_Rollback w)) = None
    /\ committed (snd (gorm_Rollback w)) = committed w
    /\ faults (snd (gorm_Rollback w)) = faults w
    /\ logs (snd (gorm_Rollback w)) = logs w
    /\ next_loc (snd (gorm_Rollback w)) = next_loc w
    /\ ticks (snd (gorm_Rollback w)) = ticks w
    /\ clock (snd (gorm_Rollback w)) = clock w
    /\ trace (snd (gorm_Rollback w))
       = match tx w with Some _ => EvRollback :: trace w | None => trace w end.
Proof.
  intros [rows open fs tr nl ck tk lg]. unfold gorm_Rollback, bind, gets, emit, modify, ret.
  simpl. destruct open; simpl; repeat split; reflexivity.
Qed.

Section Execute.
Variable L : Type.
Variable fn : UserRepository -> L -> M (option error * L).
Variable p : PostgresRepository.
Hypothesis on_pool : db p = Pool.

Ltac run_Execute Hbegin :=
  unfold PostgresRepository_Execute, gorm_Transaction; rewrite on_pool;
  unfold bind at 1 2; rewrite Hbegin; cbv beta iota zeta.

Lemma Execute_begin_failed :
  forall l w cause w1,
    gorm_Begin w = (Ok (Some cause), w1) ->
    PostgresRepository_Execute p fn l w
    = (Ok (Some (ErrTransactionFailed (Error cause)), l),
       logged (transaction_failed_line cause) w1).
Proof.
  intros l w cause w1 Hbegin. run_Execute Hbegin. reflexivity.
Qed.

Lemma Execute_fn_error :
  forall l w w1 e l' w2,
    gorm_Begin w = (Ok None, w1) ->
    fn txRepo l w1 = (Ok (Some e, l'), w2) ->
    PostgresRepository_Execute p fn l w
    = (Ok (Some e, l'), logged (transaction_failed_line e) (snd (gorm_Rollback w2))).
Proof.
  intros l w w1 e l' w2 Hbegin Hfn. run_Execute Hbegin.
  unfold bind at 1. cbn [snd fst].
  unfold txRepo, NewPostgresRepository in Hfn |- *. rewrite Hfn. reflexivity.
Qed.

Lemma Execute_fn_panic :
  forall l w w1 v w2,
    gorm_Begin w = (Ok None, w1) ->
    fn txRepo l w1 = (Panic v, w2) ->
    PostgresRepository_Execute p fn l w = (Panic v, snd (gorm_Rollback w2)).
Proof.
  intros l w w1 v w2 Hbegin Hfn. run_Execute Hbegin.
  unfold bind at 1. cbn [snd fst].
  unfold txRepo, NewPostgresRepository in Hfn |- *. rewrite Hfn. reflexivity.
Qed.

Lemma Execute_commit :
  forall l w w1 l' w2 c w3,
    gorm_Begin w = (Ok None, w1) ->
    fn txRepo l w1 = (Ok (None, l'), w2) ->
    gorm_Commit w2 = (Ok c, w3) ->
    PostgresRepository_Execute p fn l w
    = match c with
      | None => (Ok (None, l'), w3)
      | Some cause =>
          (Ok (Some (ErrTransactionFailed (Error cause)), l'),
           logged (transaction_failed_line cause) w3)
      end.
Proof.
  intros l w w1 l' w2 c w3 Hbegin Hfn Hcommit. run_Execute Hbegin.
  unfold bind at 1. cbn [snd fst].
  unfold txRepo, NewPostgresRepository in Hfn |- *. rewrite Hfn.
  cbv beta iota zeta. unfold ret at 1. unfold bind at 1. rewrite Hcommit.
  destruct c; reflexivity.
Qed.

End Execute.

Lemma gorm_Commit_failed :
  forall w cause w3,
    gorm_Commit w = (Ok (Some cause), w3) ->
    committed w3 = committed w /\ tx w3 = None.
Proof.
  intros [rows open fs tr nl ck tk lg] cause w3.
  unfold gorm_Commit, bind, gets, emit, modify, next_fault, ret. simpl.
  destruct open as [t|]; simpl; [|intros [= _ <-]; auto].
  destruct fs as [|[e|] rest]; simpl; try destruct (aborted t); simpl;
    intros [= _ <-]; simpl; auto; discriminate.
Qed.

Lemma gorm_Commit_done :
  forall w w3,
    gorm_Commit w = (Ok None, w3) ->
    exists t, tx w = Some t /\ aborted t = false
              /\ committed w3 = work t /\ tx w3 = None
              /\ trace w3 = EvCommit :: trace w
              /\ faults w3 = tl (faults w)
              /\ logs w3 = logs w /\ next_loc w3 = next_loc w
              /\ ticks w3 = ticks w /\ clock w3 = clock w.
Proof.
  intros [rows open fs tr nl ck tk lg] w3.
  unfold gorm_Commit, bind, gets, emit, modify, next_fault, ret. simpl.
  destruct open as [t|]; simpl; [|discriminate].
  destruct fs as [|[e|] rest]; simpl; try discriminate;
    destruct (aborted t) eqn:Ha; simpl; try discriminate;
    intros [= <-]; exists t; simpl; repeat split; auto.
Qed.

(** C2. On the pool, once the transaction has begun: when the unit of work
    returns an error, [Execute] rolls back and returns that very error; when
    it returns nil and the commit succeeds, [Execute] returns nil and the
    rows of the transaction are the committed ones; when it returns nil and
    the commit fails, [Execute] returns an [ErrTransactionFailed] made from
    the failure of the store, and nothing is published. *)
Theorem C2_Execute_contract :
  forall (L : Type) (fn : UserRepository -> L -> M (option error * L)) p l w w1,
    db p = Pool ->
    gorm_Begin w = (Ok None, w1) ->
    (forall e l' w2,
        fn txRepo l w1 = (Ok (Some e, l'), w2) ->
        exists w',
          PostgresRepository_Execute p fn l w = (Ok (Some e, l'), w')
          /\ tx w' = None
          /\ committed w' = committed w2
          /\ trace w' = match tx w2 with
                        | Some _ => EvRollback :: trace w2
                        | None => trace w2
                        end)
    /\ (forall l' w2 w3,
          fn txRepo l w1 = (Ok (None, l'), w2) ->
          gorm_Commit w2 = (Ok None, w3) ->
          PostgresRepository_Execute p fn l w = (Ok (None, l'), w3)
          /\ exists t, tx w2 = Some t /\ committed w3 = work t /\ tx w3 = None)
    /\ (forall l' w2 cause w3,
          fn txRepo l w1 = (Ok (None, l'), w2) ->
          gorm_Commit w2 = (Ok (Some cause), w3) ->
          exists w',
            PostgresRepository_Execute p fn l w
            = (Ok (Some (ErrTransactionFailed (Error cause)), l'), w')
            /\ tx w' = None
            /\ committed w' = committed w2).
Proof.
  intros L fn p l w w1 Hpool Hbegin. split; [|split].
  - intros e l' w2 Hfn.
    rewrite (Execute_fn_error L fn p Hpool l w w1 e l' w2 Hbegin Hfn).
    eexists. split; [reflexivity|].
    destruct (gorm_Rollback_spec w2) as (Htx & Hrows & _ & _ & _ & _ & _ & Htrace).
    unfold logged. simpl. auto.
  - intros l' w2 w3 Hfn Hcommit.
    rewrite (Execute_commit L fn p Hpool l w w1 l' w2 None w3 Hbegin Hfn Hcommit).
    split; [reflexivity|].
    destruct (gorm_Commit_done w2 w3 Hcommit) as (t & Ht & _ & Hrows & Hnone & _).
    exists t. auto.
  - intros l' w2 cause w3 Hfn Hcommit.
    rewrite (Execute_commit L fn p Hpool l w w1 l' w2 (Some cause) w3 Hbegin Hfn Hcommit).
    eexists. split; [reflexivity|].
    destruct (gorm_Commit_failed w2 cause w3 Hcommit) as (Hrows & Hnone).
    unfold logged. simpl. auto.
Qed.

Lemma C2_Execute_contract_witness :
  (exists w',
      PostgresRepository_Execute userRepository write_then_fail tt fresh_world
      = (Ok (Some ErrUserNotFound, tt), w')
      /\ tx w' = None
      /\ committed w' = []
      /\ trace w' = [EvRollback; EvInsert (ToEntity (Some jane)); EvBegin])
  /\ (PostgresRepository_Execute userRepository write_only tt fresh_world
      = (Ok (None, tt),
         set_committed [ToEntity (Some jane)]
           (set_trace [EvCommit; EvInsert (ToEntity (Some jane)); EvBegin] fresh_world)))
  /\ (exists w',
        PostgresRepository_Execute userRepository write_only tt
          (failing_world [None; None; Some (otherError "connection lost")])
        = (Ok (Some (ErrTransactionFailed "connection lost"), tt), w')
        /\ tx w' = None
        /\ committed w' = []).
Proof.
  split; [|split].
  - exact (proj1 (C2_Execute_contract unit write_then_fail userRepository tt
                    fresh_world _ eq_refl eq_refl)
             ErrUserNotFound tt _ eq_refl).
  - exact (proj1 (proj1 (proj2 (C2_Execute_contract unit write_only userRepository tt
                                  fresh_world _ eq_refl eq_refl))
                    tt _ _ eq_refl eq_refl)).
  - exact (proj2 (proj2 (C2_Execute_contract unit write_only userRepository tt
                           (failing_world [None; None; Some (otherError "connection lost")])
                           _ eq_refl eq_refl))
             tt _ (otherError "connection lost") _ eq_refl eq_refl).
Defined.

(** ** Statements of a unit of work, one at a time *)

Lemma gorm_Begin_inv :
  forall w w1,
    gorm_Begin w = (Ok None, w1) ->
    hd None (faults w) = None
    /\ w1 = set_tx (Some {| work := committed w; aborted := false |}) (sent EvBegin w).
Proof.
  intros w w1. unfold gorm_Begin, bind, emit, modify, next_fault, ret, sent. simpl.
  destruct (hd None (faults w)); [discriminate|].
  intros [= <-]. auto.
Qed.

Lemma gorm_Begin_healthy :
  forall w,
    hd None (faults w) = None ->
    gorm_Begin w
    = (Ok None, set_tx (Some {| work := committed w; aborted := false |}) (sent EvBegin w)).
Proof.
  intros w Hf. unfold gorm_Begin, bind, emit, modify, next_fault, ret, sent. simpl.
  rewrite Hf. reflexivity.
Qed.

(** An INSERT through the transaction handle that succeeds. *)
Lemma gorm_Create_Tx_inv :
  forall value w w',
    gorm_Create Tx value w = (Ok None, w') ->
    exists t,
      tx w = Some t /\ aborted t = false
      /\ hd None (faults w) = None
      /\ violated value (work t) = None
      /\ w' = set_tx (Some (set_work (work t ++ [value])%list t)) (sent (EvInsert value) w).
Proof.
  intros value w w'.
  unfold gorm_Create, statement, statement_failed, bind, gets, emit, modify, next_fault,
    ret, sent.
  simpl. destruct (tx w) as [t|] eqn:Ht; simpl; [|discriminate].
  destruct (hd None (faults w)); simpl; [discriminate|].
  rewrite Ht. destruct (aborted t) eqn:Ha; simpl; [discriminate|].
  destruct (violated value (work t)) eqn:Hv; simpl; [discriminate|].
  rewrite Ht. intros [= <-]. exists t. auto.
Qed.

Lemma gorm_Create_Tx_conflict :
  forall value w t c,
    tx w = Some t -> aborted t = false ->
    hd None (faults w) = None ->
    violated value (work t) = Some c ->
    gorm_Create Tx value w
    = (Ok (Some (unique_violation c)),
       set_tx (Some (set_aborted true t)) (sent (EvInsert value) w)).
Proof.
  intros value w t c Ht Ha Hf Hv.
  unfold gorm_Create, statement, statement_failed, bind, gets, emit, modify, next_fault,
    ret, sent.
  simpl. rewrite Ht. simpl. rewrite Hf. simpl. rewrite Ht, Ha. simpl. rewrite Hv. simpl.
  rewrite Ht. reflexivity.
Qed.

Lemma PostgresRepository_Create_inv :
  forall p user w w',
    PostgresRepository_Create p user w = (Ok None, w') ->
    gorm_Create (db p) (ToEntity user) w = (Ok None, w').
Proof.
  intros p user w w' Hrun.
  destruct (gorm_Create_Ok (db p) (ToEntity user) w) as (r & w1 & Hg).
  revert Hrun. run_Create Hg. destruct r as [cause|]; [|intros [= <-]; reflexivity].
  destruct (extractPgError (Some cause)) as [d|]; unfold ret;
    repeat match goal with
           | |- context [if ?b then _ else _] => destruct b
           end; discriminate.
Qed.

(** A SELECT by id on the pool that meets no fault. *)
Lemma gorm_First_Pool_healthy :
  forall id w,
    hd None (faults w) = None ->
    gorm_First Pool id w
    = (Ok match find (fun r => String.eqb (ent_ID r) id) (committed w) with
          | Some row => (row, None)
          | None => (zero_entity, Some gorm_ErrRecordNotFound)
          end,
       set_committed (committed w) (sent (EvSelectById id) w)).
Proof.
  intros id w Hf.
  unfold gorm_First, statement, statement_failed, bind, gets, emit, modify, next_fault,
    ret, sent.
  simpl. destruct (tx w); simpl; rewrite Hf; simpl;
    destruct (find _ (committed w)); reflexivity.
Qed.

(** ** The unit of work of [Execute], inverted *)

Lemma Execute_Pool_inv :
  forall (L : Type) (fn : UserRepository -> L -> M (option error * L)) p l w l' w',
    db p = Pool ->
    PostgresRepository_Execute p fn l w = (Ok (None, l'), w') ->
    exists w1 w2,
      gorm_Begin w = (Ok None, w1)
      /\ fn txRepo l w1 = (Ok (None, l'), w2)
      /\ gorm_Commit w2 = (Ok None, w').
Proof.
  intros L fn p l w l' w' Hpool Hrun.
  destruct (gorm_Begin_Ok w) as ([cause|] & w1 & Hbegin).
  - rewrite (Execute_begin_failed L fn p Hpool l w cause w1 Hbegin) in Hrun. discriminate.
  - destruct (fn txRepo l w1) as [[[[e|] l1]|v] w2] eqn:Hfn.
    + rewrite (Execute_fn_error L fn p Hpool l w w1 e l1 w2 Hbegin Hfn) in Hrun.
      discriminate.
    + destruct (gorm_Commit_Ok w2) as (c & w3 & Hcommit).
      rewrite (Execute_commit L fn p Hpool l w w1 l1 w2 c w3 Hbegin Hfn Hcommit) in Hrun.
      destruct c; [discriminate|]. injection Hrun as <- <-. eauto.
    + rewrite (Execute_fn_panic L fn p Hpool l w w1 v w2 Hbegin Hfn) in Hrun. discriminate.
Qed.

(** ** What a unit of work writes stays in its transaction *)

Lemma statement_Tx_keeps_committed :
  forall (A : Type) ev (zero : A) run w,
    committed (snd (statement Tx ev zero run w)) = committed w.
Proof.
  intros A ev zero run w.
  unfold statement, statement_failed, bind, gets, emit, modify, next_fault, ret. simpl.
  destruct (tx w) as [t|] eqn:Ht; simpl; [|reflexivity].
  destruct (hd None (faults w)); simpl; [reflexivity|].
  rewrite Ht. destruct (aborted t); simpl; [reflexivity|].
  destruct (run (work t)) as [[a rows']|e]; reflexivity.
Qed.

Lemma txRepo_Create_keeps_committed :
  forall user w, committed (snd (repo_Create txRepo user w)) = committed w.
Proof.
  intros user w.
  change (repo_Create txRepo) with (PostgresRepository_Create (NewPostgresRepository Tx)).
  unfold PostgresRepository_Create, gorm_Create. cbn [db NewPostgresRepository].
  unfold bind at 1 2.
  pose proof (statement_Tx_keeps_committed unit (EvInsert (ToEntity user)) tt
                (fun rows => match violated (ToEntity user) rows with
                             | Some c => inr (unique_violation c)
                             | None => inl (tt, (rows ++ [ToEntity user])%list)
                             end) w) as Hkeep.
  destruct (statement Tx _ tt _ w) as [[[[] [cause|]]|v] w1]; unfold ret; cbn [snd fst gorm_Error RowsAffected] in Hkeep |- *; cbv beta iota; auto.
  destruct (extractPgError (Some cause)) as [d|];
    repeat match goal with
           | |- context [if ?b then _ else _] => destruct b
           end; assumption.
Qed.

Lemma txRepo_Update_keeps_committed :
  forall user w, committed (snd (repo_Update txRepo user w)) = committed w.
Proof.
  intros user w.
  change (repo_Update txRepo) with (PostgresRepository_Update (NewPostgresRepository Tx)).
  unfold PostgresRepository_Update, gorm_Updates. cbn [db NewPostgresRepository].
  destruct (String.eqb (ent_ID (ToEntity user)) ""); [reflexivity|].
  destruct (is_zero (ToEntity user)); [reflexivity|].
  unfold bind at 1 2.
  match goal with
  | |- context [statement Tx ?ev ?zero ?run w] =>
      pose proof (statement_Tx_keeps_committed Z ev zero run w) as Hkeep;
      destruct (statement Tx ev zero run w) as [[[n [cause|]]|v] w1]
  end; unfold ret; cbn [snd fst gorm_Error RowsAffected] in Hkeep |- *; cbv beta iota; auto.
  - destruct (errors_Is cause gorm_ErrRecordNotFound); [assumption|].
    destruct (extractPgError (Some cause)) as [d|];
      repeat match goal with
             | |- context [if ?b then _ else _] => destruct b
             end; assumption.
  - destruct (Z.eqb n 0); assumption.
Qed.

Lemma txRepo_Delete_keeps_committed :
  forall id w, committed (snd (repo_Delete txRepo id w)) = committed w.
Proof.
  intros id w.
  change (repo_Delete txRepo) with (PostgresRepository_Delete (NewPostgresRepository Tx)).
  unfold PostgresRepository_Delete, gorm_Delete. cbn [db NewPostgresRepository].
  destruct (String.eqb id ""); [reflexivity|].
  unfold bind at 1 2.
  match goal with
  | |- context [statement Tx ?ev ?zero ?run w] =>
      pose proof (statement_Tx_keeps_committed Z ev zero run w) as Hkeep;
      destruct (statement Tx ev zero run w) as [[[n [cause|]]|v] w1]
  end; unfold ret; cbn [snd fst gorm_Error RowsAffected] in Hkeep |- *; cbv beta iota; auto.
  destruct (Z.eqb n 0); assumption.
Qed.

(** ** What the store and the adapter leave alone *)

Lemma gorm_Begin_keeps :
  forall w r w1,
    gorm_Begin w = (Ok r, w1) ->
    committed w1 = committed w /\ next_loc w1 = next_loc w /\ logs w1 = logs w
    /\ (r <> None -> tx w1 = tx w).
Proof.
  intros w r w1. unfold gorm_Begin, bind, emit, modify, next_fault, ret. simpl.
  destruct (hd None (faults w)); intros [= <- <-]; simpl; repeat split; auto.
  intros Hn. contradiction Hn. reflexivity.
Qed.

Lemma statement_keeps_heap :
  forall (A : Type) h ev (zero : A) run w,
    next_loc (snd (statement h ev zero run w)) = next_loc w.
Proof.
  intros A h ev zero run w.
  unfold statement, statement_failed, bind, gets, emit, modify, next_fault, ret.
  destruct h; simpl.
  - destruct (tx w); simpl; (destruct (hd None (faults w)); simpl; [reflexivity|]);
      destruct (run (committed w)) as [[a rows']|e]; reflexivity.
  - destruct (tx w) as [t|] eqn:Ht; simpl; [|reflexivity].
    destruct (hd None (faults w)); simpl; [reflexivity|].
    rewrite Ht. destruct (aborted t); simpl; [reflexivity|].
    destruct (run (work t)) as [[a rows']|e]; reflexivity.
Qed.

Lemma PostgresRepository_Create_keeps_heap :
  forall p user w r w',
    PostgresRepository_Create p user w = (Ok r, w') -> next_loc w' = next_loc w.
Proof.
  intros p user w r w'. unfold PostgresRepository_Create, gorm_Create. unfold bind at 1 2.
  match goal with
  | |- context [statement (db p) ?ev ?zero ?run w] =>
      pose proof (statement_keeps_heap _ (db p) ev zero run w) as Hkeep;
      destruct (statement (db p) ev zero run w) as [[[[] [cause|]]|v] w1]
  end; unfold ret; cbn [snd fst] in Hkeep |- *; cbv beta iota; try discriminate.
  - destruct (extractPgError (Some cause)) as [d|];
      repeat match goal with
             | |- context [if ?b then _ else _] => destruct b
             end; intros [= _ <-]; assumption.
  - intros [= _ <-]. assumption.
Qed.

Lemma gorm_Commit_keeps_heap :
  forall w c w3, gorm_Commit w = (Ok c, w3) -> next_loc w3 = next_loc w.
Proof.
  intros [rows open fs tr nl ck tk lg] c w3.
  unfold gorm_Commit, bind, gets, emit, modify, next_fault, ret. simpl.
  destruct open as [t|]; simpl; [|intros [= _ <-]; reflexivity].
  destruct (hd None fs); simpl; [intros [= _ <-]; reflexivity|].
  destruct (aborted t); simpl; intros [= _ <-]; reflexivity.
Qed.

(** ** The orchestrator *)

Section Orchestrator.
Context `{GoLibs}.

Lemma mapRepositoryError_Ok :
  forall err w, exists e, mapRepositoryError err w = (Ok e, set_next_loc (S (next_loc w)) w).
Proof.
  intros err w. unfold mapRepositoryError, errors_New, fmt_Errorf_w.
  destruct (errors_Is err ErrUserNotFound); [eauto|].
  destruct (errors_Is err ErrUsernameInUse); [eauto|].
  destruct (errors_Is err ErrEmailInUse); [eauto|].
  destruct (errors_As_ErrValueNotNullable err); eauto.
Qed.

Lemma newID_run :
  forall t w,
    newID t w
    = if Z.ltb ulid_maxTime (ulid_Timestamp t) then (Panic "ulid: time too big", w)
      else (Ok (ulid_String (ulid_Timestamp t * 2 ^ 80
                             + rand_Read10 (UnixNano t) mod 2 ^ 80)%Z), w).
Proof.
  intros t w. unfold newID, ulid_MustNew, bind, panic, ret.
  destruct (Z.ltb ulid_maxTime (ulid_Timestamp t)); reflexivity.
Qed.

(** What a successful [Create] of the service has done. *)
Lemma Create_inv :
  forall req w created w',
    UserServiceImpl_Create userService (Some req) w = (Ok (created, None), w') ->
    exists u,
      newID (clock w (ticks w)) w = (Ok (ID u), w)
      /\ u = {| ID := ID u; Name := req_Name req;
                Username := req_Username req; Email := req_Email req |}
      /\ created = Some u
      /\ violated (ToEntity (Some u)) (committed w) = None
      /\ committed w' = (committed w ++ [ToEntity (Some u)])%list
      /\ tx w' = None
      /\ trace w' = EvCommit :: EvInsert (ToEntity (Some u)) :: EvBegin :: trace w
      /\ faults w' = tl (tl (tl (faults w)))
      /\ ticks w' = S (ticks w) /\ clock w' = clock w
      /\ next_loc w' = next_loc w /\ logs w' = logs w.
Proof.
  intros req w created0 w' Hrun.
  unfold UserServiceImpl_Create in Hrun. unfold bind at 1 in Hrun.
  change (port_Execute (txPort userService)) with
    (fun L => @PostgresRepository_Execute L userRepository) in Hrun.
  cbv beta in Hrun.
  match type of Hrun with
  | context [PostgresRepository_Execute userRepository ?f None w] =>
      set (fn := f) in *
  end.
  destruct (PostgresRepository_Execute userRepository fn None w)
    as [[[[cause|] created]|v] w3] eqn:Hexec; try discriminate.
  - destruct (mapRepositoryError_Ok cause w3) as (e & He).
    unfold bind in Hrun. rewrite He in Hrun. discriminate.
  - injection Hrun as -> <-.
    apply Execute_Pool_inv in Hexec; [|reflexivity].
    destruct Hexec as (w1 & w2 & Hbegin & Hfn & Hcommit).
    apply gorm_Begin_inv in Hbegin as [_ ->].
    apply gorm_Commit_done in Hcommit
      as (t2 & Ht2 & _ & Hrows & Hnone & Htrace & Hfaults & Hlogs & Hloc & Hticks & Hclock).
    subst fn. cbv beta iota in Hfn.
    unfold bind at 1 in Hfn. unfold time_Now in Hfn.
    unfold bind at 1 in Hfn. rewrite newID_run in Hfn. cbn [clock ticks set_tx sent set_faults set_trace] in Hfn.
    rewrite newID_run.
    destruct (Z.ltb ulid_maxTime (ulid_Timestamp (clock w (ticks w)))); [discriminate|].
    unfold bind at 1 in Hfn. unfold txRepo, as_UserRepository in Hfn. cbn [repo_Create] in Hfn.
    match type of Hfn with
    | context [PostgresRepository_Create ?p ?usr ?w0] =>
        destruct (PostgresRepository_Create p usr w0) as [[[e|]|v] w4] eqn:Hcreate
    end; try discriminate.
    injection Hfn as <- <-.
    apply PostgresRepository_Create_inv in Hcreate.
    apply gorm_Create_Tx_inv in Hcreate as (t & Ht & _ & _ & Hv & ->).
    cbn in Ht. injection Ht as <-. cbn in Ht2. injection Ht2 as <-.
    eexists {| ID := _; Name := _; Username := _; Email := _ |}.
    cbn in *. repeat split; auto.
Qed.


Lemma find_appended :
  forall (row : UserEntity) rows,
    violated row rows = None ->
    find (fun r => String.eqb (ent_ID r) (ent_ID row)) (rows ++ [row]) = Some row.
Proof.
  intros row rows. unfold violated.
  destruct (existsb (fun r => String.eqb (ent_ID r) (ent_ID row)) rows) eqn:Hid;
    [discriminate|]. intros _.
  induction rows as [|r rows IH]; simpl in *.
  - rewrite String.eqb_refl. reflexivity.
  - apply orb_false_iff in Hid as [Hr Hrest]. rewrite Hr. auto.
Qed.

Lemma Create_returns :
  forall req w,
    (ulid_Timestamp (clock w (ticks w)) <= ulid_maxTime)%Z ->
    exists r w', UserServiceImpl_Create userService (Some req) w = (Ok r, w').
Proof.
  intros req w Hfits. apply Z.ltb_ge in Hfits.
  unfold UserServiceImpl_Create. unfold bind at 1.
  change (port_Execute (txPort userService)) with
    (fun L => @PostgresRepository_Execute L userRepository).
  cbv beta.
  match goal with
  | |- context [PostgresRepository_Execute userRepository ?f None w] => set (fn := f)
  end.
  assert (Hmapped : forall cause w3,
             exists (r : option User * option error) w',
               (e <- mapRepositoryError cause ;; ret (None, Some e)) w3 = (Ok r, w')).
  { intros cause w3. unfold bind.
    destruct (mapRepositoryError_Ok cause w3) as (e & ->). unfold ret. eauto. }
  destruct (gorm_Begin_Ok w) as ([cause|] & w1 & Hbegin).
  - rewrite (Execute_begin_failed _ fn userRepository eq_refl None w cause w1 Hbegin).
    apply Hmapped.
  - assert (Hticks : clock w1 (ticks w1) = clock w (ticks w))
      by (apply gorm_Begin_inv in Hbegin as [_ ->]; reflexivity).
    destruct (PostgresRepository_Create_kinds (NewPostgresRepository Tx)
                (Some {| ID := ulid_String (ulid_Timestamp (clock w (ticks w)) * 2 ^ 80
                                            + rand_Read10 (UnixNano (clock w (ticks w)))
                                              mod 2 ^ 80)%Z;
                         Name := req_Name req; Username := req_Username req;
                         Email := req_Email req |})
                (set_ticks (S (ticks w1)) w1)) as (r & w4 & Hcreate & _).
    destruct r as [e|].
    + assert (Hfn : fn txRepo None w1
                    = (Ok (Some e, None), logged ("Estamos en create, error: " ++ Error e) w4)).
      { subst fn. cbv beta iota. unfold bind at 1. unfold time_Now.
        unfold bind at 1. rewrite newID_run, Hticks, Hfits.
        unfold bind at 1. change (repo_Create txRepo)
          with (PostgresRepository_Create (NewPostgresRepository Tx)).
        rewrite Hcreate. reflexivity. }
      rewrite (Execute_fn_error _ fn userRepository eq_refl None w w1 e None _ Hbegin Hfn).
      apply Hmapped.
    + assert (Hfn : exists u, fn txRepo None w1 = (Ok (None, Some u), w4)).
      { subst fn. cbv beta iota. unfold bind at 1. unfold time_Now.
        unfold bind at 1. rewrite newID_run, Hticks, Hfits.
        unfold bind at 1. change (repo_Create txRepo)
          with (PostgresRepository_Create (NewPostgresRepository Tx)).
        rewrite Hcreate. eexists. reflexivity. }
      destruct Hfn as (u & Hfn).
      destruct (gorm_Commit_Ok w4) as (c & w5 & Hcommit).
      rewrite (Execute_commit _ fn userRepository eq_refl None w w1 (Some u) w4 c w5
                 Hbegin Hfn Hcommit).
      destruct c as [cause|]; [apply Hmapped|].
      unfold ret. eauto.
Qed.

(** What a failed [Create] of the service has met: a refused BEGIN, an
    INSERT of the new record the adapter answered with an error, or a
    refused COMMIT.  [cause] is the error [Execute] returned for it. *)
Lemma Create_failure_cases :
  forall req w created e w',
    UserServiceImpl_Create userService (Some req) w = (Ok (created, Some e), w') ->
    created = None
    /\ exists cause w3,
         mapRepositoryError cause w3 = (Ok e, w')
         /\ next_loc w3 = next_loc w
         /\ ((exists f w1,
                 gorm_Begin w = (Ok (Some f), w1)
                 /\ cause = ErrTransactionFailed (Error f))
             \/ (exists w1 id w2,
                   gorm_Begin w = (Ok None, w1)
                   /\ newID (clock w (ticks w)) w = (Ok id, w)
                   /\ PostgresRepository_Create (NewPostgresRepository Tx)
                        (Some {| ID := id; Name := req_Name req;
                                 Username := req_Username req; Email := req_Email req |})
                        (set_ticks (S (ticks w1)) w1)
                      = (Ok (Some cause), w2))
             \/ (exists w1 id w2 f w4,
                   gorm_Begin w = (Ok None, w1)
                   /\ newID (clock w (ticks w)) w = (Ok id, w)
                   /\ PostgresRepository_Create (NewPostgresRepository Tx)
                        (Some {| ID := id; Name := req_Name req;
                                 Username := req_Username req; Email := req_Email req |})
                        (set_ticks (S (ticks w1)) w1)
                      = (Ok None, w2)
                   /\ gorm_Commit w2 = (Ok (Some f), w4)
                   /\ cause = ErrTransactionFailed (Error f))).
Proof.
  intros req w created e w'. unfold UserServiceImpl_Create. unfold bind at 1.
  change (port_Execute (txPort userService)) with
    (fun L => @PostgresRepository_Execute L userRepository).
  cbv beta.
  match goal with
  | |- context [PostgresRepository_Execute userRepository ?f None w] => set (fn := f)
  end.
  destruct (PostgresRepository_Execute userRepository fn None w)
    as [[[[cause|] l']|v] w3] eqn:Hexec; [| |discriminate].
  2: { unfold ret. intros [= _ <-]. }
  unfold bind. destruct (mapRepositoryError_Ok cause w3) as (e' & He). rewrite He.
  unfold ret. intros [= <- <- <-]. split; [reflexivity|].
  exists cause, w3. split; [assumption|].
  destruct (gorm_Begin_Ok w) as ([failure|] & w1 & Hbegin).
  - rewrite (Execute_begin_failed _ fn userRepository eq_refl None w failure w1 Hbegin)
      in Hexec.
    injection Hexec as <- _ <-.
    destruct (gorm_Begin_keeps w _ w1 Hbegin) as (_ & Hloc & _).
    split; [exact Hloc|]. left. eauto.
  - destruct (gorm_Begin_keeps w _ w1 Hbegin) as (_ & Hloc & _).
    assert (Hreading : clock w1 (ticks w1) = clock w (ticks w))
      by (apply gorm_Begin_inv in Hbegin as [_ ->]; reflexivity).
    destruct (fn txRepo None w1) as [[[[err|] l1]|v] w2] eqn:Hfn.
    + rewrite (Execute_fn_error _ fn userRepository eq_refl None w w1 err l1 w2 Hbegin Hfn)
        in Hexec.
      injection Hexec as <- _ <-.
      destruct (gorm_Rollback_spec w2) as (_ & _ & _ & _ & Hrb & _).
      remember (snd (gorm_Rollback w2)) as wr eqn:Hwr. clear Hwr.
      subst fn. cbv beta iota in Hfn.
      unfold bind at 1 in Hfn. unfold time_Now in Hfn. unfold bind at 1 in Hfn.
      rewrite newID_run in Hfn. rewrite newID_run. rewrite Hreading in Hfn.
      destruct (Z.ltb ulid_maxTime (ulid_Timestamp (clock w (ticks w)))); [discriminate|].
      unfold bind at 1 in Hfn. change (repo_Create txRepo)
        with (PostgresRepository_Create (NewPostgresRepository Tx)) in Hfn.
      match type of Hfn with
      | context [PostgresRepository_Create ?p ?u ?v] =>
          destruct (PostgresRepository_Create p u v) as [[[err'|]|x] v1] eqn:Hcreate;
          [pose proof (PostgresRepository_Create_keeps_heap p u v _ v1 Hcreate) as Hheap
          |discriminate|discriminate]
      end.
      unfold bind, log_Print, modify, ret in Hfn. injection Hfn as <- _ <-.
      unfold logged. cbn in Hheap, Hrb |- *. split; [congruence|].
      right. left. exists w1. eexists. exists v1.
      split; [exact Hbegin|]. split; [reflexivity|]. exact Hcreate.
    + destruct (gorm_Commit_Ok w2) as (c & w4 & Hcommit).
      rewrite (Execute_commit _ fn userRepository eq_refl None w w1 l1 w2 c w4 Hbegin Hfn
                 Hcommit) in Hexec.
      destruct c as [failure|]; [|discriminate]. injection Hexec as <- _ <-.
      pose proof (gorm_Commit_keeps_heap w2 _ w4 Hcommit) as Hc.
      subst fn. cbv beta iota in Hfn.
      unfold bind at 1 in Hfn. unfold time_Now in Hfn. unfold bind at 1 in Hfn.
      rewrite newID_run in Hfn. rewrite newID_run. rewrite Hreading in Hfn.
      destruct (Z.ltb ulid_maxTime (ulid_Timestamp (clock w (ticks w)))); [discriminate|].
      unfold bind at 1 in Hfn. change (repo_Create txRepo)
        with (PostgresRepository_Create (NewPostgresRepository Tx)) in Hfn.
      match type of Hfn with
      | context [PostgresRepository_Create ?p ?u ?v] =>
          destruct (PostgresRepository_Create p u v) as [[[err'|]|x] v1] eqn:Hcreate;
          [unfold bind, log_Print, modify, ret in Hfn; discriminate
          |pose proof (PostgresRepository_Create_keeps_heap p u v _ v1 Hcreate) as Hheap
          |discriminate]
      end.
      unfold ret in Hfn. injection Hfn as _ <-.
      unfold logged. cbn in Hheap |- *. split; [congruence|].
      right. right. exists w1. eexists. exists v1, failure, w4.
      split; [exact Hbegin|]. split; [reflexivity|]. split; [exact Hcreate|].
      split; [exact Hcommit|reflexivity].
    + rewrite (Execute_fn_panic _ fn userRepository eq_refl None w w1 v w2 Hbegin Hfn)
        in Hexec. discriminate.
Qed.

(** What [mapRepositoryError] makes of each error [Execute] can return
    from the unit of work of [Create]. *)
Lemma mapRepositoryError_of_Create :
  forall cause w e w',
    mapRepositoryError cause w = (Ok e, w') ->
    (cause = ErrUsernameInUse -> e = errorString (next_loc w) "username already in use")
    /\ (cause = ErrEmailInUse -> e = errorString (next_loc w) "email already in use")
    /\ (forall column,
          cause = ErrValueNotNullable column ->
          e = errorString (next_loc w) (fmt_Sprintf (column ++ " is not nullable")))
    /\ (cause = ErrIdInUse
        \/ (exists detail, cause = ErrInternalServer detail)
        \/ (exists detail, cause = ErrTransactionFailed detail) ->
        e = wrapError (next_loc w) ("internal service error: " ++ Error cause) cause).
Proof.
  intros cause w e w' Hrun. repeat split.
  - intros ->. revert Hrun. unfold mapRepositoryError, errors_New. cbn.
    intros [= <- _]. reflexivity.
  - intros ->. revert Hrun. unfold mapRepositoryError, errors_New. cbn.
    intros [= <- _]. reflexivity.
  - intros column ->. revert Hrun. unfold mapRepositoryError, errors_New. cbn.
    intros [= <- _]. reflexivity.
  - intros [->|[[detail ->]|[detail ->]]]; revert Hrun;
      unfold mapRepositoryError, fmt_Errorf_w; cbn; intros [= <- _]; reflexivity.
Qed.

(** C6. With a clock inside the range of an identifier, [Create] of the
    service returns.  When it succeeds it returns the fields of the request
    under the identifier the orchestrator computed from its reading of the
    clock, and the store saw one transaction: BEGIN, the INSERT of that
    very record, COMMIT.  When it fails it returns no user, and the error
    it returns is made from what the unit of work met: the refusal of
    BEGIN or of COMMIT as an [ErrTransactionFailed], or the answer of the
    adapter to the INSERT of the new record.  A taken username or email
    and a [ErrValueNotNullable] come back as a new error with their text
    only; [ErrIdInUse], an [ErrInternalServer] and an
    [ErrTransactionFailed] come back wrapped behind
    ["internal service error: "]. *)
Theorem C6_Create_returns_created_user :
  forall req w,
    ((ulid_Timestamp (clock w (ticks w)) <= ulid_maxTime)%Z ->
     exists r w', UserServiceImpl_Create userService (Some req) w = (Ok r, w'))
    /\ (forall created err w',
          UserServiceImpl_Create userService (Some req) w = (Ok (created, err), w') ->
          (err = None ->
             exists id,
               newID (clock w (ticks w)) w = (Ok id, w)
               /\ created = Some {| ID := id; Name := req_Name req;
                                    Username := req_Username req; Email := req_Email req |}
               /\ trace w' = EvCommit :: EvInsert (ToEntity created) :: EvBegin :: trace w
               /\ committed w' = (committed w ++ [ToEntity created])%list)
          /\ (forall e, err = Some e ->
                created = None
                /\ next_loc w' = S (next_loc w)
                /\ exists cause,
                     ((exists f w1,
                          gorm_Begin w = (Ok (Some f), w1)
                          /\ cause = ErrTransactionFailed (Error f))
                      \/ (exists w1 id w2,
                            gorm_Begin w = (Ok None, w1)
                            /\ newID (clock w (ticks w)) w = (Ok id, w)
                            /\ PostgresRepository_Create (NewPostgresRepository Tx)
                                 (Some {| ID := id; Name := req_Name req;
                                          Username := req_Username req;
                                          Email := req_Email req |})
                                 (set_ticks (S (ticks w1)) w1)
                               = (Ok (Some cause), w2))
                      \/ (exists w1 id w2 f w4,
                            gorm_Begin w = (Ok None, w1)
                            /\ newID (clock w (ticks w)) w = (Ok id, w)
                            /\ PostgresRepository_Create (NewPostgresRepository Tx)
                                 (Some {| ID := id; Name := req_Name req;
                                          Username := req_Username req;
                                          Email := req_Email req |})
                                 (set_ticks (S (ticks w1)) w1)
                               = (Ok None, w2)
                            /\ gorm_Commit w2 = (Ok (Some f), w4)
                            /\ cause = ErrTransactionFailed (Error f)))
                     /\ (Create_result (Some cause)
                         \/ exists detail, cause = ErrTransactionFailed detail)
                     /\ (cause = ErrUsernameInUse ->
                         e = errorString (next_loc w) "username already in use")
                     /\ (cause = ErrEmailInUse ->
                         e = errorString (next_loc w) "email already in use")
                     /\ (forall column,
                           cause = ErrValueNotNullable column ->
                           e = errorString (next_loc w)
                                 (fmt_Sprintf (column ++ " is not nullable")))
                     /\ (cause = ErrIdInUse
                         \/ (exists detail, cause = ErrInternalServer detail)
                         \/ (exists detail, cause = ErrTransactionFailed detail) ->
                         e = wrapError (next_loc w)
                               ("internal service error: " ++ Error cause) cause))).
Proof.
  intros req w. split; [apply Create_returns|].
  intros created err w' Hrun. split.
  - intros ->. apply Create_inv in Hrun
      as (u & Hid & Hu & -> & _ & Hrows & _ & Htrace & _).
    exists (ID u). rewrite <- Hu. auto.
  - intros e ->. apply Create_failure_cases in Hrun
      as (-> & cause & w3 & Hmapped & Hloc & Hcases).
    split; [reflexivity|].
    destruct (mapRepositoryError_Ok cause w3) as (e' & He).
    split; [rewrite He in Hmapped; injection Hmapped as _ <-; cbn; congruence|].
    exists cause. split; [exact Hcases|].
    split.
    { destruct Hcases as [(f & w1 & _ & ->)|[(w1 & id & w2 & _ & _ & Hcreate)
                                              |(w1 & id & w2 & f & w4 & _ & _ & _ & _ & ->)]];
        [right; eauto| |right; eauto].
      left.
      match type of Hcreate with
      | PostgresRepository_Create ?p ?u ?v = _ =>
          destruct (PostgresRepository_Create_kinds p u v) as (r & v1 & Hk & Hkind)
      end.
      rewrite Hk in Hcreate. injection Hcreate as -> _. exact Hkind. }
    rewrite <- Hloc. apply (mapRepositoryError_of_Create cause w3 e w' Hmapped).
Qed.

(** C7. After a [Create] of the service that succeeded, [FindById] with
    the identifier it returned, on a store that answers, returns the same
    record. *)
Theorem C7_Create_then_FindById :
  forall req w u w',
    UserServiceImpl_Create userService (Some req) w = (Ok (Some u, None), w') ->
    hd None (faults w') = None ->
    exists w'',
      UserServiceImpl_FindById userService (ID u) w' = (Ok (Some u, None), w'').
Proof.
  intros req w u w' Hrun Hhealthy.
  apply Create_inv in Hrun as (u' & _ & _ & [= <-] & Hv & Hrows & _).
  unfold UserServiceImpl_FindById, bind.
  change (repo_FindById (Repo userService)) with (PostgresRepository_FindById userRepository).
  unfold PostgresRepository_FindById, bind.
  change (db userRepository) with Pool.
  rewrite (gorm_First_Pool_healthy (ID u) w' Hhealthy).
  rewrite Hrows.
  change (ID u) with (ent_ID (ToEntity (Some u))) at 1.
  rewrite (find_appended (ToEntity (Some u)) (committed w) Hv).
  destruct u. eexists. reflexivity.
Qed.


Lemma violated_pkey :
  forall row rows,
    existsb (fun r => String.eqb (ent_ID r) (ent_ID row)) rows = true ->
    violated row rows = Some "user_entities_pkey".
Proof. intros row rows Hid. unfold violated. rewrite Hid. reflexivity. Qed.

Lemma Create_Tx_repeated_id :
  forall user w t,
    tx w = Some t -> aborted t = false ->
    hd None (faults w) = None ->
    existsb (fun r => String.eqb (ent_ID r) (ent_ID (ToEntity user))) (work t) = true ->
    PostgresRepository_Create (NewPostgresRepository Tx) user w
    = (Ok (Some (ErrInternalServer (Error (unique_violation "user_entities_pkey")))),
       set_tx (Some (set_aborted true t)) (sent (EvInsert (ToEntity user)) w)).
Proof.
  intros user w t Ht Ha Hf Hid.
  pose proof (gorm_Create_Tx_conflict (ToEntity user) w t "user_entities_pkey" Ht Ha Hf
                (violated_pkey _ _ Hid)) as Hrun.
  change Tx with (db (NewPostgresRepository Tx)) in Hrun at 1.
  run_Create Hrun. reflexivity.
Qed.

(** C8, what the code does. The identifier is a function of the reading
    of the clock alone: when the clock gives the reading of the previous
    [Create] again, the next [Create] computes the identifier of the
    previous one once more, and the primary key of the store refuses it.
    The adapter does not know the key by the name the server gives it, so
    the refusal comes back as an [ErrInternalServer] with the text of the
    server. *)
Theorem C8_repeated_reading_repeats_id :
  forall req1 req2 w u1 w1,
    UserServiceImpl_Create userService (Some req1) w = (Ok (Some u1, None), w1) ->
    clock w (S (ticks w)) = clock w (ticks w) ->
    hd None (faults w1) = None ->
    hd None (tl (faults w1)) = None ->
    exists w2,
      UserServiceImpl_Create userService (Some req2) w1
      = (Ok (None,
             Some (wrapError (next_loc w1)
                     ("internal service error: internal server error: "
                      ++ Error (unique_violation "user_entities_pkey"))
                     (ErrInternalServer (Error (unique_violation "user_entities_pkey"))))),
         w2)
      /\ trace w2
         = EvRollback
             :: EvInsert {| ent_ID := ID u1; ent_Name := req_Name req2;
                            ent_Username := req_Username req2;
                            ent_Email := req_Email req2 |}
             :: EvBegin :: trace w1
      /\ committed w2 = committed w1.
Proof.
  intros req1 req2 w u1 w1 Hfirst Hclock Hf1 Hf2.
  apply Create_inv in Hfirst
    as (u & Hid & Hu & [= <-] & Hv & Hrows & Hnone & Htrace & Hfaults & Hticks & Hck & Hloc
        & Hlogs).
  rewrite newID_run in Hid.
  destruct (Z.ltb ulid_maxTime (ulid_Timestamp (clock w (ticks w)))) eqn:Hfits;
    [discriminate|].
  assert (Hsame : ulid_String (ulid_Timestamp (clock w (ticks w)) * 2 ^ 80
                               + rand_Read10 (UnixNano (clock w (ticks w))) mod 2 ^ 80)%Z
                  = ID u1) by congruence.
  clear Hid. rename Hsame into Hid.
  unfold UserServiceImpl_Create. unfold bind at 1.
  change (port_Execute (txPort userService)) with
    (fun L => @PostgresRepository_Execute L userRepository).
  cbv beta.
  match goal with
  | |- context [PostgresRepository_Execute userRepository ?f None w1] => set (fn := f)
  end.
  pose proof (gorm_Begin_healthy w1 Hf1) as Hbegin.
  set (w1b := set_tx (Some {| work := committed w1; aborted := false |}) (sent EvBegin w1))
    in Hbegin.
  assert (Hfn : exists w2b,
             fn txRepo None w1b
             = (Ok (Some (ErrInternalServer (Error (unique_violation "user_entities_pkey"))),
                    None), w2b)
             /\ tx w2b <> None
             /\ trace w2b
                = EvInsert {| ent_ID := ID u1; ent_Name := req_Name req2;
                              ent_Username := req_Username req2;
                              ent_Email := req_Email req2 |}
                    :: EvBegin :: trace w1
             /\ committed w2b = committed w1
             /\ next_loc w2b = next_loc w1).
  { subst fn. cbv beta iota. unfold bind at 1. unfold time_Now.
    unfold bind at 1. rewrite newID_run.
    subst w1b. cbn [clock ticks set_tx sent set_faults set_trace].
    rewrite Hck, Hticks, Hclock, Hfits.
    unfold bind at 1. unfold txRepo, as_UserRepository. cbn [repo_Create].
    erewrite Create_Tx_repeated_id; [| reflexivity | reflexivity | exact Hf2 | ].
    - unfold bind, log_Print, modify, ret. eexists. split; [reflexivity|].
      cbn -[Z.pow Z.mul Z.add Z.modulo]. rewrite Hid. repeat split; auto. discriminate.
    - cbn -[Z.pow Z.mul Z.add Z.modulo]. rewrite Hrows, existsb_app.
      cbn -[Z.pow Z.mul Z.add Z.modulo]. rewrite Hid, String.eqb_refl.
      apply orb_true_r. }
  destruct Hfn as (w2b & Hfn & Hopen & Htr & Hcm & Hnl).
  rewrite (Execute_fn_error _ fn userRepository eq_refl None w1 w1b _ None w2b
             Hbegin Hfn).
  destruct (gorm_Rollback_spec w2b) as (_ & Hrb_rows & _ & _ & Hrb_loc & _ & _ & Hrb_trace).
  remember (snd (gorm_Rollback w2b)) as wr eqn:Hwr. clear Hwr.
  unfold bind, mapRepositoryError, fmt_Errorf_w, ret, logged. cbn.
  rewrite Hrb_loc, Hnl. eexists. split; [reflexivity|].
  cbn. rewrite Hrb_trace, Hrb_rows, Htr, Hcm.
  destruct (tx w2b); [auto|contradiction].
Qed.


(** ** Update *)

Lemma gorm_Updates_sent :
  forall h id value w res w',
    gorm_Updates h id value w = (Ok res, w') ->
    gorm_Error res = None ->
    RowsAffected res <> 0%Z ->
    trace w' = EvUpdate id value :: trace w.
Proof.
  intros h id value w res w'. unfold gorm_Updates.
  destruct (String.eqb id ""); [unfold ret; intros [= <- _]; discriminate|].
  destruct (is_zero value); [unfold ret; intros [= <- _] _ Hn; contradiction Hn; reflexivity|].
  unfold statement, statement_failed, bind, gets, emit, modify, next_fault, ret.
  destruct h; simpl.
  - destruct (tx w); simpl;
      (destruct (hd None (faults w)); simpl; [intros [= <- _]; discriminate|]);
      (destruct (violated_any _ _); simpl; [intros [= <- _]; discriminate|]);
      intros [= _ <-] _ _; reflexivity.
  - destruct (tx w) as [t|] eqn:Ht; simpl; [|intros [= <- _]; discriminate].
    destruct (hd None (faults w)); simpl; [intros [= <- _]; discriminate|].
    rewrite Ht. destruct (aborted t); simpl; [intros [= <- _]; discriminate|].
    destruct (violated_any _ _); simpl; [intros [= <- _]; discriminate|].
    intros [= _ <-] _ _. reflexivity.
Qed.

Lemma PostgresRepository_Update_inv :
  forall p user w w',
    PostgresRepository_Update p user w = (Ok None, w') ->
    trace w' = EvUpdate (ent_ID (ToEntity user)) (ToEntity user) :: trace w.
Proof.
  intros p user w w'. unfold PostgresRepository_Update. unfold bind at 1.
  destruct (gorm_Updates (db p) (ent_ID (ToEntity user)) (ToEntity user) w)
    as [[res|v] w1] eqn:Hrun; [|discriminate].
  destruct (gorm_Error res) as [cause|] eqn:Herr.
  - destruct (errors_Is cause gorm_ErrRecordNotFound); [discriminate|].
    destruct (extractPgError (Some cause)) as [d|]; unfold ret;
      repeat match goal with
             | |- context [if ?b then _ else _] => destruct b
             end; discriminate.
  - destruct (Z.eqb_spec (RowsAffected res) 0); unfold ret; [discriminate|].
    intros [= <-]. exact (gorm_Updates_sent _ _ _ _ _ _ Hrun Herr n).
Qed.

(** C10. An [Update] of the service that succeeds returns the pointer it
    was given, whatever the ports are; with the ports of [main] the store
    saw BEGIN, the UPDATE and COMMIT, and no SELECT. *)
Theorem C10_Update_returns_its_argument :
  forall user w r w',
    (forall u, UserServiceImpl_Update u user w = (Ok (r, None), w') -> r = user)
    /\ (UserServiceImpl_Update userService user w = (Ok (r, None), w') ->
        trace w'
        = EvCommit :: EvUpdate (ent_ID (ToEntity user)) (ToEntity user) :: EvBegin :: trace w).
Proof.
  intros user w r w'. split.
  - intros u. unfold UserServiceImpl_Update. unfold bind at 1.
    destruct (port_Execute (txPort u) _ tt w) as [[[[cause|] []]|v] w3];
      [| |discriminate]; cbn [fst].
    + unfold bind. destruct (mapRepositoryError_Ok cause w3) as (e & ->). discriminate.
    + unfold ret. intros [= <- _]. reflexivity.
  - unfold UserServiceImpl_Update. unfold bind at 1.
    change (port_Execute (txPort userService)) with
      (fun L => @PostgresRepository_Execute L userRepository).
    cbv beta.
    match goal with
    | |- context [PostgresRepository_Execute userRepository ?f tt w] => set (fn := f)
    end.
    destruct (PostgresRepository_Execute userRepository fn tt w)
      as [[[[cause|] []]|v] w3] eqn:Hexec; [| |discriminate]; cbn [fst].
    + unfold bind. destruct (mapRepositoryError_Ok cause w3) as (e & ->). discriminate.
    + unfold ret. intros [= _ <-].
      apply Execute_Pool_inv in Hexec; [|reflexivity].
      destruct Hexec as (w1 & w2 & Hbegin & Hfn & Hcommit).
      apply gorm_Begin_inv in Hbegin as [_ ->].
      apply gorm_Commit_done in Hcommit as (_ & _ & _ & _ & _ & -> & _).
      subst fn. cbv beta in Hfn. unfold bind at 1 in Hfn.
      change (repo_Update txRepo) with (PostgresRepository_Update (NewPostgresRepository Tx))
        in Hfn.
      destruct (PostgresRepository_Update (NewPostgresRepository Tx) user _)
        as [[[e|]|v] w4] eqn:Hupdate; try discriminate.
      injection Hfn as <-.
      apply PostgresRepository_Update_inv in Hupdate. rewrite Hupdate. reflexivity.
Qed.

(** ** The error mapping of the orchestrator *)

Lemma fresh_is_no_sentinel :
  forall n k s t, first_free_loc <= n -> k < first_free_loc ->
    errors_Is (errorString n s) (errorString k t) = false.
Proof.
  intros n k s t Hn Hk. simpl. destruct (Nat.eqb_spec n k); [lia|reflexivity].
Qed.

(** C1, what the code does. Past start-up, [mapRepositoryError] answers
    [ErrUserNotFound], [ErrUsernameInUse], [ErrEmailInUse] and every
    [ErrValueNotNullable] with a new error that only has their text:
    [errors.Is] and [errors.As] no longer find the kind, and the handlers
    answer 500.  [ErrIdInUse] alone is wrapped and still found. *)
Theorem C1_mapRepositoryError_drops_the_kind :
  forall w,
    first_free_loc <= next_loc w ->
    (exists e w',
        mapRepositoryError ErrUserNotFound w = (Ok e, w')
        /\ errors_Is e ErrUserNotFound = false
        /\ UserHandler_FindById_status e = StatusInternalServerError
        /\ UserHandler_Update_status e = StatusInternalServerError
        /\ UserHandler_Delete_status e = StatusInternalServerError)
    /\ (exists e w',
          mapRepositoryError ErrUsernameInUse w = (Ok e, w')
          /\ errors_Is e ErrUsernameInUse = false
          /\ UserHandler_CreateUser_status e = StatusInternalServerError)
    /\ (exists e w',
          mapRepositoryError ErrEmailInUse w = (Ok e, w')
          /\ errors_Is e ErrEmailInUse = false
          /\ UserHandler_CreateUser_status e = StatusInternalServerError)
    /\ (forall column, exists e w',
          mapRepositoryError (ErrValueNotNullable column) w = (Ok e, w')
          /\ errors_As_ErrValueNotNullable e = None
          /\ UserHandler_CreateUser_status e = StatusInternalServerError)
    /\ (exists e w',
          mapRepositoryError ErrIdInUse w = (Ok e, w')
          /\ errors_Is e ErrIdInUse = true
          /\ UserHandler_CreateUser_status e = StatusConflict).
Proof.
  intros w Hfresh.
  assert (Hno : forall k s t, k < first_free_loc ->
                  errors_Is (errorString (next_loc w) s) (errorString k t) = false)
    by (intros; apply fresh_is_no_sentinel; assumption).
  unfold first_free_loc in *.
  repeat split.
  - eexists; eexists. split; [reflexivity|].
    unfold UserHandler_FindById_status, UserHandler_Update_status, UserHandler_Delete_status,
      ErrUserNotFound, ErrEmailInUse, ErrUsernameInUse.
    rewrite !Hno by lia. auto.
  - eexists; eexists. split; [reflexivity|].
    unfold UserHandler_CreateUser_status, ErrIdInUse, ErrEmailInUse, ErrUsernameInUse.
    rewrite !Hno by lia. auto.
  - eexists; eexists. split; [reflexivity|].
    unfold UserHandler_CreateUser_status, ErrIdInUse, ErrEmailInUse, ErrUsernameInUse.
    rewrite !Hno by lia. auto.
  - intros column. eexists; eexists. split; [reflexivity|].
    unfold UserHandler_CreateUser_status, ErrIdInUse, ErrEmailInUse, ErrUsernameInUse.
    rewrite !Hno by lia. auto.
  - eexists; eexists. split; [reflexivity|]. split; reflexivity.
Qed.

End Orchestrator.

Lemma C6_Create_returns_created_user_witness :
  (exists r w',
      UserServiceImpl_Create (H := example_libs) userService (Some jane_request) fresh_world
      = (Ok r, w'))
  /\ (UserServiceImpl_Create (H := example_libs) userService (Some jane_request) fresh_world
      = (Ok (Some jane, None), world_with_jane)
      /\ exists id,
           newID (H := example_libs) (clock fresh_world 0) fresh_world = (Ok id, fresh_world)
           /\ Some jane = Some {| ID := id; Name := "Jane Doe";
                                  Username := "janedoe123"; Email := "jane.doe@example.com" |}
           /\ trace world_with_jane
              = EvCommit :: EvInsert (ToEntity (Some jane)) :: EvBegin :: trace fresh_world
           /\ committed world_with_jane
              = (committed fresh_world ++ [ToEntity (Some jane)])%list)
  /\ (exists w',
        UserServiceImpl_Create (H := example_libs) userService (Some jane_request)
          (failing_world [Some (otherError "connection refused")])
        = (Ok (None,
               Some (wrapError first_free_loc
                       "internal service error: error transaction failed: connection refused"
                       (ErrTransactionFailed "connection refused"))),
           w')
        /\ next_loc w' = S first_free_loc)
  /\ (exists w',
        UserServiceImpl_Create (H := example_libs) userService (Some jane_request)
          world_with_jane
        = (Ok (None, Some (errorString first_free_loc "username already in use")), w')
        /\ next_loc w' = S first_free_loc).
Proof.
  split; [|split; [|split]].
  - refine (proj1 (@C6_Create_returns_created_user example_libs jane_request fresh_world) _).
    vm_compute. discriminate.
  - split; [vm_compute; reflexivity|].
    refine (proj1 (proj2 (@C6_Create_returns_created_user example_libs jane_request
                            fresh_world)
                     (Some jane) None world_with_jane _) eq_refl).
    vm_compute. reflexivity.
  - eexists. split; [vm_compute; reflexivity|].
    refine (proj1 (proj2 (proj2 (proj2 (@C6_Create_returns_created_user example_libs
                                          jane_request
                                          (failing_world
                                             [Some (otherError "connection refused")]))
                                   None _ _ _) _ eq_refl))).
    vm_compute. reflexivity.
  - eexists. split; [vm_compute; reflexivity|].
    refine (proj1 (proj2 (proj2 (proj2 (@C6_Create_returns_created_user example_libs
                                          jane_request world_with_jane)
                                   None _ _ _) _ eq_refl))).
    vm_compute. reflexivity.
Defined.

Lemma C7_Create_then_FindById_witness :
  UserServiceImpl_Create (H := example_libs) userService (Some jane_request) fresh_world
  = (Ok (Some jane, None), world_with_jane)
  /\ exists w'',
       UserServiceImpl_FindById (H := example_libs) userService (ID jane) world_with_jane
       = (Ok (Some jane, None), w'').
Proof.
  split; [reflexivity|].
  exact (@C7_Create_then_FindById example_libs jane_request fresh_world jane
           world_with_jane eq_refl eq_refl).
Defined.

Lemma C8_repeated_reading_repeats_id_witness :
  exists w2,
    UserServiceImpl_Create (H := example_libs) userService (Some john_request)
      (set_ticks 1
         (set_committed [ToEntity (Some jane)]
            (set_trace [EvCommit; EvInsert (ToEntity (Some jane)); EvBegin]
               stopped_clock_world)))
    = (Ok (None,
           Some (wrapError first_free_loc
                   ("internal service error: internal server error: "
                    ++ "ERROR: duplicate key value violates unique constraint "
                    ++ quote ++ "user_entities_pkey" ++ quote ++ " (SQLSTATE 23505)")
                   (ErrInternalServer (Error (unique_violation "user_entities_pkey"))))),
       w2)
    /\ trace w2
       = [EvRollback;
          EvInsert {| ent_ID := ID jane; ent_Name := "John Roe";
                      ent_Username := "johnroe"; ent_Email := "john.roe@example.com" |};
          EvBegin; EvCommit; EvInsert (ToEntity (Some jane)); EvBegin]
    /\ committed w2 = [ToEntity (Some jane)].
Proof.
  refine (@C8_repeated_reading_repeats_id example_libs jane_request john_request
            stopped_clock_world jane
            (set_ticks 1
               (set_committed [ToEntity (Some jane)]
                  (set_trace [EvCommit; EvInsert (ToEntity (Some jane)); EvBegin]
                     stopped_clock_world)))
            _ eq_refl eq_refl eq_refl).
  vm_compute. reflexivity.
Defined.

Lemma C10_Update_returns_its_argument_witness :
  exists w',
    UserServiceImpl_Update (H := example_libs) userService (Some rename_jane) world_with_jane
    = (Ok (Some rename_jane, None), w')
    /\ Some rename_jane = Some rename_jane
    /\ trace w'
       = EvCommit :: EvUpdate (ID jane) (ToEntity (Some rename_jane)) :: EvBegin
           :: trace world_with_jane.
Proof.
  eexists. split; [vm_compute; reflexivity|]. split.
  - refine (proj1 (@C10_Update_returns_its_argument example_libs (Some rename_jane)
                     world_with_jane (Some rename_jane) _)
              userService _).
    vm_compute. reflexivity.
  - refine (proj2 (@C10_Update_returns_its_argument example_libs (Some rename_jane)
                     world_with_jane (Some rename_jane) _)
              _).
    vm_compute. reflexivity.
Defined.

(** The record [Update] returns is the argument, not the row of the store:
    the name and the email of Jane stay in the store and are blank in the
    answer. *)
Example Update_answer_is_not_the_stored_row :
  exists w',
    UserServiceImpl_Update (H := example_libs) userService (Some rename_jane) world_with_jane
    = (Ok (Some rename_jane, None), w')
    /\ committed w'
       = [{| ent_ID := ID jane; ent_Name := "Jane Doe";
             ent_Username := "jdoe"; ent_Email := "jane.doe@example.com" |}].
Proof. eexists. split; vm_compute; reflexivity. Qed.

Lemma C1_mapRepositoryError_drops_the_kind_witness :
  exists e w',
    mapRepositoryError (H := example_libs) ErrUserNotFound fresh_world = (Ok e, w')
    /\ errors_Is e ErrUserNotFound = false
    /\ UserHandler_FindById_status e = StatusInternalServerError
    /\ UserHandler_Update_status e = StatusInternalServerError
    /\ UserHandler_Delete_status e = StatusInternalServerError.
Proof.
  exact (proj1 (@C1_mapRepositoryError_drops_the_kind example_libs fresh_world (le_n _))).
Defined.

(** End to end: asking the service of [main] for a user that does not
    exist makes the handler answer 500, although it tests for 404. *)
Example missing_user_is_answered_500 :
  exists e w',
    UserServiceImpl_FindById (H := example_libs) userService "01HK153X000T155G450H8JH0AF"
      fresh_world
    = (Ok (None, Some e), w')
    /\ UserHandler_FindById_status e = StatusInternalServerError
    /\ UserHandler_FindById_status ErrUserNotFound = StatusNotFound.
Proof. eexists; eexists. repeat split. Qed.

(** * Further properties *)

(** ** The adapter: [Update], [Delete], [FindById], [FindAll] *)

Lemma gorm_Updates_Ok :
  forall h id value w, exists res w', gorm_Updates h id value w = (Ok res, w').
Proof.
  intros h id value w. unfold gorm_Updates.
  destruct (String.eqb id ""); [unfold ret; eauto|].
  destruct (is_zero value); [unfold ret; eauto|].
  unfold bind.
  match goal with
  | |- context [statement h ?ev ?zero ?run w] =>
      destruct (statement_Ok Z h ev zero run w) as (r & w' & ->)
  end.
  unfold ret. eauto.
Qed.

Lemma gorm_Delete_Ok :
  forall h id w, exists res w', gorm_Delete h id w = (Ok res, w').
Proof.
  intros h id w. unfold gorm_Delete.
  destruct (String.eqb id ""); [unfold ret; eauto|].
  unfold bind.
  match goal with
  | |- context [statement h ?ev ?zero ?run w] =>
      destruct (statement_Ok Z h ev zero run w) as (r & w' & ->)
  end.
  unfold ret. eauto.
Qed.

(** X1. [Update] answers a failed statement as [Create] answers the same
    failure, with one exception that comes first: a record-not-found is
    [ErrUserNotFound] for [Update].  The count of affected rows plays no
    part once the statement failed. *)
Theorem Update_classifies_as_Create :
  forall p user w res cause w',
    gorm_Updates (db p) (ent_ID (ToEntity user)) (ToEntity user) w = (Ok res, w') ->
    gorm_Error res = Some cause ->
    (errors_Is cause gorm_ErrRecordNotFound = true ->
     PostgresRepository_Update p user w = (Ok (Some ErrUserNotFound), w'))
    /\ (errors_Is cause gorm_ErrRecordNotFound = false ->
        forall q someone v v',
          gorm_Create (db q) (ToEntity someone) v = (Ok (Some cause), v') ->
          fst (PostgresRepository_Update p user w) = fst (PostgresRepository_Create q someone v)).
Proof.
  intros p user w res cause w' Hrun Herr. split.
  - intros Hnf. run_Update Hrun. rewrite Herr, Hnf. reflexivity.
  - intros Hnf q someone v v' Hcreate. run_Update Hrun. rewrite Herr, Hnf.
    run_Create Hcreate.
    destruct (extractPgError (Some cause)) as [d|]; unfold ret;
      repeat match goal with
             | |- context [if ?b then _ else _] => destruct b
             end; reflexivity.
Qed.

Lemma Update_classifies_as_Create_witness :
  PostgresRepository_Update userRepository (Some jane)
    (failing_world [Some gorm_ErrRecordNotFound])
  = (Ok (Some ErrUserNotFound),
     set_trace [EvUpdate (ID jane) (ToEntity (Some jane))] fresh_world)
  /\ fst (PostgresRepository_Update userRepository (Some jane)
            (failing_world [Some (pg_violation "23505" "idx_username")]))
     = fst (PostgresRepository_Create userRepository (Some jane)
              (failing_world [Some (pg_violation "23505" "idx_username")])).
Proof.
  split.
  - exact (proj1 (Update_classifies_as_Create userRepository (Some jane)
                    (failing_world [Some gorm_ErrRecordNotFound]) _ gorm_ErrRecordNotFound _
                    eq_refl eq_refl) eq_refl).
  - exact (proj2 (Update_classifies_as_Create userRepository (Some jane)
                    (failing_world [Some (pg_violation "23505" "idx_username")]) _
                    (pg_violation "23505" "idx_username") _ eq_refl eq_refl)
             eq_refl userRepository (Some jane)
             (failing_world [Some (pg_violation "23505" "idx_username")]) _ eq_refl).
Defined.

(** The values [Update] of the adapter can return. *)
Lemma PostgresRepository_Update_kinds :
  forall p user w,
    exists r w',
      PostgresRepository_Update p user w = (Ok r, w')
      /\ (r = Some ErrUserNotFound \/ Create_result r).
Proof.
  intros p user w.
  destruct (gorm_Updates_Ok (db p) (ent_ID (ToEntity user)) (ToEntity user) w)
    as (res & w' & Hrun).
  unfold Create_result. run_Update Hrun. unfold ret.
  destruct (gorm_Error res) as [cause|].
  - destruct (errors_Is cause gorm_ErrRecordNotFound); [eauto|].
    destruct (extractPgError (Some cause)) as [d|];
      repeat match goal with
             | |- context [if ?b then _ else _] => destruct b
             end;
      eexists; eexists; (split; [reflexivity|right; eauto 10]).
  - destruct (Z.eqb (RowsAffected res) 0); eauto 10.
Qed.

(** X2. [Delete] does not classify: whatever the failure of the statement,
    record-not-found and constraint violations included, the answer is
    [ErrInternalServer] with the raw text.  It answers nil only when the
    store counted an affected row. *)
Theorem Delete_does_not_classify :
  forall p id w,
    (exists r w',
        PostgresRepository_Delete p id w = (Ok r, w')
        /\ (r = None \/ r = Some ErrUserNotFound
            \/ exists detail, r = Some (ErrInternalServer detail)))
    /\ (forall res cause w',
          gorm_Delete (db p) id w = (Ok res, w') ->
          gorm_Error res = Some cause ->
          PostgresRepository_Delete p id w
          = (Ok (Some (ErrInternalServer (Error cause))), w'))
    /\ (forall w',
          PostgresRepository_Delete p id w = (Ok None, w') ->
          exists res,
            gorm_Delete (db p) id w = (Ok res, w')
            /\ gorm_Error res = None /\ RowsAffected res <> 0%Z).
Proof.
  intros p id w.
  destruct (gorm_Delete_Ok (db p) id w) as (res & w1 & Hrun).
  unfold PostgresRepository_Delete, bind. rewrite Hrun. cbv beta iota zeta. unfold ret.
  split; [|split].
  - destruct (gorm_Error res); [eauto 10|]. destruct (Z.eqb (RowsAffected res) 0); eauto 10.
  - intros res' cause w' [= <- <-] Herr. rewrite Herr. reflexivity.
  - intros w'. destruct (gorm_Error res) eqn:Herr; [discriminate|].
    destruct (Z.eqb_spec (RowsAffected res) 0); [discriminate|].
    intros [= <-]. eauto.
Qed.

Lemma Delete_does_not_classify_witness :
  PostgresRepository_Delete userRepository (ID jane)
    (failing_world [Some gorm_ErrRecordNotFound])
  = (Ok (Some (ErrInternalServer "record not found")),
     set_trace [EvDelete (ID jane)] fresh_world)
  /\ exists res,
       gorm_Delete Pool (ID jane) world_with_jane
       = (Ok res, set_committed [] (sent (EvDelete (ID jane)) world_with_jane))
       /\ gorm_Error res = None /\ RowsAffected res <> 0%Z.
Proof.
  split.
  - exact (proj1 (proj2 (Delete_does_not_classify userRepository (ID jane)
                           (failing_world [Some gorm_ErrRecordNotFound])))
             _ gorm_ErrRecordNotFound _ eq_refl eq_refl).
  - exact (proj2 (proj2 (Delete_does_not_classify userRepository (ID jane) world_with_jane))
             _ eq_refl).
Defined.

(** X3. [Update] answers nil only when the store counted an affected row, and
    otherwise with [ErrUserNotFound] or one of the answers of [Create]:
    never with an [ErrTransactionFailed]. *)
Theorem Update_result_kinds :
  forall p user w,
    (exists r w',
        PostgresRepository_Update p user w = (Ok r, w')
        /\ (r = Some ErrUserNotFound \/ Create_result r)
        /\ forall detail, r <> Some (ErrTransactionFailed detail))
    /\ (forall w',
          PostgresRepository_Update p user w = (Ok None, w') ->
          exists res,
            gorm_Updates (db p) (ent_ID (ToEntity user)) (ToEntity user) w = (Ok res, w')
            /\ gorm_Error res = None /\ RowsAffected res <> 0%Z).
Proof.
  intros p user w. split.
  - destruct (PostgresRepository_Update_kinds p user w) as (r & w' & Hrun & Hkind).
    exists r, w'. split; [assumption|]. split; [assumption|].
    intros detail.
    destruct Hkind as [->|[->|[->|[->|[->|[[c ->]|[c ->]]]]]]]; discriminate.
  - intros w'.
    destruct (gorm_Updates_Ok (db p) (ent_ID (ToEntity user)) (ToEntity user) w)
      as (res & w1 & Hrun).
    run_Update Hrun. destruct (gorm_Error res) as [cause|] eqn:Herr.
    + destruct (errors_Is cause gorm_ErrRecordNotFound); [discriminate|].
      destruct (extractPgError (Some cause)) as [d|]; unfold ret;
        repeat match goal with
               | |- context [if ?b then _ else _] => destruct b
               end; discriminate.
    + destruct (Z.eqb_spec (RowsAffected res) 0); unfold ret; [discriminate|].
      intros [= <-]. eauto.
Qed.

Lemma Update_result_kinds_witness :
  exists res,
    gorm_Updates Pool (ID jane) (ToEntity (Some rename_jane)) world_with_jane
    = (Ok res,
       set_committed
         [{| ent_ID := ID jane; ent_Name := "Jane Doe"; ent_Username := "jdoe";
             ent_Email := "jane.doe@example.com" |}]
         (sent (EvUpdate (ID jane) (ToEntity (Some rename_jane))) world_with_jane))
    /\ gorm_Error res = None /\ RowsAffected res <> 0%Z.
Proof.
  exact (proj2 (Update_result_kinds userRepository (Some rename_jane) world_with_jane)
           _ eq_refl).
Defined.

(** A statement that only reads leaves the rows and the transaction as
    they are when it meets no fault. *)
Lemma read_statement :
  forall (A : Type) h ev (zero : A) (f : list UserEntity -> A) w r w',
    statement h ev zero (fun rows => inl (f rows, rows)) w = (Ok r, w') ->
    committed w' = committed w
    /\ trace w' = match h, tx w with Tx, None => trace w | _, _ => ev :: trace w end
    /\ next_loc w' = next_loc w /\ logs w' = logs w /\ ticks w' = ticks w
    /\ clock w' = clock w
    /\ (snd r = None -> fst r = f (visible h w) /\ tx w' = tx w)
    /\ (snd r <> None -> fst r = zero).
Proof.
  intros A h ev zero f w r w'.
  unfold statement, statement_failed, bind, gets, emit, modify, next_fault, ret, visible.
  destruct h; simpl.
  - destruct (tx w) as [t|] eqn:Ht; simpl;
      (destruct (hd None (faults w)); simpl; intros [= <- <-]; simpl;
       repeat split; auto; try discriminate; try congruence).
  - destruct (tx w) as [t|] eqn:Ht; simpl.
    + destruct (hd None (faults w)); simpl.
      * intros [= <- <-]; simpl. repeat split; auto; try discriminate; congruence.
      * rewrite Ht. destruct (aborted t); simpl.
        -- intros [= <- <-]; simpl. repeat split; auto; try discriminate; congruence.
        -- rewrite Ht. intros [= <- <-]; simpl. repeat split; auto; try congruence.
           destruct t; reflexivity.
    + intros [= <- <-]; simpl. repeat split; auto; try discriminate; congruence.
Qed.

(** A statement that only reads, on a handle the store takes statements
    from: it hands back the failure it meets, and otherwise what it reads
    of the rows the handle sees. *)
Lemma read_statement_fault :
  forall (A : Type) h ev (zero : A) (f : list UserEntity -> A) w cause,
    hd None (faults w) = Some cause ->
    h = Pool \/ tx w <> None ->
    fst (statement h ev zero (fun rows => inl (f rows, rows)) w) = Ok (zero, Some cause).
Proof.
  intros A h ev zero f w cause Hf Hopen.
  unfold statement, statement_failed, bind, gets, emit, modify, next_fault, ret.
  destruct h; simpl.
  - destruct (tx w); simpl; rewrite Hf; reflexivity.
  - destruct Hopen as [Hpool|Hopen]; [discriminate|].
    destruct (tx w); [|contradiction]. simpl. rewrite Hf. reflexivity.
Qed.

Lemma read_statement_healthy :
  forall (A : Type) h ev (zero : A) (f : list UserEntity -> A) w,
    hd None (faults w) = None ->
    h = Pool \/ (exists t, tx w = Some t /\ aborted t = false) ->
    fst (statement h ev zero (fun rows => inl (f rows, rows)) w)
    = Ok (f (visible h w), None).
Proof.
  intros A h ev zero f w Hf Hopen.
  unfold statement, statement_failed, bind, gets, emit, modify, next_fault, ret, visible.
  destruct h; simpl.
  - destruct (tx w); simpl; rewrite Hf; reflexivity.
  - destruct Hopen as [Hpool|(t & Ht & Ha)]; [discriminate|].
    rewrite Ht. simpl. rewrite Hf. simpl. rewrite Ht, Ha. reflexivity.
Qed.

(** X4. [FindById] always returns, with a user or with an error, never
    both and never neither, and writes no row.  Its answer follows the
    answer of the SELECT: a failure that is a record-not-found gives
    [ErrUserNotFound], every other failure gives [ErrInternalServer] with
    the text of that failure, and a row that was found is returned field
    by field.  On the store: a failure the statement meets comes back in
    that way; without a failure the first row of the identifier among the
    rows the handle sees is returned, and [ErrUserNotFound] when there is
    none. *)
Theorem FindById_answer :
  forall p id w,
    (exists user err w',
        PostgresRepository_FindById p id w = (Ok (user, err), w')
        /\ committed w' = committed w
        /\ (user = None <-> err <> None))
    /\ (forall row cause w',
          gorm_First (db p) id w = (Ok (row, Some cause), w') ->
          (errors_Is cause gorm_ErrRecordNotFound = true ->
           PostgresRepository_FindById p id w = (Ok (None, Some ErrUserNotFound), w'))
          /\ (errors_Is cause gorm_ErrRecordNotFound = false ->
              PostgresRepository_FindById p id w
              = (Ok (None, Some (ErrInternalServer (Error cause))), w')))
    /\ (forall row w',
          gorm_First (db p) id w = (Ok (row, None), w') ->
          PostgresRepository_FindById p id w = (Ok (Some (FromEntity row), None), w'))
    /\ (forall cause,
          hd None (faults w) = Some cause ->
          db p = Pool \/ tx w <> None ->
          (errors_Is cause gorm_ErrRecordNotFound = true ->
           fst (PostgresRepository_FindById p id w) = Ok (None, Some ErrUserNotFound))
          /\ (errors_Is cause gorm_ErrRecordNotFound = false ->
              fst (PostgresRepository_FindById p id w)
              = Ok (None, Some (ErrInternalServer (Error cause)))))
    /\ (hd None (faults w) = None ->
        db p = Pool \/ (exists t, tx w = Some t /\ aborted t = false) ->
        (forall row,
            find (fun r => String.eqb (ent_ID r) id) (visible (db p) w) = Some row ->
            fst (PostgresRepository_FindById p id w) = Ok (Some (FromEntity row), None))
        /\ (find (fun r => String.eqb (ent_ID r) id) (visible (db p) w) = None ->
            fst (PostgresRepository_FindById p id w) = Ok (None, Some ErrUserNotFound))).
Proof.
  intros p id w.
  assert (Hstore : forall found failure,
             fst (statement (db p) (EvSelectById id) None
                    (fun rows => inl (find (fun r => String.eqb (ent_ID r) id) rows, rows)) w)
             = Ok (found, failure) ->
             fst (PostgresRepository_FindById p id w)
             = Ok match failure, found with
                  | Some cause, _ =>
                      (None,
                       Some (if errors_Is cause gorm_ErrRecordNotFound then ErrUserNotFound
                             else ErrInternalServer (Error cause)))
                  | None, Some row => (Some (FromEntity row), None)
                  | None, None => (None, Some ErrUserNotFound)
                  end).
  { intros found failure. unfold PostgresRepository_FindById, gorm_First.
    unfold bind at 1 2.
    destruct (statement (db p) (EvSelectById id) None _ w) as [[[found' failure']|x] w1];
      cbn [fst]; [|discriminate].
    intros [= -> ->]. unfold ret.
    destruct failure as [cause|]; [|destruct found; reflexivity].
    destruct found; cbv beta iota;
      destruct (errors_Is cause gorm_ErrRecordNotFound) eqn:Hnf; cbn [fst]; try reflexivity;
      cbn in Hnf; discriminate. }
  split; [|split; [|split; [|split]]].
  - unfold PostgresRepository_FindById, gorm_First. unfold bind at 1 2.
    match goal with
    | |- context [statement (db p) ?ev ?zero ?run w] =>
        destruct (statement_Ok _ (db p) ev zero run w) as ([found failure] & w1 & Hrun);
        rewrite Hrun;
        destruct (read_statement _ (db p) ev zero
                    (find (fun r => String.eqb (ent_ID r) id)) w _ w1 Hrun)
          as (Hrows & _)
    end.
    unfold ret.
    destruct failure as [cause|]; [destruct found|destruct found as [row|]]; cbv beta iota;
      try destruct (errors_Is cause gorm_ErrRecordNotFound);
      eexists; eexists; eexists; (split; [reflexivity|split; [assumption|]]);
      split; intros; congruence.
  - intros row cause w' Hrun. unfold PostgresRepository_FindById, bind. rewrite Hrun.
    split; intros ->; reflexivity.
  - intros row w' Hrun. unfold PostgresRepository_FindById, bind. rewrite Hrun. reflexivity.
  - intros cause Hf Hopen.
    pose proof (Hstore _ _ (read_statement_fault _ (db p) (EvSelectById id) None
                              (find (fun r => String.eqb (ent_ID r) id)) w cause Hf Hopen))
      as Hrun.
    cbv beta iota in Hrun. split; intros Hnf; rewrite Hnf in Hrun; exact Hrun.
  - intros Hf Hopen.
    pose proof (Hstore _ _ (read_statement_healthy _ (db p) (EvSelectById id) None
                              (find (fun r => String.eqb (ent_ID r) id)) w Hf Hopen))
      as Hrun.
    split.
    + intros row Hfound. rewrite Hfound in Hrun. exact Hrun.
    + intros Hfound. rewrite Hfound in Hrun. exact Hrun.
Qed.

Lemma FindById_answer_witness :
  fst (PostgresRepository_FindById userRepository (ID jane) world_with_jane)
  = Ok (Some jane, None)
  /\ fst (PostgresRepository_FindById userRepository (ID jane) fresh_world)
     = Ok (None, Some ErrUserNotFound)
  /\ fst (PostgresRepository_FindById userRepository (ID jane)
            (set_faults [Some (otherError "connection reset by peer")] world_with_jane))
     = Ok (None, Some (ErrInternalServer "connection reset by peer"))
  /\ fst (PostgresRepository_FindById userRepository (ID jane)
            (set_faults [Some gorm_ErrRecordNotFound] world_with_jane))
     = Ok (None, Some ErrUserNotFound).
Proof.
  split; [|split; [|split]].
  - exact (proj1 (proj2 (proj2 (proj2 (proj2
             (FindById_answer userRepository (ID jane) world_with_jane))))
             eq_refl (or_introl eq_refl)) (ToEntity (Some jane)) eq_refl).
  - exact (proj2 (proj2 (proj2 (proj2 (proj2
             (FindById_answer userRepository (ID jane) fresh_world))))
             eq_refl (or_introl eq_refl)) eq_refl).
  - exact (proj2 (proj1 (proj2 (proj2 (proj2
             (FindById_answer userRepository (ID jane)
                (set_faults [Some (otherError "connection reset by peer")]
                   world_with_jane)))))
             (otherError "connection reset by peer") eq_refl (or_introl eq_refl)) eq_refl).
  - exact (proj1 (proj1 (proj2 (proj2 (proj2
             (FindById_answer userRepository (ID jane)
                (set_faults [Some gorm_ErrRecordNotFound] world_with_jane)))))
             gorm_ErrRecordNotFound eq_refl (or_introl eq_refl)) eq_refl).
Defined.

(** X5. [FindAll] always returns, with a list or with an error, never
    both and never neither, and writes no row.  Its answer follows the
    answer of the SELECT: every failure gives no list and an
    [ErrInternalServer] with the text of that failure; otherwise the rows
    that were read are returned one user per row and in their order.  On
    the store: a failure the statement meets comes back in that way;
    without a failure the list holds the rows the handle sees, and is the
    empty list, not nil, for an empty table. *)
Theorem FindAll_answer :
  forall p w,
    (exists users err w',
        PostgresRepository_FindAll p w = (Ok (users, err), w')
        /\ committed w' = committed w
        /\ (users = None <-> err <> None))
    /\ (forall rows cause w',
          gorm_Find (db p) w = (Ok (rows, Some cause), w') ->
          PostgresRepository_FindAll p w
          = (Ok (None, Some (ErrInternalServer (Error cause))), w'))
    /\ (forall rows w',
          gorm_Find (db p) w = (Ok (rows, None), w') ->
          PostgresRepository_FindAll p w = (Ok (Some (map FromEntity rows), None), w'))
    /\ (forall cause,
          hd None (faults w) = Some cause ->
          db p = Pool \/ tx w <> None ->
          fst (PostgresRepository_FindAll p w)
          = Ok (None, Some (ErrInternalServer (Error cause))))
    /\ (hd None (faults w) = None ->
        db p = Pool \/ (exists t, tx w = Some t /\ aborted t = false) ->
        fst (PostgresRepository_FindAll p w)
        = Ok (Some (map FromEntity (visible (db p) w)), None)).
Proof.
  intros p w.
  assert (Hstore : forall rows failure,
             fst (gorm_Find (db p) w) = Ok (rows, failure) ->
             fst (PostgresRepository_FindAll p w)
             = Ok match failure with
                  | Some cause => (None, Some (ErrInternalServer (Error cause)))
                  | None => (Some (map FromEntity rows), None)
                  end).
  { intros rows failure. unfold PostgresRepository_FindAll, bind.
    destruct (gorm_Find (db p) w) as [[[rows' failure']|x] w1]; cbn [fst]; [|discriminate].
    intros [= -> ->]. destruct failure; reflexivity. }
  split; [|split; [|split; [|split]]].
  - unfold PostgresRepository_FindAll, gorm_Find. unfold bind.
    match goal with
    | |- context [statement (db p) ?ev ?zero ?run w] =>
        destruct (statement_Ok _ (db p) ev zero run w) as ([rows failure] & w1 & Hrun);
        rewrite Hrun;
        destruct (read_statement _ (db p) ev zero (fun rows => rows) w _ w1 Hrun)
          as (Hrows & _)
    end.
    unfold ret. destruct failure as [cause|];
      eexists; eexists; eexists; (split; [reflexivity|split; [assumption|]]);
      split; intros; congruence.
  - intros rows cause w' Hrun. unfold PostgresRepository_FindAll, bind. rewrite Hrun.
    reflexivity.
  - intros rows w' Hrun. unfold PostgresRepository_FindAll, bind. rewrite Hrun. reflexivity.
  - intros cause Hf Hopen.
    exact (Hstore _ _ (read_statement_fault _ (db p) EvSelectAll [] (fun rows => rows) w
                         cause Hf Hopen)).
  - intros Hf Hopen.
    exact (Hstore _ _ (read_statement_healthy _ (db p) EvSelectAll [] (fun rows => rows) w
                         Hf Hopen)).
Qed.

Lemma FindAll_answer_witness :
  fst (PostgresRepository_FindAll userRepository world_with_jane) = Ok (Some [jane], None)
  /\ fst (PostgresRepository_FindAll userRepository fresh_world) = Ok (Some [], None)
  /\ fst (PostgresRepository_FindAll userRepository
            (set_faults [Some (otherError "connection reset by peer")] world_with_jane))
     = Ok (None, Some (ErrInternalServer "connection reset by peer")).
Proof.
  split; [|split].
  - exact (proj2 (proj2 (proj2 (proj2 (FindAll_answer userRepository world_with_jane))))
             eq_refl (or_introl eq_refl)).
  - exact (proj2 (proj2 (proj2 (proj2 (FindAll_answer userRepository fresh_world))))
             eq_refl (or_introl eq_refl)).
  - exact (proj1 (proj2 (proj2 (proj2
             (FindAll_answer userRepository
                (set_faults [Some (otherError "connection reset by peer")]
                   world_with_jane))))) (otherError "connection reset by peer")
             eq_refl (or_introl eq_refl)).
Defined.

(** ** Round trip between the domain record and the row *)

(** X6. [FromEntity] undoes [ToEntity] and [ToEntity] undoes [FromEntity]: no
    field is lost or changed on the way to the store and back.  A nil
    pointer becomes the row of a user whose four fields are blank. *)
Theorem entity_round_trip :
  (forall user, FromEntity (ToEntity (Some user)) = user)
  /\ (forall row, ToEntity (Some (FromEntity row)) = row)
  /\ ToEntity None = ToEntity (Some {| ID := ""; Name := ""; Username := ""; Email := "" |}).
Proof.
  split; [|split].
  - intros []. reflexivity.
  - intros []. reflexivity.
  - reflexivity.
Qed.

(** * Further properties of the orchestrator *)

(** ** A unit of work that fails publishes nothing *)

Section FailedUnitOfWork.
Variable L : Type.
Variable fn : UserRepository -> L -> M (option error * L).
Hypothesis fn_keeps_committed :
  forall l w, committed (snd (fn txRepo l w)) = committed w.

Lemma Execute_failure_publishes_nothing :
  forall l w out w',
    PostgresRepository_Execute userRepository fn l w = (out, w') ->
    match out with Ok (None, _) => False | _ => True end ->
    committed w' = committed w /\ (tx w = None -> tx w' = None).
Proof.
  intros l w out w' Hrun Hfailed.
  destruct (gorm_Begin_Ok w) as ([cause|] & w1 & Hbegin).
  - rewrite (Execute_begin_failed L fn userRepository eq_refl l w cause w1 Hbegin) in Hrun.
    injection Hrun as <- <-.
    destruct (gorm_Begin_keeps w _ w1 Hbegin) as (Hrows & _ & _ & Htx).
    unfold logged. simpl. split; [assumption|].
    intros Hnone. rewrite Htx by discriminate. assumption.
  - destruct (gorm_Begin_keeps w _ w1 Hbegin) as (Hrows & _).
    pose proof (fn_keeps_committed l w1) as Hfn_rows.
    destruct (fn txRepo l w1) as [[[[e|] l1]|v] w2] eqn:Hfn; cbn [snd] in Hfn_rows.
    + rewrite (Execute_fn_error L fn userRepository eq_refl l w w1 e l1 w2 Hbegin Hfn)
        in Hrun.
      injection Hrun as <- <-.
      destruct (gorm_Rollback_spec w2) as (Htx & Hrb & _).
      unfold logged. simpl. split; [congruence|auto].
    + destruct (gorm_Commit_Ok w2) as (c & w3 & Hcommit).
      rewrite (Execute_commit L fn userRepository eq_refl l w w1 l1 w2 c w3 Hbegin Hfn
                 Hcommit) in Hrun.
      destruct c as [cause|]; injection Hrun as <- <-; [|contradiction].
      destruct (gorm_Commit_failed w2 cause w3 Hcommit) as (Hcm & Htx).
      unfold logged. simpl. split; [congruence|auto].
    + rewrite (Execute_fn_panic L fn userRepository eq_refl l w w1 v w2 Hbegin Hfn) in Hrun.
      injection Hrun as <- <-.
      destruct (gorm_Rollback_spec w2) as (Htx & Hrb & _).
      split; [congruence|auto].
Qed.

End FailedUnitOfWork.

Section Atomicity.
Context `{GoLibs}.

Lemma mapped_keeps_rows :
  forall cause w,
    exists e w',
      mapRepositoryError cause w = (Ok e, w')
      /\ committed w' = committed w /\ tx w' = tx w /\ trace w' = trace w.
Proof.
  intros cause w. destruct (mapRepositoryError_Ok cause w) as (e & ->).
  eexists; eexists. repeat split.
Qed.

(** X7. A [Create], an [Update] or a [Delete] of the service that returns an
    error, or panics, leaves the committed rows exactly as they were, and
    leaves no transaction open. *)
Theorem failed_mutation_publishes_nothing :
  forall w,
    (forall req out w',
        UserServiceImpl_Create userService req w = (out, w') ->
        failed out ->
        committed w' = committed w /\ (tx w = None -> tx w' = None))
    /\ (forall user out w',
          UserServiceImpl_Update userService user w = (out, w') ->
          failed out ->
          committed w' = committed w /\ (tx w = None -> tx w' = None))
    /\ (forall id out w',
          UserServiceImpl_Delete userService id w = (out, w') ->
          failed_Delete out ->
          committed w' = committed w /\ (tx w = None -> tx w' = None)).
Proof.
  intros w. split; [|split].
  - intros req out w'. unfold UserServiceImpl_Create. unfold bind at 1.
    change (port_Execute (txPort userService)) with
      (fun L => @PostgresRepository_Execute L userRepository).
    cbv beta.
    match goal with
    | |- context [PostgresRepository_Execute userRepository ?f None w] => set (fn := f)
    end.
    assert (Hkeeps : forall l v, committed (snd (fn txRepo l v)) = committed v).
    { intros l v. subst fn. cbv beta. destruct req as [req|]; [|reflexivity].
      unfold bind at 1. unfold time_Now. unfold bind at 1. rewrite newID_run.
      destruct (Z.ltb ulid_maxTime _); [reflexivity|].
      unfold bind at 1.
      match goal with
      | |- context [repo_Create txRepo ?u ?v0] =>
          pose proof (txRepo_Create_keeps_committed u v0) as Hc;
          destruct (repo_Create txRepo u v0) as [[[e|]|x] v1]
      end; cbn [snd] in Hc |- *; auto. }
    pose proof (Execute_failure_publishes_nothing _ fn Hkeeps None w) as Hexec.
    destruct (PostgresRepository_Execute userRepository fn None w)
      as [[[[cause|] created]|v] w3].
    + destruct (mapped_keeps_rows cause w3) as (e & w4 & Hmap & Hrows & Htx & _).
      unfold bind. rewrite Hmap. unfold ret. intros [= <- <-] _.
      destruct (Hexec _ _ eq_refl I) as [Hc Ht]. split; [congruence|].
      intros Hn. rewrite Htx. auto.
    + unfold ret. intros [= <- <-] [].
    + intros [= <- <-] _. exact (Hexec _ _ eq_refl I).
  - intros user out w'. unfold UserServiceImpl_Update. unfold bind at 1.
    change (port_Execute (txPort userService)) with
      (fun L => @PostgresRepository_Execute L userRepository).
    cbv beta.
    match goal with
    | |- context [PostgresRepository_Execute userRepository ?f tt w] => set (fn := f)
    end.
    assert (Hkeeps : forall l v, committed (snd (fn txRepo l v)) = committed v).
    { intros l v. subst fn. cbv beta. unfold bind at 1.
      pose proof (txRepo_Update_keeps_committed user v) as Hc.
      destruct (repo_Update txRepo user v) as [[[e|]|x] v1]; cbn [snd] in Hc |- *; auto. }
    pose proof (Execute_failure_publishes_nothing _ fn Hkeeps tt w) as Hexec.
    destruct (PostgresRepository_Execute userRepository fn tt w)
      as [[[[cause|] []]|v] w3]; cbn [fst].
    + destruct (mapped_keeps_rows cause w3) as (e & w4 & Hmap & Hrows & Htx & _).
      unfold bind. rewrite Hmap. unfold ret. intros [= <- <-] _.
      destruct (Hexec _ _ eq_refl I) as [Hc Ht]. split; [congruence|].
      intros Hn. rewrite Htx. auto.
    + unfold ret. intros [= <- <-] [].
    + intros [= <- <-] _. exact (Hexec _ _ eq_refl I).
  - intros id out w'. unfold UserServiceImpl_Delete. unfold bind at 1.
    change (port_Execute (txPort userService)) with
      (fun L => @PostgresRepository_Execute L userRepository).
    cbv beta.
    match goal with
    | |- context [PostgresRepository_Execute userRepository ?f tt w] => set (fn := f)
    end.
    assert (Hkeeps : forall l v, committed (snd (fn txRepo l v)) = committed v).
    { intros l v. subst fn. cbv beta. unfold bind at 1.
      pose proof (txRepo_Delete_keeps_committed id v) as Hc.
      destruct (repo_Delete txRepo id v) as [[[e|]|x] v1]; cbn [snd] in Hc |- *; auto. }
    pose proof (Execute_failure_publishes_nothing _ fn Hkeeps tt w) as Hexec.
    destruct (PostgresRepository_Execute userRepository fn tt w)
      as [[[[cause|] []]|v] w3]; cbn [fst].
    + destruct (mapped_keeps_rows cause w3) as (e & w4 & Hmap & Hrows & Htx & _).
      unfold bind. rewrite Hmap. unfold ret. intros [= <- <-] _.
      destruct (Hexec _ _ eq_refl I) as [Hc Ht]. split; [congruence|].
      intros Hn. rewrite Htx. auto.
    + unfold ret. intros [= <- <-] [].
    + intros [= <- <-] _. exact (Hexec _ _ eq_refl I).
Qed.

End Atomicity.

(** ** Statements on a store that answers *)

Lemma statement_Tx_healthy :
  forall (A : Type) ev (zero : A) run w t,
    tx w = Some t -> aborted t = false ->
    hd None (faults w) = None ->
    statement Tx ev zero run w
    = match run (work t) with
      | inl (a, rows') => (Ok (a, None), set_tx (Some (set_work rows' t)) (sent ev w))
      | inr e => (Ok (zero, Some e), set_tx (Some (set_aborted true t)) (sent ev w))
      end.
Proof.
  intros A ev zero run w t Ht Ha Hf.
  unfold statement, statement_failed, bind, gets, emit, modify, next_fault, ret, sent.
  simpl. rewrite Ht. simpl. rewrite Hf. simpl. rewrite Ht, Ha. simpl.
  destruct (run (work t)) as [[a rows']|e]; simpl; rewrite Ht; reflexivity.
Qed.

Lemma statement_Tx_inv :
  forall (A : Type) ev (zero : A) run w a w',
    statement Tx ev zero run w = (Ok (a, None), w') ->
    exists t rows',
      tx w = Some t /\ aborted t = false /\ hd None (faults w) = None
      /\ run (work t) = inl (a, rows')
      /\ w' = set_tx (Some (set_work rows' t)) (sent ev w).
Proof.
  intros A ev zero run w a w'.
  unfold statement, statement_failed, bind, gets, emit, modify, next_fault, ret, sent.
  simpl. destruct (tx w) as [t|] eqn:Ht; simpl; [|discriminate].
  destruct (hd None (faults w)); simpl; [discriminate|].
  rewrite Ht. destruct (aborted t) eqn:Ha; simpl; [discriminate|].
  destruct (run (work t)) as [[a' rows']|e] eqn:Hr; simpl; [|discriminate].
  rewrite Ht. intros [= <- <-]. exists t, rows'. auto.
Qed.

Lemma statement_Pool_healthy :
  forall (A : Type) ev (zero : A) run w,
    hd None (faults w) = None ->
    statement Pool ev zero run w
    = match run (committed w) with
      | inl (a, rows') => (Ok (a, None), set_committed rows' (sent ev w))
      | inr e => (Ok (zero, Some e), sent ev w)
      end.
Proof.
  intros A ev zero run w Hf.
  unfold statement, statement_failed, bind, gets, emit, modify, next_fault, ret, sent.
  simpl. destruct (tx w); simpl; rewrite Hf; simpl;
    destruct (run (committed w)) as [[a rows']|e]; reflexivity.
Qed.

(** The world, once BEGIN was answered. *)
Lemma begun :
  forall w,
    hd None (faults w) = None ->
    exists w1,
      gorm_Begin w = (Ok None, w1)
      /\ tx w1 = Some {| work := committed w; aborted := false |}
      /\ faults w1 = tl (faults w) /\ committed w1 = committed w
      /\ trace w1 = EvBegin :: trace w /\ next_loc w1 = next_loc w
      /\ clock w1 = clock w /\ ticks w1 = ticks w /\ logs w1 = logs w.
Proof.
  intros w Hf. eexists. split; [apply gorm_Begin_healthy; assumption|].
  repeat split.
Qed.

Lemma no_row_no_hit :
  forall id rows,
    existsb (fun r => String.eqb (ent_ID r) id) rows = false ->
    filter (fun r => String.eqb (ent_ID r) id) rows = []
    /\ find (fun r => String.eqb (ent_ID r) id) rows = None.
Proof.
  intros id rows. induction rows as [|r rows IH]; simpl; [auto|].
  intros Hno. apply orb_false_iff in Hno as [Hr Hrest]. rewrite Hr. auto.
Qed.

Lemma is_zero_with_id :
  forall value, ent_ID value <> "" -> is_zero value = false.
Proof.
  intros value Hid. unfold is_zero.
  destruct (String.eqb_spec (ent_ID value) ""); [contradiction|reflexivity].
Qed.

(** ** A user that is not there *)

Section MissingUser.
Context `{GoLibs}.

Ltac on_the_pool :=
  change (port_Execute (txPort userService)) with
    (fun L => @PostgresRepository_Execute L userRepository);
  cbv beta.

(** X8. On a store that answers, asking for, updating or deleting an
    identifier that has no row fails with the text [user not found], and no
    row is written or created. *)
Theorem missing_user_is_reported :
  forall id w,
    id <> "" ->
    existsb (fun r => String.eqb (ent_ID r) id) (committed w) = false ->
    hd None (faults w) = None ->
    (exists w',
        UserServiceImpl_FindById userService id w
        = (Ok (None, Some (errorString (next_loc w) "user not found")), w')
        /\ committed w' = committed w)
    /\ (hd None (tl (faults w)) = None ->
        (forall u, ID u = id ->
           exists w',
             UserServiceImpl_Update userService (Some u) w
             = (Ok (None, Some (errorString (next_loc w) "user not found")), w')
             /\ committed w' = committed w)
        /\ (exists w',
              UserServiceImpl_Delete userService id w
              = (Ok (Some (errorString (next_loc w) "user not found")), w')
              /\ committed w' = committed w)).
Proof.
  intros id w Hid Hno Hf.
  destruct (no_row_no_hit id (committed w) Hno) as [Hfilter Hfind].
  split.
  - unfold UserServiceImpl_FindById, bind.
    change (repo_FindById (Repo userService)) with (PostgresRepository_FindById userRepository).
    unfold PostgresRepository_FindById, bind.
    change (db userRepository) with Pool.
    rewrite (gorm_First_Pool_healthy id w Hf), Hfind.
    eexists. split; reflexivity.
  - intros Hf2.
    destruct (begun w Hf) as (w1 & Hbegin & Htx & Hfaults & Hrows & Htrace & Hloc & _).
    assert (Hf1 : hd None (faults w1) = None) by (rewrite Hfaults; assumption).
    split.
    + intros u Hu. unfold UserServiceImpl_Update. unfold bind at 1. on_the_pool.
      match goal with
      | |- context [PostgresRepository_Execute userRepository ?f tt w] => set (fn := f)
      end.
      assert (Hfn : exists w2,
                 fn txRepo tt w1 = (Ok (Some ErrUserNotFound, tt), w2)
                 /\ committed w2 = committed w /\ next_loc w2 = next_loc w).
      { subst fn. cbv beta. unfold bind at 1.
        change (repo_Update txRepo) with (PostgresRepository_Update (NewPostgresRepository Tx)).
        unfold PostgresRepository_Update, gorm_Updates. cbn [db NewPostgresRepository ToEntity ent_ID].
        rewrite Hu. destruct (String.eqb_spec id ""); [contradiction|].
        rewrite is_zero_with_id by (cbn; congruence).
        unfold bind at 1 2.
        rewrite (statement_Tx_healthy _ _ _ _ w1 _ Htx eq_refl Hf1).
        cbn [work]. rewrite Hfilter. cbn [map violated_any List.length Z.of_nat].
        unfold ret. cbn [fst snd gorm_Error RowsAffected Z.eqb].
        eexists. split; [reflexivity|]. cbn. auto. }
      destruct Hfn as (w2 & Hfn & Hrows2 & Hloc2).
      rewrite (Execute_fn_error _ fn userRepository eq_refl tt w w1 ErrUserNotFound tt w2
                 Hbegin Hfn).
      destruct (gorm_Rollback_spec w2) as (_ & Hrb_rows & _ & _ & Hrb_loc & _).
      remember (snd (gorm_Rollback w2)) as wr eqn:Hwr. clear Hwr.
      cbn [fst]. unfold bind, mapRepositoryError, errors_New, ret, logged. cbn.
      rewrite Hrb_loc, Hloc2. eexists. split; [reflexivity|]. cbn. congruence.
    + unfold UserServiceImpl_Delete. unfold bind at 1. on_the_pool.
      match goal with
      | |- context [PostgresRepository_Execute userRepository ?f tt w] => set (fn := f)
      end.
      assert (Hfn : exists w2,
                 fn txRepo tt w1 = (Ok (Some ErrUserNotFound, tt), w2)
                 /\ committed w2 = committed w /\ next_loc w2 = next_loc w).
      { subst fn. cbv beta. unfold bind at 1.
        change (repo_Delete txRepo) with (PostgresRepository_Delete (NewPostgresRepository Tx)).
        unfold PostgresRepository_Delete, gorm_Delete. cbn [db NewPostgresRepository].
        destruct (String.eqb_spec id ""); [contradiction|].
        unfold bind at 1 2.
        rewrite (statement_Tx_healthy _ _ _ _ w1 _ Htx eq_refl Hf1).
        cbn [work]. rewrite Hfilter. cbn [List.length Z.of_nat].
        unfold ret. cbn [fst snd gorm_Error RowsAffected Z.eqb].
        eexists. split; [reflexivity|]. cbn. auto. }
      destruct Hfn as (w2 & Hfn & Hrows2 & Hloc2).
      rewrite (Execute_fn_error _ fn userRepository eq_refl tt w w1 ErrUserNotFound tt w2
                 Hbegin Hfn).
      destruct (gorm_Rollback_spec w2) as (_ & Hrb_rows & _ & _ & Hrb_loc & _).
      remember (snd (gorm_Rollback w2)) as wr eqn:Hwr. clear Hwr.
      cbn [fst]. unfold bind, mapRepositoryError, errors_New, ret, logged. cbn.
      rewrite Hrb_loc, Hloc2. eexists. split; [reflexivity|]. cbn. congruence.
Qed.

End MissingUser.

(** ** A name that is taken *)

Section TakenName.
Context `{GoLibs}.

Ltac on_the_pool :=
  change (port_Execute (txPort userService)) with
    (fun L => @PostgresRepository_Execute L userRepository);
  cbv beta.



End TakenName.

(** ** Delete, then look again *)

Lemma filtered_out :
  forall id rows,
    existsb (fun r => String.eqb (ent_ID r) id)
      (filter (fun r => negb (String.eqb (ent_ID r) id)) rows) = false.
Proof.
  intros id rows. induction rows as [|r rows IH]; simpl; [reflexivity|].
  destruct (String.eqb (ent_ID r) id) eqn:Hr; simpl; [assumption|].
  rewrite Hr. assumption.
Qed.

Lemma some_hit :
  forall id rows,
    Z.of_nat (List.length (filter (fun r => String.eqb (ent_ID r) id) rows)) <> 0%Z ->
    existsb (fun r => String.eqb (ent_ID r) id) rows = true.
Proof.
  intros id rows. induction rows as [|r rows IH]; simpl; [intros Hn; contradiction Hn; reflexivity|].
  destruct (String.eqb (ent_ID r) id); simpl; auto.
Qed.

Lemma PostgresRepository_Delete_Tx_inv :
  forall id w w',
    PostgresRepository_Delete (NewPostgresRepository Tx) id w = (Ok None, w') ->
    exists t,
      tx w = Some t /\ aborted t = false /\ hd None (faults w) = None
      /\ existsb (fun r => String.eqb (ent_ID r) id) (work t) = true
      /\ w' = set_tx (Some (set_work (filter (fun r => negb (String.eqb (ent_ID r) id))
                                        (work t)) t))
                (sent (EvDelete id) w).
Proof.
  intros id w w'. unfold PostgresRepository_Delete, gorm_Delete. cbn [db NewPostgresRepository].
  destruct (String.eqb id ""); [unfold bind, ret; discriminate|].
  unfold bind at 1 2.
  match goal with
  | |- context [statement Tx ?ev ?zero ?run w] =>
      destruct (statement Tx ev zero run w) as [[[n [cause|]]|v] w1] eqn:Hrun
  end; unfold ret; cbn [fst snd gorm_Error RowsAffected]; try discriminate.
  destruct (Z.eqb_spec n 0); [discriminate|]. intros [= <-].
  apply statement_Tx_inv in Hrun as (t & rows' & Ht & Ha & Hf & Hr & ->).
  injection Hr as <- <-. exists t. repeat split; auto.
  apply some_hit. assumption.
Qed.

Section DeleteThenFind.
Context `{GoLibs}.

(** X10. A [Delete] of the service that succeeds has removed the rows of that
    identifier, of which there was at least one, and only them; a
    [FindById] that follows on a store that answers fails with the text
    [user not found]. *)
Theorem Delete_then_FindById :
  forall id w w',
    UserServiceImpl_Delete userService id w = (Ok None, w') ->
    committed w' = filter (fun r => negb (String.eqb (ent_ID r) id)) (committed w)
    /\ existsb (fun r => String.eqb (ent_ID r) id) (committed w) = true
    /\ trace w' = EvCommit :: EvDelete id :: EvBegin :: trace w
    /\ (hd None (faults w') = None ->
        exists w'',
          UserServiceImpl_FindById userService id w'
          = (Ok (None, Some (errorString (next_loc w') "user not found")), w'')).
Proof.
  intros id w w'. unfold UserServiceImpl_Delete. unfold bind at 1.
  change (port_Execute (txPort userService)) with
    (fun L => @PostgresRepository_Execute L userRepository).
  cbv beta.
  match goal with
  | |- context [PostgresRepository_Execute userRepository ?f tt w] => set (fn := f)
  end.
  destruct (PostgresRepository_Execute userRepository fn tt w)
    as [[[[cause|] []]|v] w3] eqn:Hexec; cbn [fst]; [| |discriminate].
  - unfold bind. destruct (mapRepositoryError_Ok cause w3) as (e & ->). discriminate.
  - unfold ret. intros [= <-].
    apply Execute_Pool_inv in Hexec; [|reflexivity].
    destruct Hexec as (w1 & w2 & Hbegin & Hfn & Hcommit).
    apply gorm_Begin_inv in Hbegin as [_ ->].
    apply gorm_Commit_done in Hcommit
      as (t2 & Ht2 & _ & Hrows & _ & Htrace & _).
    subst fn. cbv beta in Hfn. unfold bind at 1 in Hfn.
    change (repo_Delete txRepo) with (PostgresRepository_Delete (NewPostgresRepository Tx))
      in Hfn.
    destruct (PostgresRepository_Delete (NewPostgresRepository Tx) id _)
      as [[[e|]|v] w4] eqn:Hdelete; try discriminate.
    injection Hfn as <-.
    apply PostgresRepository_Delete_Tx_inv in Hdelete as (t & Ht & _ & _ & Hhit & ->).
    cbn in Ht. injection Ht as <-. cbn in Ht2. injection Ht2 as <-.
    cbn in Hrows, Htrace, Hhit.
    repeat split; try assumption.
    intros Hf. unfold UserServiceImpl_FindById, bind.
    change (repo_FindById (Repo userService)) with (PostgresRepository_FindById userRepository).
    unfold PostgresRepository_FindById, bind.
    change (db userRepository) with Pool.
    rewrite (gorm_First_Pool_healthy id w3 Hf), Hrows.
    rewrite (proj2 (no_row_no_hit id _ (filtered_out id (committed w)))).
    eexists. reflexivity.
Qed.

End DeleteThenFind.

Lemma Delete_then_FindById_witness :
  exists w',
    UserServiceImpl_Delete (H := example_libs) userService (ID jane) world_with_jane
    = (Ok None, w')
    /\ committed w' = []
    /\ exists w'',
         UserServiceImpl_FindById (H := example_libs) userService (ID jane) w'
         = (Ok (None, Some (errorString first_free_loc "user not found")), w'').
Proof.
  eexists. split; [vm_compute; reflexivity|].
  pose proof (@Delete_then_FindById example_libs (ID jane) world_with_jane _
                ltac:(vm_compute; reflexivity)) as (Hrows & _ & _ & Hfind).
  split; [exact Hrows|exact (Hfind eq_refl)].
Defined.

(** ** Reading *)

Lemma read_on_the_pool :
  forall (A : Type) ev (zero : A) (f : list UserEntity -> A) w,
    exists r w',
      statement Pool ev zero (fun rows => inl (f rows, rows)) w = (Ok r, w')
      /\ committed w' = committed w /\ tx w' = tx w /\ trace w' = ev :: trace w
      /\ next_loc w' = next_loc w.
Proof.
  intros A ev zero f w.
  unfold statement, statement_failed, bind, gets, emit, modify, next_fault, ret.
  simpl. destruct (tx w) eqn:Ht; simpl;
    (destruct (hd None (faults w)); simpl; eexists; eexists; (split; [reflexivity|]); simpl;
     auto).
Qed.

Section Reading.
Context `{GoLibs}.

(** X11. [FindById] and [FindAll] of the service open no transaction and write
    nothing: the store sees one SELECT, and the committed rows and the
    transaction, if one is open, are as before, whatever the answer. *)
Theorem reads_write_nothing :
  forall w,
    (forall id,
        exists out w',
          UserServiceImpl_FindById userService id w = (Ok out, w')
          /\ committed w' = committed w /\ tx w' = tx w
          /\ trace w' = EvSelectById id :: trace w)
    /\ (exists out w',
          UserServiceImpl_FindAll userService w = (Ok out, w')
          /\ committed w' = committed w /\ tx w' = tx w
          /\ trace w' = EvSelectAll :: trace w).
Proof.
  intros w. split.
  - intros id. unfold UserServiceImpl_FindById. unfold bind at 1.
    change (repo_FindById (Repo userService)) with (PostgresRepository_FindById userRepository).
    unfold PostgresRepository_FindById, gorm_First. change (db userRepository) with Pool.
    unfold bind at 1 2.
    destruct (read_on_the_pool _ (EvSelectById id) None
                (find (fun r => String.eqb (ent_ID r) id)) w)
      as ([found failure] & w1 & -> & Hrows & Htx & Htrace & _).
    unfold ret.
    destruct failure as [cause|]; [destruct found|destruct found]; cbv beta iota;
      try (destruct (errors_Is _ gorm_ErrRecordNotFound); cbv beta iota);
      unfold bind;
      try match goal with
          | |- context [mapRepositoryError ?c ?v] =>
              destruct (mapRepositoryError_Ok c v) as (e & ->)
          end;
      eexists; eexists; (split; [reflexivity|]); cbn; auto.
  - unfold UserServiceImpl_FindAll. unfold bind at 1.
    change (repo_FindAll (Repo userService)) with (PostgresRepository_FindAll userRepository).
    unfold PostgresRepository_FindAll, gorm_Find. change (db userRepository) with Pool.
    unfold bind at 1.
    destruct (read_on_the_pool _ EvSelectAll [] (fun rows => rows) w)
      as ([rows failure] & w1 & -> & Hrows & Htx & Htrace & _).
    unfold ret. destruct failure as [cause|]; cbv beta iota; unfold bind;
      try match goal with
          | |- context [mapRepositoryError ?c ?v] =>
              destruct (mapRepositoryError_Ok c v) as (e & ->)
          end;
      eexists; eexists; (split; [reflexivity|]); cbn; auto.
Qed.

(** ** What the error mapping keeps *)

(** X12. An error that is none of the three sentinels and holds no
    [ErrValueNotNullable] is wrapped: the new error has the text of the
    cause behind the prefix, and whatever [errors.Is] and [errors.As] find
    in the cause they still find.  [ErrIdInUse], every [ErrInternalServer]
    and every [ErrTransactionFailed] take this path. *)
Theorem mapRepositoryError_wraps_the_rest :
  forall err w,
    errors_Is err ErrUserNotFound = false ->
    errors_Is err ErrUsernameInUse = false ->
    errors_Is err ErrEmailInUse = false ->
    errors_As_ErrValueNotNullable err = None ->
    exists e,
      mapRepositoryError err w = (Ok e, set_next_loc (S (next_loc w)) w)
      /\ Error e = "internal service error: " ++ Error err
      /\ (forall target, errors_Is err target = true -> errors_Is e target = true)
      /\ errors_As_pq e = errors_As_pq err
      /\ errors_As_pgconn e = errors_As_pgconn err.
Proof.
  intros err w Hnf Hname Hmail Hnull.
  unfold mapRepositoryError, fmt_Errorf_w. rewrite Hnf, Hname, Hmail, Hnull.
  eexists. split; [reflexivity|]. repeat split.
  intros target Htarget. cbn [errors_Is]. rewrite Htarget.
  destruct (error_eqb _ target); reflexivity.
Qed.

End Reading.

Lemma mapRepositoryError_wraps_the_rest_witness :
  (exists e,
      mapRepositoryError (H := example_libs) ErrIdInUse fresh_world
      = (Ok e, set_next_loc (S first_free_loc) fresh_world)
      /\ Error e = "internal service error: id already in use"
      /\ errors_Is e ErrIdInUse = true)
  /\ (forall detail, exists e,
        mapRepositoryError (H := example_libs) (ErrTransactionFailed detail) fresh_world
        = (Ok e, set_next_loc (S first_free_loc) fresh_world)
        /\ Error e = "internal service error: error transaction failed: " ++ detail
        /\ errors_Is e (ErrTransactionFailed detail) = true)
  /\ (forall detail, exists e,
        mapRepositoryError (H := example_libs) (ErrInternalServer detail) fresh_world
        = (Ok e, set_next_loc (S first_free_loc) fresh_world)
        /\ Error e = "internal service error: internal server error: " ++ detail
        /\ errors_Is e (ErrInternalServer detail) = true).
Proof.
  split; [|split].
  - destruct (@mapRepositoryError_wraps_the_rest example_libs ErrIdInUse fresh_world
                eq_refl eq_refl eq_refl eq_refl) as (e & Hrun & Htext & Hkeeps & _).
    exists e. split; [exact Hrun|]. split; [exact Htext|]. exact (Hkeeps ErrIdInUse eq_refl).
  - intros detail.
    destruct (@mapRepositoryError_wraps_the_rest example_libs (ErrTransactionFailed detail)
                fresh_world eq_refl eq_refl eq_refl eq_refl)
      as (e & Hrun & Htext & Hkeeps & _).
    exists e. split; [exact Hrun|]. split; [exact Htext|].
    apply Hkeeps. simpl. rewrite String.eqb_refl. reflexivity.
  - intros detail.
    destruct (@mapRepositoryError_wraps_the_rest example_libs (ErrInternalServer detail)
                fresh_world eq_refl eq_refl eq_refl eq_refl)
      as (e & Hrun & Htext & Hkeeps & _).
    exists e. split; [exact Hrun|]. split; [exact Htext|].
    apply Hkeeps. simpl. rewrite String.eqb_refl. reflexivity.
Defined.

(** ** Which status a failed creation is answered with *)

Section StatusOfCreate.
Context `{GoLibs}.

(** The error of a failed [Create] of the service is the image of an
    answer of the adapter, or of an [ErrTransactionFailed]. *)
Lemma Create_failure_inv :
  forall req w created e w',
    UserServiceImpl_Create userService req w = (Ok (created, Some e), w') ->
    exists cause w3,
      mapRepositoryError cause w3 = (Ok e, w')
      /\ next_loc w3 = next_loc w
      /\ (Create_result (Some cause) \/ exists detail, cause = ErrTransactionFailed detail).
Proof.
  intros req w created e w'. unfold UserServiceImpl_Create. unfold bind at 1.
  change (port_Execute (txPort userService)) with
    (fun L => @PostgresRepository_Execute L userRepository).
  cbv beta.
  match goal with
  | |- context [PostgresRepository_Execute userRepository ?f None w] => set (fn := f)
  end.
  destruct (PostgresRepository_Execute userRepository fn None w)
    as [[[[cause|] l']|v] w3] eqn:Hexec; [| |discriminate].
  2: { unfold ret. intros [= _ <-]. }
  unfold bind. destruct (mapRepositoryError_Ok cause w3) as (e' & He). rewrite He.
  unfold ret. intros [= _ <- <-]. exists cause, w3. split; [assumption|].
  destruct (gorm_Begin_Ok w) as ([failure|] & w1 & Hbegin).
  - rewrite (Execute_begin_failed _ fn userRepository eq_refl None w failure w1 Hbegin)
      in Hexec.
    injection Hexec as <- _ <-.
    destruct (gorm_Begin_keeps w _ w1 Hbegin) as (_ & Hloc & _).
    unfold logged. simpl. eauto.
  - destruct (gorm_Begin_keeps w _ w1 Hbegin) as (_ & Hloc & _).
    destruct (fn txRepo None w1) as [[[[err|] l1]|v] w2] eqn:Hfn.
    + rewrite (Execute_fn_error _ fn userRepository eq_refl None w w1 err l1 w2 Hbegin Hfn)
        in Hexec.
      injection Hexec as <- _ <-.
      destruct (gorm_Rollback_spec w2) as (_ & _ & _ & _ & Hrb & _).
      remember (snd (gorm_Rollback w2)) as wr eqn:Hwr. clear Hwr.
      subst fn. cbv beta in Hfn. destruct req as [req|]; [|discriminate].
      unfold bind at 1 in Hfn. unfold time_Now in Hfn. unfold bind at 1 in Hfn.
      rewrite newID_run in Hfn.
      destruct (Z.ltb ulid_maxTime _); [discriminate|].
      unfold bind at 1 in Hfn. change (repo_Create txRepo)
        with (PostgresRepository_Create (NewPostgresRepository Tx)) in Hfn.
      match type of Hfn with
      | context [PostgresRepository_Create ?p ?u ?v] =>
          destruct (PostgresRepository_Create_kinds p u v) as (r & v1 & Hcreate & Hkind);
          pose proof (PostgresRepository_Create_keeps_heap p u v r v1 Hcreate) as Hheap;
          rewrite Hcreate in Hfn
      end.
      destruct r as [err'|]; [|discriminate].
      unfold bind, log_Print, modify, ret in Hfn. injection Hfn as <- _ <-.
      unfold logged. cbn in Hheap, Hrb |- *. split; [congruence|]. left. assumption.
    + destruct (gorm_Commit_Ok w2) as (c & w4 & Hcommit).
      rewrite (Execute_commit _ fn userRepository eq_refl None w w1 l1 w2 c w4 Hbegin Hfn
                 Hcommit) in Hexec.
      destruct c as [failure|]; [|discriminate]. injection Hexec as <- _ <-.
      pose proof (gorm_Commit_keeps_heap w2 _ w4 Hcommit) as Hc.
      subst fn. cbv beta in Hfn. destruct req as [req|]; [|discriminate].
      unfold bind at 1 in Hfn. unfold time_Now in Hfn. unfold bind at 1 in Hfn.
      rewrite newID_run in Hfn.
      destruct (Z.ltb ulid_maxTime _); [discriminate|].
      unfold bind at 1 in Hfn. change (repo_Create txRepo)
        with (PostgresRepository_Create (NewPostgresRepository Tx)) in Hfn.
      match type of Hfn with
      | context [PostgresRepository_Create ?p ?u ?v] =>
          destruct (PostgresRepository_Create_kinds p u v) as (r & v1 & Hcreate & Hkind);
          pose proof (PostgresRepository_Create_keeps_heap p u v r v1 Hcreate) as Hheap;
          rewrite Hcreate in Hfn
      end.
      destruct r as [err'|];
        unfold bind, log_Print, modify, ret in Hfn; [discriminate|].
      injection Hfn as _ <-.
      unfold logged. cbn in Hheap |- *. split; [congruence|]. right. eauto.
    + rewrite (Execute_fn_panic _ fn userRepository eq_refl None w w1 v w2 Hbegin Hfn)
        in Hexec. discriminate.
Qed.

(** X13. Past start-up, the handler of POST /users answers an error of the
    service with 409 when it still holds [ErrIdInUse] and with 500 in every
    other case: a taken username or email is answered 500, and the branch
    for 400 is never taken. *)
Theorem CreateUser_status_of_a_failed_Create :
  forall req w created e w',
    first_free_loc <= next_loc w ->
    UserServiceImpl_Create userService req w = (Ok (created, Some e), w') ->
    UserHandler_CreateUser_status e
    = (if errors_Is e ErrIdInUse then StatusConflict else StatusInternalServerError)
    /\ errors_Is e ErrUsernameInUse = false
    /\ errors_Is e ErrEmailInUse = false
    /\ errors_Is e (ErrValueNotNullable "") = false.
Proof.
  intros req w created e w' Hfresh Hrun.
  apply Create_failure_inv in Hrun as (cause & w3 & Hmap & Hloc & Hkind).
  assert (Hno : forall k s t, k < first_free_loc ->
                  errors_Is (errorString (next_loc w3) s) (errorString k t) = false)
    by (intros; apply fresh_is_no_sentinel; [rewrite Hloc|]; assumption).
  unfold first_free_loc in *.
  unfold UserHandler_CreateUser_status.
  destruct Hkind as [[Hc|[Hc|[Hc|[Hc|[[c Hc]|[c Hc]]]]]]|[c Hc]];
    try discriminate Hc; try (injection Hc as ->); try subst cause;
    unfold mapRepositoryError, errors_New, fmt_Errorf_w in Hmap;
    cbn [errors_Is error_eqb ErrIdInUse ErrUsernameInUse ErrEmailInUse ErrUserNotFound
         Nat.eqb errors_As_ErrValueNotNullable] in Hmap;
    injection Hmap as <- _;
    unfold ErrIdInUse, ErrUsernameInUse, ErrEmailInUse;
    rewrite ?Hno by lia; repeat split; reflexivity.
Qed.

End StatusOfCreate.

Lemma CreateUser_status_of_a_failed_Create_witness :
  exists e w',
    UserServiceImpl_Create (H := example_libs) userService (Some jane_request) world_with_jane
    = (Ok (None, Some e), w')
    /\ UserHandler_CreateUser_status e = StatusInternalServerError
    /\ errors_Is e ErrUsernameInUse = false.
Proof.
  eexists; eexists. split; [vm_compute; reflexivity|].
  destruct (@CreateUser_status_of_a_failed_Create example_libs (Some jane_request)
              world_with_jane None _ _ (le_n _) ltac:(vm_compute; reflexivity))
    as (Hstatus & Hname & _).
  split; [exact Hstatus|exact Hname].
Defined.

(** ** Update, then look again *)

Lemma PostgresRepository_Update_Tx_inv :
  forall user w w',
    PostgresRepository_Update (NewPostgresRepository Tx) user w = (Ok None, w') ->
    let value := ToEntity user in
    let id := ent_ID value in
    exists t,
      tx w = Some t /\ aborted t = false /\ hd None (faults w) = None
      /\ String.eqb id "" = false
      /\ existsb (fun r => String.eqb (ent_ID r) id) (work t) = true
      /\ w' = set_tx (Some (set_work
                              (map (fun r => if String.eqb (ent_ID r) id then merge value r
                                             else r) (work t)) t))
                (sent (EvUpdate id value) w).
Proof.
  intros user w w'. unfold PostgresRepository_Update, gorm_Updates.
  cbn [db NewPostgresRepository]. cbv zeta.
  destruct (String.eqb (ent_ID (ToEntity user)) "") eqn:Hid; [unfold bind, ret; discriminate|].
  destruct (is_zero (ToEntity user)); [unfold bind, ret; discriminate|].
  unfold bind at 1 2.
  match goal with
  | |- context [statement Tx ?ev ?zero ?run w] =>
      destruct (statement Tx ev zero run w) as [[[n [cause|]]|v] w1] eqn:Hrun
  end; unfold ret; cbn [fst snd gorm_Error RowsAffected]; cbv beta iota.
  - destruct (errors_Is cause gorm_ErrRecordNotFound); [discriminate|].
    destruct (extractPgError (Some cause)) as [d|];
      repeat match goal with
             | |- context [if ?b then _ else _] => destruct b
             end; discriminate.
  - destruct (Z.eqb_spec n 0); [discriminate|]. intros [= <-].
    apply statement_Tx_inv in Hrun as (t & rows' & Ht & Ha & Hf & Hr & ->).
    destruct (violated_any _ _); [discriminate|].
    injection Hr as <- <-. exists t. repeat split; auto.
    apply some_hit. assumption.
  - discriminate.
Qed.

Lemma find_merged :
  forall value rows,
    String.eqb (ent_ID value) "" = false ->
    existsb (fun r => String.eqb (ent_ID r) (ent_ID value)) rows = true ->
    exists row,
      find (fun r => String.eqb (ent_ID r) (ent_ID value)) rows = Some row
      /\ find (fun r => String.eqb (ent_ID r) (ent_ID value))
           (map (fun r => if String.eqb (ent_ID r) (ent_ID value) then merge value r else r)
              rows)
         = Some (merge value row).
Proof.
  intros value rows Hid. induction rows as [|r rows IH]; simpl; [discriminate|].
  destruct (String.eqb (ent_ID r) (ent_ID value)) eqn:Hr; simpl.
  - intros _. exists r. split; [reflexivity|].
    rewrite Hid. rewrite String.eqb_refl. reflexivity.
  - intros Hrest. rewrite Hr. apply IH. assumption.
Qed.

Section UpdateThenFind.
Context `{GoLibs}.

(** X14. An [Update] of the service that succeeds has written, to every row of
    the identifier, the fields of its argument that are not blank, and has
    left the other fields and the other rows as they were; there was such a
    row.  A [FindById] that follows on a store that answers returns that
    row: the stored value of every field the argument left blank, not the
    blank the [Update] returned. *)
Theorem Update_then_FindById :
  forall user w r w',
    UserServiceImpl_Update userService user w = (Ok (r, None), w') ->
    let value := ToEntity user in
    let id := ent_ID value in
    committed w'
    = map (fun row => if String.eqb (ent_ID row) id then merge value row else row)
        (committed w)
    /\ exists row,
         find (fun r => String.eqb (ent_ID r) id) (committed w) = Some row
         /\ (hd None (faults w') = None ->
             exists w'',
               UserServiceImpl_FindById userService id w'
               = (Ok (Some (FromEntity (merge value row)), None), w'')).
Proof.
  intros user w r w'. unfold UserServiceImpl_Update. unfold bind at 1.
  change (port_Execute (txPort userService)) with
    (fun L => @PostgresRepository_Execute L userRepository).
  cbv beta.
  match goal with
  | |- context [PostgresRepository_Execute userRepository ?f tt w] => set (fn := f)
  end.
  destruct (PostgresRepository_Execute userRepository fn tt w)
    as [[[[cause|] []]|v] w3] eqn:Hexec; cbn [fst]; [| |discriminate].
  - unfold bind. destruct (mapRepositoryError_Ok cause w3) as (e & ->). discriminate.
  - unfold ret. intros [= _ <-].
    apply Execute_Pool_inv in Hexec; [|reflexivity].
    destruct Hexec as (w1 & w2 & Hbegin & Hfn & Hcommit).
    apply gorm_Begin_inv in Hbegin as [_ ->].
    apply gorm_Commit_done in Hcommit as (t2 & Ht2 & _ & Hrows & _).
    subst fn. cbv beta in Hfn. unfold bind at 1 in Hfn.
    change (repo_Update txRepo) with (PostgresRepository_Update (NewPostgresRepository Tx))
      in Hfn.
    destruct (PostgresRepository_Update (NewPostgresRepository Tx) user _)
      as [[[e|]|v] w4] eqn:Hupdate; try discriminate.
    injection Hfn as <-.
    apply PostgresRepository_Update_Tx_inv in Hupdate as (t & Ht & _ & _ & Hid & Hhit & ->).
    cbn in Ht. injection Ht as <-. cbn in Ht2. injection Ht2 as <-.
    cbn in Hrows, Hhit. cbv zeta. split; [assumption|].
    destruct (find_merged (ToEntity user) (committed w) Hid Hhit) as (row & Hfound & Hmerged).
    exists row. split; [assumption|].
    intros Hf. unfold UserServiceImpl_FindById, bind.
    change (repo_FindById (Repo userService)) with (PostgresRepository_FindById userRepository).
    unfold PostgresRepository_FindById, bind.
    change (db userRepository) with Pool.
    rewrite (gorm_First_Pool_healthy _ w3 Hf), Hrows, Hmerged.
    eexists. reflexivity.
Qed.

End UpdateThenFind.

Lemma Update_then_FindById_witness :
  exists w',
    UserServiceImpl_Update (H := example_libs) userService (Some rename_jane) world_with_jane
    = (Ok (Some rename_jane, None), w')
    /\ exists w'',
         UserServiceImpl_FindById (H := example_libs) userService (ID jane) w'
         = (Ok (Some {| ID := ID jane; Name := "Jane Doe"; Username := "jdoe";
                        Email := "jane.doe@example.com" |}, None), w'').
Proof.
  eexists. split; [vm_compute; reflexivity|].
  pose proof (@Update_then_FindById example_libs (Some rename_jane) world_with_jane _ _
                ltac:(vm_compute; reflexivity)) as (_ & row & Hrow & Hfind).
  vm_compute in Hrow. injection Hrow as <-. exact (Hfind eq_refl).
Defined.

(** ** [Execute] when the transaction does not begin, and when the unit
    of work panics *)

Lemma gorm_Begin_refused :
  forall w cause,
    hd None (faults w) = Some cause ->
    gorm_Begin w = (Ok (Some cause), sent EvBegin w).
Proof.
  intros w cause Hf. unfold gorm_Begin, bind, emit, modify, next_fault, ret, sent.
  simpl. rewrite Hf. reflexivity.
Qed.

(** X15. On the pool, when the store refuses BEGIN the unit of work is not run:
    [Execute] returns an [ErrTransactionFailed] with the text of the
    refusal and logs it, and the store saw BEGIN only.  When the unit of
    work panics after BEGIN, [Execute] panics with the same value after a
    rollback: no transaction is left open, nothing the unit of work wrote
    is published, and nothing is logged. *)
Theorem Execute_begin_refused_or_panic :
  forall (L : Type) (fn : UserRepository -> L -> M (option error * L)) p l w,
    db p = Pool ->
    (forall cause,
        hd None (faults w) = Some cause ->
        PostgresRepository_Execute p fn l w
        = (Ok (Some (ErrTransactionFailed (Error cause)), l),
           logged (transaction_failed_line cause) (sent EvBegin w)))
    /\ (forall w1 x w2,
          gorm_Begin w = (Ok None, w1) ->
          fn txRepo l w1 = (Panic x, w2) ->
          exists w',
            PostgresRepository_Execute p fn l w = (Panic x, w')
            /\ tx w' = None
            /\ committed w' = committed w2
            /\ logs w' = logs w2).
Proof.
  intros L fn p l w Hpool. split.
  - intros cause Hf.
    apply (Execute_begin_failed L fn p Hpool l w cause _ (gorm_Begin_refused w cause Hf)).
  - intros w1 x w2 Hbegin Hfn.
    rewrite (Execute_fn_panic L fn p Hpool l w w1 x w2 Hbegin Hfn).
    destruct (gorm_Rollback_spec w2) as (Htx & Hrows & _ & Hlogs & _).
    eexists. split; [reflexivity|]. auto.
Qed.

Lemma Execute_begin_refused_or_panic_witness :
  PostgresRepository_Execute userRepository write_only tt
    (failing_world [Some (otherError "connection refused")])
  = (Ok (Some (ErrTransactionFailed "connection refused"), tt),
     logged "[Transaction Failed] Database Error: connection refused"
       (sent EvBegin (failing_world [Some (otherError "connection refused")]))).
Proof.
  exact (proj1 (Execute_begin_refused_or_panic unit write_only userRepository tt
                  (failing_world [Some (otherError "connection refused")]) eq_refl)
           (otherError "connection refused") eq_refl).
Defined.

(** * Further properties of the boundary *)

(** ** The handlers *)

Lemma refuse_run :
  forall text status w v,
    refuse text status w v
    = (Ok (Some (NewHTTPError (errorString (next_loc v) text) status), w),
       set_next_loc (S (next_loc v)) v).
Proof. reflexivity. Qed.

(** X16. A request whose body does not decode or does not pass validation, or
    whose identifier is blank, is refused without a call of the service:
    whatever the service is, the world only sees the allocation of the
    error, and nothing is written to the response.  The status is 400,
    or 500 for a validation that did not give field errors. *)
Theorem refused_requests_never_reach_the_service :
  forall h w r v,
    ((Body_UserCreateRequest r = None \/ validator_Struct r <> Valid) ->
     exists err,
       UserHandler_CreateUser h w r v = (Ok (Some err, w), set_next_loc (S (next_loc v)) v)
       /\ (HTTPError_Status err = StatusBadRequest
           \/ HTTPError_Status err = StatusInternalServerError))
    /\ ((Body_User r = None \/ validator_Struct r <> Valid) ->
        exists err,
          UserHandler_Update h w r v = (Ok (Some err, w), set_next_loc (S (next_loc v)) v)
          /\ HTTPError_Status err = StatusBadRequest)
    /\ (URLParam_id r = "" ->
        (exists err,
            UserHandler_FindById h w r v = (Ok (Some err, w), set_next_loc (S (next_loc v)) v)
            /\ HTTPError_Status err = StatusBadRequest)
        /\ (exists err,
              UserHandler_Delete h w r v = (Ok (Some err, w), set_next_loc (S (next_loc v)) v)
              /\ HTTPError_Status err = StatusBadRequest)).
Proof.
  intros h w r v.
  assert (Hrefused : forall text status,
             exists err,
               refuse text status w v = (Ok (Some err, w), set_next_loc (S (next_loc v)) v)
               /\ HTTPError_Status err = status).
  { intros text status. rewrite refuse_run. eexists. split; reflexivity. }
  split; [|split].
  - intros Hbad. unfold UserHandler_CreateUser.
    assert (Hbr : forall text, exists err,
               refuse text StatusBadRequest w v
               = (Ok (Some err, w), set_next_loc (S (next_loc v)) v)
               /\ (HTTPError_Status err = StatusBadRequest
                   \/ HTTPError_Status err = StatusInternalServerError)).
    { intros text. destruct (Hrefused text StatusBadRequest) as (err & Hr & Hs). eauto. }
    assert (Hise : forall text, exists err,
               refuse text StatusInternalServerError w v
               = (Ok (Some err, w), set_next_loc (S (next_loc v)) v)
               /\ (HTTPError_Status err = StatusBadRequest
                   \/ HTTPError_Status err = StatusInternalServerError)).
    { intros text. destruct (Hrefused text StatusInternalServerError) as (err & Hr & Hs).
      eauto. }
    destruct (Body_UserCreateRequest r) as [request|]; [|apply Hbr].
    destruct Hbad as [Hbad|Hbad]; [discriminate|].
    destruct (validator_Struct r) as [|text [|fieldError rest]|text];
      [contradiction Hbad; reflexivity|apply Hise| |apply Hise].
    destruct (String.eqb (Tag fieldError) "required" || String.eqb (Tag fieldError) "excludesall");
      [apply Hbr|].
    destruct (String.eqb (Tag fieldError) "email"); apply Hbr.
  - intros Hbad. unfold UserHandler_Update.
    destruct (Body_User r) as [request|]; [|apply Hrefused].
    destruct Hbad as [Hbad|Hbad]; [discriminate|].
    destruct (validator_Struct r); [contradiction Hbad; reflexivity| |]; apply Hrefused.
  - intros Hid. unfold UserHandler_FindById, UserHandler_Delete. rewrite Hid.
    cbn [String.eqb]. split; apply Hrefused.
Qed.

Section HandlerOutcomes.
Variable h : UserHandler.
Variable w : ResponseWriter.
Variable r : Request.
Variable v : World.
Hypothesis fresh : status_line w = None.

Lemma refused_outcome :
  forall text status code written out w' v' v1,
    error_status status ->
    refuse text status w v1 = (Ok (out, w'), v') ->
    answered_or_refused w code written out w'.
Proof.
  intros text status code written out w' v' v1 Hstatus. rewrite refuse_run.
  intros [= <- <- _]. left. eexists. repeat split. assumption.
Qed.

Lemma encoded_outcome :
  forall code (written : Payload -> Prop) p out w' v' v1,
    written p ->
    (let w0 := Header_Set "Content-Type" "application/json" w in
     let w1 := WriteHeader code w0 in
     let '(w2, err) := json_Encode w1 p in
     match err with
     | Some _ => refuse "error json encoding response" StatusInternalServerError w2
     | None => ret (None, w2)
     end) v1 = (Ok (out, w'), v') ->
    answered_or_refused w code written out w'.
Proof.
  intros code written p out w' v' v1 Hp. cbv beta iota zeta. unfold json_Encode, ret.
  intros [= <- <- _]. right. split; [reflexivity|].
  unfold Write, WriteHeader, Header_Set. cbn. rewrite fresh. cbn. eauto 10.
Qed.

Ltac refused_with :=
  intros Hr; eapply refused_outcome; [|exact Hr]; unfold error_status; auto.

Lemma CreateUser_outcome :
  forall out w' v',
    UserHandler_CreateUser h w r v = (Ok (out, w'), v') ->
    answered_or_refused w StatusCreated is_JSON_User out w'.
Proof.
  intros out w' v'. unfold UserHandler_CreateUser.
  destruct (Body_UserCreateRequest r) as [request|]; [|refused_with].
  destruct (validator_Struct r) as [|text [|fieldError rest]|text]; try refused_with.
  - unfold bind.
    destruct (service_Create (handler_userService h) (Some request) v)
      as [[[userResponse [err|]]|x] v1]; [| |discriminate].
    + repeat match goal with
             | |- context [if ?b then _ else _] => destruct b
             end; refused_with.
    + apply encoded_outcome. unfold is_JSON_User. eauto.
  - repeat match goal with
           | |- context [if ?b then _ else _] => destruct b
           end; refused_with.
Qed.

Lemma FindAll_outcome :
  forall out w' v',
    UserHandler_FindAll h w r v = (Ok (out, w'), v') ->
    answered_or_refused w StatusOK is_JSON_Users out w'.
Proof.
  intros out w' v'. unfold UserHandler_FindAll, bind.
  destruct (service_FindAll (handler_userService h) v)
    as [[[userResponse [err|]]|x] v1]; [| |discriminate].
  - refused_with.
  - apply encoded_outcome. unfold is_JSON_Users. eauto.
Qed.

Lemma FindById_outcome :
  forall out w' v',
    UserHandler_FindById h w r v = (Ok (out, w'), v') ->
    answered_or_refused w StatusOK is_JSON_User out w'.
Proof.
  intros out w' v'. unfold UserHandler_FindById.
  destruct (String.eqb (URLParam_id r) ""); [refused_with|].
  unfold bind.
  destruct (service_FindById (handler_userService h) (URLParam_id r) v)
    as [[[userResponse [err|]]|x] v1]; [| |discriminate].
  - destruct (errors_Is err ErrUserNotFound); refused_with.
  - apply encoded_outcome. unfold is_JSON_User. eauto.
Qed.

Lemma Update_outcome :
  forall out w' v',
    UserHandler_Update h w r v = (Ok (out, w'), v') ->
    answered_or_refused w StatusOK is_JSON_User out w'.
Proof.
  intros out w' v'. unfold UserHandler_Update.
  destruct (Body_User r) as [request|]; [|refused_with].
  destruct (validator_Struct r); try refused_with.
  unfold bind.
  destruct (service_Update (handler_userService h) (Some request) v)
    as [[[userResponse [err|]]|x] v1]; [| |discriminate].
  - repeat match goal with
           | |- context [if ?b then _ else _] => destruct b
           end; refused_with.
  - apply encoded_outcome. unfold is_JSON_User. eauto.
Qed.

Lemma Delete_outcome :
  forall out w' v',
    UserHandler_Delete h w r v = (Ok (out, w'), v') ->
    (exists err, out = Some err /\ w' = w /\ error_status (HTTPError_Status err))
    \/ (out = None /\ status_line w' = Some StatusNoContent /\ body w' = body w).
Proof.
  intros out w' v'. unfold UserHandler_Delete.
  destruct (String.eqb (URLParam_id r) "").
  - rewrite refuse_run. intros [= <- <- _]. left. eexists. repeat split.
    unfold error_status. auto.
  - unfold bind.
    destruct (service_Delete (handler_userService h) (URLParam_id r) v)
      as [[[err|]|x] v1]; [| |discriminate].
    + destruct (errors_Is err ErrUserNotFound); rewrite refuse_run; intros [= <- <- _];
        left; eexists; repeat split; unfold error_status; auto.
    + unfold ret. intros [= <- <- _]. right. split; [reflexivity|].
      unfold WriteHeader. rewrite fresh. cbn. auto.
Qed.

End HandlerOutcomes.

(** X17. On a response that has no status line yet, a handler either returns an
    error with one of the statuses 400, 404, 409, 500 and leaves the
    response as it found it, or returns nil after it sent its own status
    (201 for a creation, 204 for a deletion, 200 otherwise) with the JSON
    content type and the one value of the answer (none for 204).  This
    holds for every service behind the handler. *)
Theorem handlers_answer_or_refuse :
  forall h w r v,
    status_line w = None ->
    (forall out w' v',
        UserHandler_CreateUser h w r v = (Ok (out, w'), v') ->
        answered_or_refused w StatusCreated is_JSON_User out w')
    /\ (forall out w' v',
          UserHandler_FindAll h w r v = (Ok (out, w'), v') ->
          answered_or_refused w StatusOK is_JSON_Users out w')
    /\ (forall out w' v',
          UserHandler_FindById h w r v = (Ok (out, w'), v') ->
          answered_or_refused w StatusOK is_JSON_User out w')
    /\ (forall out w' v',
          UserHandler_Update h w r v = (Ok (out, w'), v') ->
          answered_or_refused w StatusOK is_JSON_User out w')
    /\ (forall out w' v',
          UserHandler_Delete h w r v = (Ok (out, w'), v') ->
          (exists err, out = Some err /\ w' = w /\ error_status (HTTPError_Status err))
          \/ (out = None /\ status_line w' = Some StatusNoContent /\ body w' = body w)).
Proof.
  intros h w r v Hfresh. repeat split.
  - apply CreateUser_outcome; assumption.
  - apply FindAll_outcome; assumption.
  - apply FindById_outcome; assumption.
  - apply Update_outcome; assumption.
  - apply Delete_outcome; assumption.
Qed.

(** ** Nothing but the service allocates *)

Lemma keeps_heap_ret : forall (A : Type) (a : A), keeps_heap (ret a).
Proof. intros A a w. reflexivity. Qed.

Lemma keeps_heap_bind :
  forall (A B : Type) (m : M A) (k : A -> M B),
    keeps_heap m -> (forall a, keeps_heap (k a)) -> keeps_heap (bind m k).
Proof.
  intros A B m k Hm Hk w. unfold bind. specialize (Hm w).
  destruct (m w) as [[a|x] w1]; simpl in *; [|assumption].
  rewrite Hk. assumption.
Qed.

Lemma keeps_heap_statement :
  forall (A : Type) h ev (zero : A) run, keeps_heap (statement h ev zero run).
Proof. intros A h ev zero run w. apply statement_keeps_heap. Qed.

Lemma keeps_heap_gorm_Begin : keeps_heap gorm_Begin.
Proof.
  intros w. unfold gorm_Begin, bind, emit, modify, next_fault, ret. simpl.
  destruct (hd None (faults w)); reflexivity.
Qed.

Lemma keeps_heap_gorm_Commit : keeps_heap gorm_Commit.
Proof.
  intros w. unfold gorm_Commit, bind, gets, emit, modify, next_fault, ret. simpl.
  destruct (tx w) as [t|]; simpl; [|reflexivity].
  destruct (hd None (faults w)); simpl; [reflexivity|].
  destruct (aborted t); reflexivity.
Qed.

Lemma keeps_heap_gorm_Rollback : keeps_heap gorm_Rollback.
Proof.
  intros w. unfold gorm_Rollback, bind, gets, emit, modify, ret. simpl.
  destruct (tx w); reflexivity.
Qed.

Lemma keeps_heap_gorm_RollbackTo : forall snapshot, keeps_heap (gorm_RollbackTo snapshot).
Proof.
  intros snapshot w. unfold gorm_RollbackTo, bind, gets, emit, modify, ret. simpl.
  destruct (tx w); reflexivity.
Qed.

Lemma keeps_heap_log_Print : forall line, keeps_heap (log_Print line).
Proof. intros line w. reflexivity. Qed.

Lemma keeps_heap_gorm_Transaction :
  forall (L : Type) h (fc : Handle -> L -> M (option error * L)) l,
    (forall l, keeps_heap (fc Tx l)) -> keeps_heap (gorm_Transaction h fc l).
Proof.
  intros L h fc l Hfc. destruct h; unfold gorm_Transaction.
  - apply keeps_heap_bind; [apply keeps_heap_gorm_Begin|].
    intros [e|]; [apply keeps_heap_ret|].
    intros w. specialize (Hfc l w).
    destruct (fc Tx l w) as [[[[err|] l']|x] w1]; simpl in *.
    + rewrite keeps_heap_gorm_Rollback. assumption.
    + pose proof (keeps_heap_bind _ _ gorm_Commit (fun c => ret (c, l'))
                    keeps_heap_gorm_Commit (fun c => keeps_heap_ret _ _) w1) as Hc.
      rewrite Hc. assumption.
    + rewrite keeps_heap_gorm_Rollback. assumption.
  - apply keeps_heap_bind; [apply keeps_heap_statement|].
    intros sp. destruct (snd sp); [apply keeps_heap_ret|].
    apply keeps_heap_bind; [intros w; reflexivity|].
    intros snapshot w. specialize (Hfc l w).
    destruct (fc Tx l w) as [[[[err|] l']|x] w1]; simpl in *;
      try rewrite keeps_heap_gorm_RollbackTo; assumption.
Qed.

Lemma keeps_heap_FindById :
  forall p id, keeps_heap (PostgresRepository_FindById p id).
Proof.
  intros p id. unfold PostgresRepository_FindById, gorm_First.
  apply keeps_heap_bind.
  - apply keeps_heap_bind; [apply keeps_heap_statement|].
    intros [[row|] [e|]]; apply keeps_heap_ret.
  - intros [userEntity [err|]]; [|apply keeps_heap_ret].
    destruct (errors_Is err gorm_ErrRecordNotFound); apply keeps_heap_ret.
Qed.

Lemma keeps_heap_FindAll : forall p, keeps_heap (PostgresRepository_FindAll p).
Proof.
  intros p. unfold PostgresRepository_FindAll, gorm_Find.
  apply keeps_heap_bind; [apply keeps_heap_statement|].
  intros [userEntities [err|]]; apply keeps_heap_ret.
Qed.

Lemma keeps_heap_classified :
  forall (err : option PgErrorData) (cause : error),
    keeps_heap
      match
        match err with
        | Some e =>
            if String.eqb (Code e) "23505" then
              if String.eqb (Constraint e) "users_pkey" then Some ErrIdInUse
              else if String.eqb (Constraint e) "idx_username" then Some ErrUsernameInUse
              else if String.eqb (Constraint e) "idx_email" then Some ErrEmailInUse
              else None
            else None
        | None => None
        end
      with
      | Some conflict => ret (Some conflict)
      | None =>
          match err with
          | Some e =>
              if String.eqb (Code e) "23502" then
                let column :=
                  if String.eqb (Constraint e) "id" || String.eqb (Constraint e) "username"
                     || String.eqb (Constraint e) "email"
                  then Constraint e
                  else "a column" in
                ret (Some (ErrValueNotNullable column))
              else ret (Some (ErrInternalServer (Error cause)))
          | None => ret (Some (ErrInternalServer (Error cause)))
          end
      end.
Proof.
  intros [e|] cause; [|apply keeps_heap_ret].
  repeat match goal with
         | |- context [if ?b then _ else _] => destruct b
         end; apply keeps_heap_ret.
Qed.

Lemma keeps_heap_Create : forall p user, keeps_heap (PostgresRepository_Create p user).
Proof.
  intros p user. unfold PostgresRepository_Create, gorm_Create.
  apply keeps_heap_bind.
  - apply keeps_heap_bind; [apply keeps_heap_statement|]. intros r. apply keeps_heap_ret.
  - intros [cause|]; [|apply keeps_heap_ret]. apply keeps_heap_classified.
Qed.

Lemma keeps_heap_Update : forall p user, keeps_heap (PostgresRepository_Update p user).
Proof.
  intros p user. unfold PostgresRepository_Update, gorm_Updates.
  apply keeps_heap_bind.
  - destruct (String.eqb (ent_ID (ToEntity user)) ""); [apply keeps_heap_ret|].
    destruct (is_zero (ToEntity user)); [apply keeps_heap_ret|].
    apply keeps_heap_bind; [apply keeps_heap_statement|]. intros r. apply keeps_heap_ret.
  - intros result. destruct (gorm_Error result) as [cause|].
    + destruct (errors_Is cause gorm_ErrRecordNotFound); [apply keeps_heap_ret|].
      apply keeps_heap_classified.
    + destruct (Z.eqb (RowsAffected result) 0); apply keeps_heap_ret.
Qed.

Lemma keeps_heap_Delete : forall p id, keeps_heap (PostgresRepository_Delete p id).
Proof.
  intros p id. unfold PostgresRepository_Delete, gorm_Delete.
  apply keeps_heap_bind.
  - destruct (String.eqb id ""); [apply keeps_heap_ret|].
    apply keeps_heap_bind; [apply keeps_heap_statement|]. intros r. apply keeps_heap_ret.
  - intros result. destruct (gorm_Error result) as [cause|]; [apply keeps_heap_ret|].
    destruct (Z.eqb (RowsAffected result) 0); apply keeps_heap_ret.
Qed.

Lemma keeps_heap_Execute :
  forall (L : Type) p (fn : UserRepository -> L -> M (option error * L)) l,
    (forall l, keeps_heap (fn (as_UserRepository {| db := Tx |}) l)) ->
    keeps_heap (PostgresRepository_Execute p fn l).
Proof.
  intros L p fn l Hfn. unfold PostgresRepository_Execute.
  apply keeps_heap_bind.
  - apply keeps_heap_gorm_Transaction. intros captured.
    apply keeps_heap_bind; [apply Hfn|].
    intros [[err|] l']; apply keeps_heap_ret.
  - intros [[cause|] [[domainError|] l']]; try apply keeps_heap_ret;
      (apply keeps_heap_bind; [apply keeps_heap_log_Print|]); intros _; apply keeps_heap_ret.
Qed.

(** ** The statuses the routes of [main] answer *)

Section StatusesOfMain.
Context `{GoLibs}.

Lemma mapRepositoryError_no_kind :
  forall cause w e w',
    first_free_loc <= next_loc w ->
    mapRepositoryError cause w = (Ok e, w') ->
    no_kind e.
Proof.
  intros cause w e w' Hfresh. unfold mapRepositoryError, errors_New, fmt_Errorf_w.
  assert (Hno : forall s k t, k < first_free_loc ->
                  errors_Is (errorString (next_loc w) s) (errorString k t) = false)
    by (intros; apply fresh_is_no_sentinel; assumption).
  unfold no_kind, ErrUserNotFound, ErrUsernameInUse, ErrEmailInUse, first_free_loc in *.
  destruct (errors_Is cause (errorString 0 _)) eqn:H0;
    [intros [= <- _]; rewrite !Hno by lia; auto|].
  destruct (errors_Is cause (errorString 1 _)) eqn:H1;
    [intros [= <- _]; rewrite !Hno by lia; auto|].
  destruct (errors_Is cause (errorString 2 _)) eqn:H2;
    [intros [= <- _]; rewrite !Hno by lia; auto|].
  destruct (errors_As_ErrValueNotNullable cause);
    intros [= <- _]; [rewrite !Hno by lia; auto|].
  cbn [errors_Is error_eqb]. auto.
Qed.

Lemma mapped_no_kind :
  forall (A B : Type) (m : M A) (err : A -> option error) (bad : error -> B) (good : A -> B)
         w e w' (pick : B -> option error),
    keeps_heap m ->
    first_free_loc <= next_loc w ->
    (forall e, pick (bad e) = Some e) ->
    (forall a, pick (good a) = None) ->
    (r <- m ;;
     match err r with
     | Some cause => e <- mapRepositoryError cause ;; ret (bad e)
     | None => ret (good r)
     end) w = (Ok (bad e), w') ->
    no_kind e.
Proof.
  intros A B m err bad good w e w' pick Hm Hfresh Hbad Hgood. unfold bind at 1.
  specialize (Hm w). destruct (m w) as [[r|x] w1]; [|discriminate]. simpl in Hm.
  destruct (err r) as [cause|].
  - unfold bind. destruct (mapRepositoryError_Ok cause w1) as (e' & He). rewrite He.
    unfold ret. intros [= Heq _]. apply (f_equal pick) in Heq. rewrite !Hbad in Heq.
    injection Heq as ->. eapply (mapRepositoryError_no_kind cause w1); [lia|eassumption].
  - unfold ret. intros [= Heq _]. apply (f_equal pick) in Heq.
    rewrite Hbad, Hgood in Heq. discriminate.
Qed.

Lemma FindById_error_no_kind :
  forall id w user e w',
    first_free_loc <= next_loc w ->
    UserServiceImpl_FindById userService id w = (Ok (user, Some e), w') ->
    no_kind e.
Proof.
  intros id w user e w' Hfresh Hrun.
  assert (Huser : user = None).
  { revert Hrun. unfold UserServiceImpl_FindById, bind.
    destruct (repo_FindById (Repo userService) id w) as [[[found [err|]]|x] w1];
      [| |discriminate].
    - destruct (mapRepositoryError_Ok err w1) as (e' & ->). intros [= <- _ _]. reflexivity.
    - discriminate. }
  subst user.
  apply (mapped_no_kind _ _ (repo_FindById (Repo userService) id) snd
           (fun e => (None, Some e)) (fun r => (fst r, None)) w e w' snd);
    [apply keeps_heap_FindById|assumption|reflexivity|reflexivity|].
  rewrite <- Hrun. unfold UserServiceImpl_FindById, bind.
  destruct (repo_FindById (Repo userService) id w) as [[[found [err|]]|x] w1]; reflexivity.
Qed.

Lemma Update_error_no_kind :
  forall user w answer e w',
    first_free_loc <= next_loc w ->
    UserServiceImpl_Update userService user w = (Ok (answer, Some e), w') ->
    no_kind e.
Proof.
  intros user w answer e w' Hfresh Hrun.
  assert (Hanswer : answer = None).
  { revert Hrun. unfold UserServiceImpl_Update. unfold bind at 1.
    match goal with
    | |- context [@port_Execute ?p unit ?f tt w] =>
        destruct (@port_Execute p unit f tt w) as [[[[err|] l]|x] w1]; [| |discriminate]
    end; cbn [fst].
    - unfold bind. destruct (mapRepositoryError_Ok err w1) as (e' & ->).
      intros [= <- _ _]. reflexivity.
    - discriminate. }
  subst answer. unfold UserServiceImpl_Update in Hrun.
  match type of Hrun with
  | context [@port_Execute ?p unit ?f tt] =>
      apply (mapped_no_kind _ _ (@port_Execute p unit f tt) fst
               (fun e => (None, Some e)) (fun _ => (user, None)) w e w' snd);
        [|assumption|reflexivity|reflexivity|exact Hrun]
  end.
  apply keeps_heap_Execute. intros l.
  apply keeps_heap_bind; [apply keeps_heap_Update|].
  intros [err|]; apply keeps_heap_ret.
Qed.

Lemma Delete_error_no_kind :
  forall id w e w',
    first_free_loc <= next_loc w ->
    UserServiceImpl_Delete userService id w = (Ok (Some e), w') ->
    no_kind e.
Proof.
  intros id w e w' Hfresh Hrun. unfold UserServiceImpl_Delete in Hrun.
  match type of Hrun with
  | context [@port_Execute ?p unit ?f tt] =>
      apply (mapped_no_kind _ _ (@port_Execute p unit f tt) fst
               (fun e => Some e) (fun _ => None) w e w' (fun o => o));
        [|assumption|reflexivity|reflexivity|exact Hrun]
  end.
  apply keeps_heap_Execute. intros l.
  apply keeps_heap_bind; [apply keeps_heap_Delete|].
  intros [err|]; apply keeps_heap_ret.
Qed.

End StatusesOfMain.

Lemma wrapped_status :
  forall (handler : HandlerFunc) w r v w' v' codes,
    status_line w = None ->
    ErrorHandlerWrapper handler w r v = (Ok w', v') ->
    (forall out w1 v1,
        handler w r v = (Ok (out, w1), v1) ->
        match out with
        | Some err => w1 = w /\ In (HTTPError_Status err) codes /\ HTTPError_Status err <> 0%Z
        | None => answers w1 codes
        end) ->
    answers w' codes.
Proof.
  intros handler w r v w' v' codes Hfresh. unfold ErrorHandlerWrapper, bind.
  destruct (handler w r v) as [[[[err|] w1]|x] v1]; [| |discriminate].
  - unfold ret, json_Encode. intros [= <- _] Hhandler.
    destruct (Hhandler _ _ _ eq_refl) as (-> & Hin & Hnz).
    apply Z.eqb_neq in Hnz. rewrite Hnz. cbn [negb].
    exists (HTTPError_Status err). split; [|assumption].
    unfold Write, WriteHeader, Header_Set. cbn. rewrite Hfresh. reflexivity.
  - unfold ret. intros [= <- _] Hhandler. apply (Hhandler _ _ _ eq_refl).
Qed.

Lemma refused_status :
  forall text status w v out w1 v1 codes,
    In status codes -> status <> 0%Z ->
    refuse text status w v = (Ok (out, w1), v1) ->
    match out with
    | Some err => w1 = w /\ In (HTTPError_Status err) codes /\ HTTPError_Status err <> 0%Z
    | None => answers w1 codes
    end.
Proof.
  intros text status w v out w1 v1 codes Hin Hnz. rewrite refuse_run.
  intros [= <- <- _]. auto.
Qed.

Lemma encoded_status :
  forall code p w v out w1 v1 codes,
    status_line w = None ->
    In code codes ->
    (let w0 := Header_Set "Content-Type" "application/json" w in
     let w1 := WriteHeader code w0 in
     let '(w2, err) := json_Encode w1 p in
     match err with
     | Some _ => refuse "error json encoding response" StatusInternalServerError w2
     | None => ret (None, w2)
     end) v = (Ok (out, w1), v1) ->
    match out with
    | Some err => w1 = w /\ In (HTTPError_Status err) codes /\ HTTPError_Status err <> 0%Z
    | None => answers w1 codes
    end.
Proof.
  intros code p w v out w1 v1 codes Hfresh Hin. cbv beta iota zeta.
  unfold json_Encode, ret. intros [= <- <- _]. exists code. split; [|assumption].
  unfold Write, WriteHeader, Header_Set. cbn. rewrite Hfresh. reflexivity.
Qed.

Ltac status_in :=
  unfold StatusOK, StatusCreated, StatusNoContent, StatusBadRequest, StatusNotFound,
    StatusConflict, StatusInternalServerError; cbn [In]; first [lia | tauto].

Ltac refused_in :=
  intros Hr; eapply refused_status; [| |exact Hr]; status_in.

Section StatusesOfTheRoutes.
Context `{GoLibs}.

(** X18. Past start-up, on a response without a status line, every route of
    [main] answers with one of these statuses: POST /users 201, 400, 409 or
    500; GET /users 200 or 500; GET /users/{id} and PUT /users 200, 400 or
    500; DELETE /users/{id} 204, 400 or 500.  No route answers 404, and the
    update answers no 409, although their handlers test for them: the
    service of [main] never hands them an error of these kinds. *)
Theorem statuses_of_main :
  forall w r v w' v',
    status_line w = None ->
    first_free_loc <= next_loc v ->
    (route_CreateUser userHandler w r v = (Ok w', v') ->
     answers w' [StatusCreated; StatusBadRequest; StatusConflict; StatusInternalServerError])
    /\ (route_FindAll userHandler w r v = (Ok w', v') ->
        answers w' [StatusOK; StatusInternalServerError])
    /\ (route_FindById userHandler w r v = (Ok w', v') ->
        answers w' [StatusOK; StatusBadRequest; StatusInternalServerError])
    /\ (route_Update userHandler w r v = (Ok w', v') ->
        answers w' [StatusOK; StatusBadRequest; StatusInternalServerError])
    /\ (route_Delete userHandler w r v = (Ok w', v') ->
        answers w' [StatusNoContent; StatusBadRequest; StatusInternalServerError]).
Proof.
  intros w r v w' v' Hfresh Hheap. repeat split; intros Hroute;
    (eapply wrapped_status; [exact Hfresh|exact Hroute|]); clear Hroute w' v';
    intros out w1 v1.
  - unfold UserHandler_CreateUser.
    destruct (Body_UserCreateRequest r) as [request|]; [|refused_in].
    destruct (validator_Struct r) as [|text [|fieldError rest]|text]; try refused_in.
    + unfold bind.
      destruct (service_Create (handler_userService userHandler) (Some request) v)
        as [[[userResponse [err|]]|x] v2]; [| |discriminate].
      * repeat match goal with
               | |- context [if ?b then _ else _] => destruct b
               end; refused_in.
      * apply encoded_status; [assumption|status_in].
    + repeat match goal with
             | |- context [if ?b then _ else _] => destruct b
             end; refused_in.
  - unfold UserHandler_FindAll, bind.
    destruct (service_FindAll (handler_userService userHandler) v)
      as [[[userResponse [err|]]|x] v2]; [| |discriminate].
    + refused_in.
    + apply encoded_status; [assumption|status_in].
  - unfold UserHandler_FindById.
    destruct (String.eqb (URLParam_id r) ""); [refused_in|].
    unfold bind.
    destruct (service_FindById (handler_userService userHandler) (URLParam_id r) v)
      as [[[userResponse [err|]]|x] v2] eqn:Hservice; [| |discriminate].
    + apply FindById_error_no_kind in Hservice; [|assumption].
      destruct Hservice as (-> & _). refused_in.
    + apply encoded_status; [assumption|status_in].
  - unfold UserHandler_Update.
    destruct (Body_User r) as [request|]; [|refused_in].
    destruct (validator_Struct r); try refused_in.
    unfold bind.
    destruct (service_Update (handler_userService userHandler) (Some request) v)
      as [[[userResponse [err|]]|x] v2] eqn:Hservice; [| |discriminate].
    + apply Update_error_no_kind in Hservice; [|assumption].
      destruct Hservice as (-> & -> & ->). cbn [orb]. refused_in.
    + apply encoded_status; [assumption|status_in].
  - unfold UserHandler_Delete.
    destruct (String.eqb (URLParam_id r) ""); [refused_in|].
    unfold bind.
    destruct (service_Delete (handler_userService userHandler) (URLParam_id r) v)
      as [[[err|]|x] v2] eqn:Hservice; [| |discriminate].
    + apply Delete_error_no_kind in Hservice; [|assumption].
      destruct Hservice as (-> & _). refused_in.
    + unfold ret. intros [= <- <- _]. exists StatusNoContent.
      split; [|status_in]. unfold WriteHeader. rewrite Hfresh. reflexivity.
Qed.

End StatusesOfTheRoutes.

(** ** The wrapper and the middleware *)

(** X19. [ErrorHandlerWrapper] passes on what the handler wrote when the handler
    returns nil, and does not recover a panic.  An error of the handler is
    written to the body as one JSON value with the status of the error,
    500 when that status is 0, and the text of the wrapped error.  That
    status is the status line when none was written before; when the
    handler had written one, the status line and the header that went out
    stay and only the body tells the error. *)
Theorem ErrorHandlerWrapper_answer :
  forall (handler : HandlerFunc) w r v,
    (forall w1 v1,
        handler w r v = (Ok (None, w1), v1) ->
        ErrorHandlerWrapper handler w r v = (Ok w1, v1))
    /\ (forall x v1,
          handler w r v = (Panic x, v1) ->
          ErrorHandlerWrapper handler w r v = (Panic x, v1))
    /\ (forall err w1 v1,
          handler w r v = (Ok (Some err, w1), v1) ->
          exists code w2,
            ErrorHandlerWrapper handler w r v = (Ok w2, v1)
            /\ code <> 0%Z
            /\ (HTTPError_Status err <> 0%Z -> code = HTTPError_Status err)
            /\ (HTTPError_Status err = 0%Z -> code = StatusInternalServerError)
            /\ body w2 = (body w1 ++ [error_response err code])%list
            /\ match status_line w1 with
               | None =>
                   status_line w2 = Some code
                   /\ In ("Content-Type", "application/json") (sent_header w2)
               | Some sent =>
                   status_line w2 = Some sent /\ sent_header w2 = sent_header w1
               end).
Proof.
  intros handler w r v. unfold ErrorHandlerWrapper, bind. repeat split.
  - intros w1 v1 ->. reflexivity.
  - intros x v1 ->. reflexivity.
  - intros err w1 v1 ->. unfold ret, json_Encode.
    destruct (Z.eqb_spec (HTTPError_Status err) 0) as [Hz|Hnz]; cbn [negb].
    + exists StatusInternalServerError. eexists. split; [reflexivity|].
      split; [unfold StatusInternalServerError; lia|].
      split; [intros; congruence|]. split; [reflexivity|].
      unfold Write, WriteHeader, Header_Set, error_response; cbn.
      destruct (status_line w1); cbn; auto.
    + exists (HTTPError_Status err). eexists. split; [reflexivity|].
      split; [assumption|]. split; [reflexivity|]. split; [intros; congruence|].
      unfold Write, WriteHeader, Header_Set, error_response; cbn.
      destruct (status_line w1); cbn; auto.
Qed.

Lemma ErrorHandlerWrapper_answer_witness :
  exists code w2,
    ErrorHandlerWrapper (fun w _ => refuse "no status" 0 w) new_ResponseWriter
      {| Method := "GET"; URL_Path := "/users"; Proto := "HTTP/1.1"; BasicAuth := None;
         URLParam_id := ""; Body_UserCreateRequest := None; Body_User := None;
         validator_Struct := Valid |} fresh_world
    = (Ok w2, set_next_loc (S (next_loc fresh_world)) fresh_world)
    /\ code = StatusInternalServerError
    /\ body w2
       = [JSON_ErrorResponse {| Status := code; Message := "no status" |}].
Proof.
  destruct (proj2 (proj2 (ErrorHandlerWrapper_answer
                            (fun w _ => refuse "no status" 0 w) new_ResponseWriter
                            {| Method := "GET"; URL_Path := "/users"; Proto := "HTTP/1.1";
                               BasicAuth := None; URLParam_id := "";
                               Body_UserCreateRequest := None; Body_User := None;
                               validator_Struct := Valid |} fresh_world))
              _ _ _ eq_refl) as (code & w2 & Hrun & _ & _ & Hzero & Hbody & _).
  exists code, w2. split; [exact Hrun|]. split; [exact (Hzero eq_refl)|].
  rewrite Hbody, (Hzero eq_refl). reflexivity.
Defined.

Section Middleware.
Context `{HttpLibs}.
Variable Getenv : string -> string.
Variable next : http_HandlerFunc.
Variable w : ResponseWriter.
Variable r : Request.
Variable v : World.

(** X20. With both variables of the environment set, a request without the
    credentials of the environment is answered 401 with the challenge in
    the header and the text [Unauthorized]; the next handler is not run,
    nothing is logged, and the world only saw the clock read. *)
Theorem unauthorised_requests_are_stopped :
  Getenv "BASIC_AUTH_USER" <> "" ->
  Getenv "BASIC_AUTH_PASS" <> "" ->
  BasicAuth r <> Some (Getenv "BASIC_AUTH_USER", Getenv "BASIC_AUTH_PASS") ->
  status_line w = None ->
  exists w',
    AuthAndLoggingMiddleware Getenv next w r v = (Ok w', set_ticks (S (ticks v)) v)
    /\ status_line w' = Some StatusUnauthorized
    /\ In ("WWW-Authenticate", "Basic realm=" ++ quote ++ "Restricted" ++ quote)
         (sent_header w')
    /\ body w' = (body w ++ [Text ("Unauthorized" ++ newline)])%list.
Proof.
  intros Huser Hpass Hcred Hfresh.
  unfold AuthAndLoggingMiddleware. unfold bind at 1. unfold time_Now at 1. cbv zeta.
  apply String.eqb_neq in Huser, Hpass. rewrite Huser, Hpass. cbn [orb].
  assert (Hstop : exists w',
             ret (http_Error
                    (Header_Set "WWW-Authenticate"
                       ("Basic realm=" ++ quote ++ "Restricted" ++ quote) w)
                    "Unauthorized" StatusUnauthorized) (set_ticks (S (ticks v)) v)
             = (Ok w', set_ticks (S (ticks v)) v)
             /\ status_line w' = Some StatusUnauthorized
             /\ In ("WWW-Authenticate", "Basic realm=" ++ quote ++ "Restricted" ++ quote)
                  (sent_header w')
             /\ body w' = (body w ++ [Text ("Unauthorized" ++ newline)])%list).
  { eexists. split; [reflexivity|].
    unfold http_Error, Write, WriteHeader, Header_Set. cbn. rewrite Hfresh. cbn.
    split; [reflexivity|]. split; [right; right; left; reflexivity|reflexivity]. }
  destruct (BasicAuth r) as [[user pass]|]; [|exact Hstop].
  destruct (String.eqb_spec user (Getenv "BASIC_AUTH_USER")) as [->|Hu]; cbn [negb orb];
    [|exact Hstop].
  destruct (String.eqb_spec pass (Getenv "BASIC_AUTH_PASS")) as [->|Hp]; cbn [negb];
    [|exact Hstop].
  contradiction Hcred. reflexivity.
Qed.

(** X21. A request is served when one of the two variables is blank, whatever
    its credentials, or when it has the credentials of the environment.
    The next handler then runs after the clock was read (and after the
    warning was logged in the first case), its response is passed on as it
    is, and one line is logged that says [Status: 200] whatever the status
    of that response.  A panic of the next handler passes, and no line is
    logged for it. *)
Theorem served_requests_are_logged_as_200 :
  forall entered,
    (Getenv "BASIC_AUTH_USER" = "" \/ Getenv "BASIC_AUTH_PASS" = ""
     -> entered
        = set_logs
            ("WARNING: BASIC_AUTH environment variables not set. Skipping authentication."
             :: logs v) (set_ticks (S (ticks v)) v)) ->
    (Getenv "BASIC_AUTH_USER" <> "" /\ Getenv "BASIC_AUTH_PASS" <> ""
     -> BasicAuth r = Some (Getenv "BASIC_AUTH_USER", Getenv "BASIC_AUTH_PASS")
        /\ entered = set_ticks (S (ticks v)) v) ->
    (forall w1 v1,
        next w r entered = (Ok w1, v1) ->
        AuthAndLoggingMiddleware Getenv next w r v
        = (Ok w1,
           set_logs
             (("[" ++ Method r ++ "] " ++ URL_Path r ++ " " ++ Proto r
               ++ " | Status: 200 | Duration: "
               ++ Since_String (clock v (ticks v)) (clock v1 (ticks v1))) :: logs v1)
             (set_ticks (S (ticks v1)) v1)))
    /\ (forall x v1,
          next w r entered = (Panic x, v1) ->
          AuthAndLoggingMiddleware Getenv next w r v = (Panic x, v1)).
Proof.
  intros entered Hblank Hset.
  assert (Hserve :
            forall v0,
              v0 = entered ->
              (forall w1 v1,
                  next w r entered = (Ok w1, v1) ->
                  (w <- next w r ;;
                   now <- time_Now ;;
                   log_Print ("[" ++ Method r ++ "] " ++ URL_Path r ++ " " ++ Proto r
                              ++ " | Status: " ++ NilZero.string_of_int (Z.to_int StatusOK)
                              ++ " | Duration: "
                              ++ Since_String (clock v (ticks v)) now) ;;;
                   ret w) v0
                  = (Ok w1,
                     set_logs
                       (("[" ++ Method r ++ "] " ++ URL_Path r ++ " " ++ Proto r
                         ++ " | Status: 200 | Duration: "
                         ++ Since_String (clock v (ticks v)) (clock v1 (ticks v1)))
                        :: logs v1)
                       (set_ticks (S (ticks v1)) v1)))
              /\ (forall x v1,
                    next w r entered = (Panic x, v1) ->
                    (w <- next w r ;;
                     now <- time_Now ;;
                     log_Print ("[" ++ Method r ++ "] " ++ URL_Path r ++ " " ++ Proto r
                                ++ " | Status: " ++ NilZero.string_of_int (Z.to_int StatusOK)
                                ++ " | Duration: "
                                ++ Since_String (clock v (ticks v)) now) ;;;
                     ret w) v0
                    = (Panic x, v1))).
  { intros v0 ->. split.
    - intros w1 v1 Hnext. unfold bind at 1. rewrite Hnext. reflexivity.
    - intros x v1 Hnext. unfold bind at 1. rewrite Hnext. reflexivity. }
  unfold AuthAndLoggingMiddleware. unfold bind at 1. unfold time_Now at 1. cbv zeta.
  destruct (String.eqb_spec (Getenv "BASIC_AUTH_USER") "") as [Hu|Hu]; cbn [orb].
  - unfold bind at 1. unfold log_Print at 1, modify. apply Hserve.
    rewrite (Hblank (or_introl Hu)). reflexivity.
  - destruct (String.eqb_spec (Getenv "BASIC_AUTH_PASS") "") as [Hp|Hp].
    + unfold bind at 1. unfold log_Print at 1, modify. apply Hserve.
      rewrite (Hblank (or_intror Hp)). reflexivity.
    + destruct (Hset (conj Hu Hp)) as (-> & Hentered). rewrite !String.eqb_refl.
      cbn [negb orb]. apply Hserve. rewrite Hentered. reflexivity.
Qed.

End Middleware.

(** ** GET /users from the request to the response *)

Section ListingUsers.
Context `{GoLibs}.

(** X22. GET /users through the handler and the service of [main], on a
    response without a status line: a store that answers gives 200 and the
    committed rows, one user per row and in their order; a store that
    fails the SELECT gives 500, and the message of the response holds the
    text of the failure of the store behind two prefixes. *)
Theorem listing_users_end_to_end :
  forall w r v,
    status_line w = None ->
    (hd None (faults v) = None ->
     exists w' v',
       route_FindAll userHandler w r v = (Ok w', v')
       /\ status_line w' = Some StatusOK
       /\ body w' = (body w ++ [JSON_Users (Some (map FromEntity (committed v)))])%list
       /\ committed v' = committed v)
    /\ (forall cause,
          hd None (faults v) = Some cause ->
          exists w' v',
            route_FindAll userHandler w r v = (Ok w', v')
            /\ status_line w' = Some StatusInternalServerError
            /\ body w'
               = (body w
                  ++ [JSON_ErrorResponse
                        {| Status := StatusInternalServerError;
                           Message := "internal service error: internal server error: "
                                      ++ Error cause |}])%list
            /\ committed v' = committed v).
Proof.
  intros w r v Hfresh.
  unfold route_FindAll, ErrorHandlerWrapper, UserHandler_FindAll.
  change (service_FindAll (handler_userService userHandler))
    with (UserServiceImpl_FindAll userService).
  unfold UserServiceImpl_FindAll.
  change (repo_FindAll (Repo userService)) with (PostgresRepository_FindAll userRepository).
  unfold PostgresRepository_FindAll, gorm_Find. change (db userRepository) with Pool.
  unfold statement, statement_failed, bind, gets, emit, modify, next_fault, ret.
  split.
  - intros Hf. simpl. destruct (tx v); simpl; rewrite Hf; simpl;
      unfold Write, WriteHeader, Header_Set; cbn; rewrite Hfresh; cbn;
      eexists; eexists; (split; [reflexivity|]); cbn; auto.
  - intros cause Hf. simpl. destruct (tx v); simpl; rewrite Hf; simpl;
      unfold mapRepositoryError, refuse, errors_New, fmt_Errorf_w, bind, ret;
      cbn; unfold Write, WriteHeader, Header_Set; cbn; rewrite Hfresh; cbn;
      eexists; eexists; (split; [reflexivity|]); cbn; auto.
Qed.

End ListingUsers.

Lemma listing_users_end_to_end_witness :
  exists w' v',
    route_FindAll (userHandler (H := example_libs)) new_ResponseWriter get_jane
      world_with_jane = (Ok w', v')
    /\ status_line w' = Some StatusOK
    /\ body w' = [JSON_Users (Some [jane])].
Proof.
  destruct (proj1 (@listing_users_end_to_end example_libs new_ResponseWriter get_jane
                     world_with_jane eq_refl) eq_refl)
    as (w' & v' & Hrun & Hstatus & Hbody & _).
  exists w', v'. split; [exact Hrun|]. split; [exact Hstatus|exact Hbody].
Defined.

Lemma failed_mutation_publishes_nothing_witness :
  committed (snd (UserServiceImpl_Create (H := example_libs) userService (Some jane_request)
                    world_with_jane))
  = committed world_with_jane.
Proof.
  refine (proj1 (proj1 (@failed_mutation_publishes_nothing example_libs world_with_jane)
                   (Some jane_request) _ _ (surjective_pairing _) _)).
  vm_compute. exact I.
Defined.

Lemma missing_user_is_reported_witness :
  exists w',
    UserServiceImpl_FindById (H := example_libs) userService (ID jane) fresh_world
    = (Ok (None, Some (errorString (next_loc fresh_world) "user not found")), w')
    /\ committed w' = committed fresh_world.
Proof.
  refine (proj1 (@missing_user_is_reported example_libs (ID jane) fresh_world _ _ _)).
  - discriminate.
  - reflexivity.
  - reflexivity.
Defined.


Lemma refused_requests_never_reach_the_service_witness :
  exists err,
    UserHandler_CreateUser (userHandler (H := example_libs)) new_ResponseWriter
      post_without_body world_with_jane
    = (Ok (Some err, new_ResponseWriter),
       set_next_loc (S (next_loc world_with_jane)) world_with_jane)
    /\ (HTTPError_Status err = StatusBadRequest
        \/ HTTPError_Status err = StatusInternalServerError).
Proof.
  apply (proj1 (refused_requests_never_reach_the_service
                  (userHandler (H := example_libs)) new_ResponseWriter post_without_body
                  world_with_jane)).
  left. reflexivity.
Defined.

Lemma handlers_answer_or_refuse_witness :
  exists out w' v',
    UserHandler_FindById (userHandler (H := example_libs)) new_ResponseWriter get_jane
      world_with_jane = (Ok (out, w'), v')
    /\ answered_or_refused new_ResponseWriter StatusOK is_JSON_User out w'.
Proof.
  eexists; eexists; eexists. split; [vm_compute; reflexivity|].
  eapply (proj1 (proj2 (proj2 (handlers_answer_or_refuse
                                 (userHandler (H := example_libs)) new_ResponseWriter
                                 get_jane world_with_jane eq_refl)))).
  vm_compute. reflexivity.
Defined.

Lemma statuses_of_main_witness :
  exists w' v',
    route_FindById (userHandler (H := example_libs)) new_ResponseWriter get_jane fresh_world
    = (Ok w', v')
    /\ status_line w' = Some StatusInternalServerError
    /\ answers w' [StatusOK; StatusBadRequest; StatusInternalServerError].
Proof.
  eexists; eexists. split; [vm_compute; reflexivity|]. split; [reflexivity|].
  eapply (proj1 (proj2 (proj2 (@statuses_of_main example_libs new_ResponseWriter get_jane
                                 fresh_world _ _ eq_refl (le_n _))))).
  vm_compute. reflexivity.
Defined.

Lemma unauthorised_requests_are_stopped_witness :
  exists w',
    AuthAndLoggingMiddleware (H := example_http_libs) example_env
      (route_FindById (userHandler (H := example_libs))) new_ResponseWriter
      get_jane_unsigned world_with_jane
    = (Ok w', set_ticks (S (ticks world_with_jane)) world_with_jane)
    /\ status_line w' = Some StatusUnauthorized
    /\ In ("WWW-Authenticate", "Basic realm=" ++ quote ++ "Restricted" ++ quote)
         (sent_header w')
    /\ body w' = (body new_ResponseWriter ++ [Text ("Unauthorized" ++ newline)])%list.
Proof.
  apply (@unauthorised_requests_are_stopped example_http_libs example_env
           (route_FindById (userHandler (H := example_libs))) new_ResponseWriter
           get_jane_unsigned world_with_jane).
  - discriminate.
  - discriminate.
  - discriminate.
  - reflexivity.
Defined.

Lemma served_requests_are_logged_as_200_witness :
  exists w1 v1,
    route_FindById (userHandler (H := example_libs)) new_ResponseWriter get_jane_unsigned
      (set_logs
         ["WARNING: BASIC_AUTH environment variables not set. Skipping authentication."]
         (set_ticks 1 fresh_world))
    = (Ok w1, v1)
    /\ AuthAndLoggingMiddleware (H := example_http_libs) empty_env
         (route_FindById (userHandler (H := example_libs))) new_ResponseWriter
         get_jane_unsigned fresh_world
       = (Ok w1,
          set_logs
            ("[GET] /users/01HK153X000T155G450H8JH0AF HTTP/1.1 | Status: 200 | Duration: 1000000ns"
             :: logs v1) (set_ticks (S (ticks v1)) v1))
    /\ status_line w1 = Some StatusInternalServerError.
Proof.
  eexists; eexists. split; [vm_compute; reflexivity|]. split; [|reflexivity].
  refine (eq_trans
            (proj1 (@served_requests_are_logged_as_200 example_http_libs empty_env
                      (route_FindById (userHandler (H := example_libs)))
                      new_ResponseWriter get_jane_unsigned fresh_world
                      _ (fun _ => eq_refl) _) _ _ _) _).
  - intros [Huser _]. contradiction Huser. reflexivity.
  - vm_compute. reflexivity.
  - vm_compute. reflexivity.
Defined.
